(** * Attendance ledger and analytics aggregation

    A shallow embedding of the attendance ledger (server.js), the dashboard
    aggregation helpers (dashboard-charts.js), the reporting engine
    (AdvancedReporting) and the analytics of SuperDatabase, followed by the
    properties the specification states about them.

    Conventions of the embedding.
    - A JavaScript number is a [JsNum]: NaN, an infinity, or a rational.
      Every number the modelled code computes is an integer below 2^53 or a
      quotient of two such integers compared against an integer threshold;
      with fewer than 2^32 array elements the rounding of the double
      division (relative error 2^-53) cannot change any comparison made, so
      rationals stand for the doubles. The two places that take an integer
      of any size from a file or a request body, the id of a new account
      and the printing of a number of the body, round it as a double does
      ([double_of_Z]).
    - A string that is only compared or printed is a Rocq string; a
      password, which the code measures and scans, is the list of its
      UTF-16 code units ([JsString]); the edit distance reads a Rocq
      string as one code unit per character.
    - A timestamp is kept as the time value of [new Date(r.timestamp)]:
      [Some t] for [t] milliseconds since the epoch, [None] for the NaN time
      value of an Invalid Date (an unparseable string).
    - A plain object used as a map is a [JsObject]: its own properties in the
      order [Object.entries] enumerates them. *)

From Stdlib Require Import ZArith NArith QArith Qround Qabs Bool List.
From Stdlib Require Import String Ascii.
From Stdlib Require Import Decimal DecimalString Lia Sorted Permutation.
Import ListNotations.

Local Open Scope list_scope.
Local Open Scope string_scope.
Local Open Scope Z_scope.

(* ------------------------------------------------------------------ *)
(** ** JavaScript values *)

Module Js.

(** The primitive values a JSON request body field can carry (nested objects
    and arrays and non-integer numbers are left out: the modelled routes only
    compare the value with string literals and print it). [JsInt z] is the
    number the integer literal [z] of the body parses to, the double
    nearest [z]. *)
Inductive JsValue :=
| JsUndefined
| JsNull
| JsBool (b : bool)
| JsInt (z : Z)
| JsStr (s : string).

Definition Z_to_string (z : Z) : string := NilZero.string_of_int (Z.to_int z).
Definition N_to_string (n : N) : string := NilZero.string_of_uint (N.to_uint n).

(** The integer [z] rounded to the nearest double, ties to even. Integers
    up to 2^53 in absolute value are doubles; from there on a double keeps
    the 53 leading bits. A result of 2^1024 or more stands for an
    infinity. *)
Definition double_of_Z (z : Z) : Z :=
  let a := Z.abs z in
  if a <=? 2 ^ 53 then z
  else
    let e := Z.log2 a - 52 in
    let q := a / 2 ^ e in
    let r := a mod 2 ^ e in
    let half := 2 ^ (e - 1) in
    let q := if (half <? r) || ((r =? half) && Z.odd q) then q + 1 else q in
    Z.sgn z * (q * 2 ^ e).

(** The decimal digits printed for the positive double [x]: the shortest
    significand [s] and the exponent [p] with [s * 10^p] rounding to [x],
    the closest to [x] (then the even one) when two significands
    qualify. [p] starts at the number of digits of [x]. *)
Fixpoint shortest_digits (x : Z) (p : nat) : Z * Z :=
  match p with
  | O => (x, 0)
  | S p' =>
      let m := 10 ^ Z.of_nat p in
      let lo := x / m in
      let hi := lo + 1 in
      let ok_lo := (0 <? lo) && (double_of_Z (lo * m) =? x) in
      let ok_hi := double_of_Z (hi * m) =? x in
      let d_lo := x - lo * m in
      let d_hi := hi * m - x in
      if ok_lo && ok_hi then
        if (d_lo <? d_hi) || ((d_lo =? d_hi) && Z.even lo)
        then (lo, Z.of_nat p) else (hi, Z.of_nat p)
      else if ok_lo then (lo, Z.of_nat p)
      else if ok_hi then (hi, Z.of_nat p)
      else shortest_digits x p'
  end.

Fixpoint zeros (n : nat) : string :=
  match n with
  | O => ""
  | S n' => "0" ++ zeros n'
  end.

(** Number::toString of the double nearest the integer [z]: the digits of
    the shortest significand followed by zeros below 10^21, exponent form
    from there on. *)
Definition Number_toString (z : Z) : string :=
  let x := Z.abs (double_of_Z z) in
  if x =? 0 then "0"
  else
    let sign := if z <? 0 then "-" else "" in
    if 2 ^ 1024 <=? x then sign ++ "Infinity"
    else
      let (s, p) := shortest_digits x (String.length (Z_to_string x)) in
      let digits := Z_to_string s in
      let n := Z.of_nat (String.length digits) + p in
      if n <=? 21 then sign ++ digits ++ zeros (Z.to_nat p)
      else
        match digits with
        | String d EmptyString =>
            sign ++ String d "" ++ "e+" ++ Z_to_string (n - 1)
        | String d rest =>
            sign ++ String d "" ++ "." ++ rest ++ "e+" ++ Z_to_string (n - 1)
        | EmptyString => sign
        end.

(** ToString, as a template literal applies it. *)
Definition ToString (v : JsValue) : string :=
  match v with
  | JsUndefined => "undefined"
  | JsNull => "null"
  | JsBool true => "true"
  | JsBool false => "false"
  | JsInt z => Number_toString z
  | JsStr s => s
  end.

(** [v === s] for a string literal [s]. *)
Definition strict_eq_str (v : JsValue) (s : string) : bool :=
  match v with
  | JsStr s' => String.eqb s' s
  | _ => false
  end.

(** Numbers: NaN, the two infinities, finite values. *)
Inductive JsNum :=
| NaN
| Infty (negative : bool)
| Fin (q : Q).

Definition num_of_Z (z : Z) : JsNum := Fin (inject_Z z).

Definition Qnegb (q : Q) : bool := (Qnum q <? 0)%Z.
Definition Qzerob (q : Q) : bool := (Qnum q =? 0)%Z.

Definition num_neg (a : JsNum) : JsNum :=
  match a with
  | NaN => NaN
  | Infty s => Infty (negb s)
  | Fin q => Fin (- q)
  end.

Definition num_add (a b : JsNum) : JsNum :=
  match a, b with
  | NaN, _ | _, NaN => NaN
  | Infty s, Infty s' => if Bool.eqb s s' then Infty s else NaN
  | Infty s, Fin _ | Fin _, Infty s => Infty s
  | Fin p, Fin q => Fin (p + q)
  end.

Definition num_sub (a b : JsNum) : JsNum := num_add a (num_neg b).

(** Division; the divisors of the modelled code are array lengths, so the
    sign of a zero divisor is always positive. *)
Definition num_div (a b : JsNum) : JsNum :=
  match a, b with
  | NaN, _ | _, NaN => NaN
  | Infty _, Infty _ => NaN
  | Infty s, Fin q => Infty (xorb s (Qnegb q))
  | Fin _, Infty _ => Fin 0
  | Fin p, Fin q =>
      if Qzerob q then (if Qzerob p then NaN else Infty (Qnegb p))
      else Fin (p / q)
  end.

Definition Math_abs (a : JsNum) : JsNum :=
  match a with
  | NaN => NaN
  | Infty _ => Infty false
  | Fin q => Fin (Qabs q)
  end.

(** [a > b]; false as soon as one side is NaN. *)
Definition num_gtb (a b : JsNum) : bool :=
  match a, b with
  | NaN, _ | _, NaN => false
  | Infty s, Infty s' => negb s && s'
  | Infty s, Fin _ => negb s
  | Fin _, Infty s => s
  | Fin p, Fin q => negb (Qle_bool p q)
  end.

(** Math.round: the integer nearest to the argument, halves rounded up. *)
Definition Math_round (a : JsNum) : JsNum :=
  match a with
  | Fin q => Fin (inject_Z (Qfloor (q + (1 # 2))))
  | _ => a
  end.

(** ToString of a number, used on integral values only. *)
Definition num_to_string (a : JsNum) : string :=
  match a with
  | NaN => "NaN"
  | Infty false => "Infinity"
  | Infty true => "-Infinity"
  | Fin q => Z_to_string (Qfloor q)
  end.

(** parseInt(s) without a radix: leading blanks, a sign, then the longest
    prefix of digits (hexadecimal after 0x); NaN ([None]) without a digit. *)
Definition digit_value (radix : N) (c : ascii) : option N :=
  let n := N_of_ascii c in
  let v :=
    if ((48 <=? n) && (n <=? 57))%N then Some (n - 48)%N
    else if ((97 <=? n) && (n <=? 122))%N then Some (n - 87)%N
    else if ((65 <=? n) && (n <=? 90))%N then Some (n - 55)%N
    else None in
  match v with
  | Some d => if (d <? radix)%N then Some d else None
  | None => None
  end.

Fixpoint parse_digits (radix : N) (s : string) (acc : option N) : option N :=
  match s with
  | String c s' =>
      match digit_value radix c with
      | Some d =>
          parse_digits radix s'
            (Some (radix * match acc with Some a => a | None => 0 end + d)%N)
      | None => acc
      end
  | EmptyString => acc
  end.

Definition is_blank (c : ascii) : bool :=
  let n := N_of_ascii c in
  ((n =? 32) || ((9 <=? n) && (n <=? 13)))%N.

Fixpoint skip_blanks (s : string) : string :=
  match s with
  | String c s' => if is_blank c then skip_blanks s' else s
  | EmptyString => s
  end.

Definition parse_unsigned (s : string) : option N :=
  match s with
  | String "0" (String "x" s') | String "0" (String "X" s') =>
      parse_digits 16 s' None
  | _ => parse_digits 10 s None
  end.

Definition parseInt (s : string) : option Z :=
  match skip_blanks s with
  | String "-" s' => option_map (fun n => - Z.of_N n) (parse_unsigned s')
  | String "+" s' => option_map Z.of_N (parse_unsigned s')
  | s' => option_map Z.of_N (parse_unsigned s')
  end.

End Js.
Import Js.

(* ------------------------------------------------------------------ *)
(** ** Date objects *)

(** The time value of a Date: [None] is NaN (Invalid Date). *)
Definition TimeValue := option Z.

Definition msPerHour : Z := 3600000.
Definition msPerDay : Z := 86400000.
Definition maxTimeValue : Z := 8640000000000000.

(** TimeClip, applied by [new Date(number)]. *)
Definition TimeClip (t : Z) : TimeValue :=
  if Z.abs t <=? maxTimeValue then Some t else None.

Definition Day (t : Z) : Z := t / msPerDay.
Definition WeekDay (t : Z) : Z := (Day t + 4) mod 7.
Definition HourFromTime (t : Z) : Z := (t / msPerHour) mod 24.

(** Year, month (1..12) and day of the month of a day number counted from
    1970-01-01, in the proleptic Gregorian calendar. *)
Definition civil_from_days (days : Z) : Z * Z * Z :=
  let z := days + 719468 in
  let era := z / 146097 in
  let doe := z mod 146097 in
  let yoe := (doe - doe / 1460 + doe / 36524 - doe / 146096) / 365 in
  let doy := doe - (365 * yoe + yoe / 4 - yoe / 100) in
  let mp := (5 * doy + 2) / 153 in
  let d := doy - (153 * mp + 2) / 5 + 1 in
  let m := if mp <? 10 then mp + 3 else mp - 9 in
  (yoe + era * 400 + (if m <=? 2 then 1 else 0), m, d).

Definition dayNames : list string :=
  ["Sun"; "Mon"; "Tue"; "Wed"; "Thu"; "Fri"; "Sat"].
Definition monthNames : list string :=
  ["Jan"; "Feb"; "Mar"; "Apr"; "May"; "Jun";
   "Jul"; "Aug"; "Sep"; "Oct"; "Nov"; "Dec"].

Fixpoint pad_left (fuel width : nat) (s : string) : string :=
  match fuel with
  | O => s
  | S f => if Nat.ltb (String.length s) width
           then pad_left f width ("0" ++ s) else s
  end.

(** ToZeroPaddedDecimalString *)
Definition zero_pad (width : nat) (s : string) : string :=
  pad_left width width s.

(** The date part of the string forms, for a local time [lt]. *)
Definition DateString (lt : Z) : string :=
  let '(y, m, d) := civil_from_days (Day lt) in
  nth (Z.to_nat (WeekDay lt)) dayNames "Sun" ++ " " ++
  nth (Z.to_nat (m - 1)) monthNames "Jan" ++ " " ++
  zero_pad 2 (Z_to_string d) ++ " " ++
  (if y <? 0 then "-" else "") ++ zero_pad 4 (Z_to_string (Z.abs y)).

(** [a >= b] and [a <= b] on Date objects: both are converted to their time
    values, and a comparison with NaN is false. *)
Definition date_geb (a b : TimeValue) : bool :=
  match a, b with
  | Some x, Some y => y <=? x
  | _, _ => false
  end.

Definition date_leb (a b : TimeValue) : bool :=
  match a, b with
  | Some x, Some y => x <=? y
  | _, _ => false
  end.

(* ------------------------------------------------------------------ *)
(** ** Data model *)

(** A stored attendance record (server.js, POST /api/attendance). *)
Record AttendanceRecord := {
  id : Z;
  userId : Z;
  username : string;
  action : JsValue;
  timestamp : TimeValue;
  location : string
}.

(** An activity log entry (server.js, logActivity). *)
Record LogEntry := {
  log_id : Z;
  log_type : string;
  log_description : string;
  log_userId : Z;
  log_timestamp : TimeValue;
  ipAddress : string
}.

(** The JSON files of the database directory; [None] when reading the file
    fails. *)
Record Database := {
  ATTENDANCE_FILE : option (list AttendanceRecord);
  LOGS_FILE : option (list LogEntry)
}.

(** The identity the token middleware attaches to a request. *)
Record AuthUser := {
  user_id : Z;
  user_name : string;
  user_role : string
}.

(** The payload of GET /api/reports/:type. *)
Record Report := {
  rp_type : string;
  rp_period : string;
  rp_totalRecords : Z;
  rp_signIns : Z;
  rp_signOuts : Z;
  rp_records : list AttendanceRecord
}.

Inductive Body :=
| ErrorBody (error : string)
| RecordBody (r : AttendanceRecord)
| RecordsBody (l : list AttendanceRecord)
| ReportBody (rp : Report).

Record Response := {
  status : Z;
  body : Body
}.

Definition is_sign_in (r : AttendanceRecord) : bool :=
  strict_eq_str (action r) "sign-in".
Definition is_sign_out (r : AttendanceRecord) : bool :=
  strict_eq_str (action r) "sign-out".

Definition length_Z {A} (l : list A) : Z := Z.of_nat (List.length l).

(* ------------------------------------------------------------------ *)
(** ** server.js: the ledger routes *)

Definition server_error : Response :=
  {| status := 500; body := ErrorBody "Server error" |}.

(** logActivity: appends an entry to the log file; a failure is caught and
    only printed. [clock k] is the k-th reading of the wall clock taken while
    the request is served. *)
Definition logActivity (clock : nat -> Z) (type description : string)
    (uid : Z) (db : Database) : Database :=
  match LOGS_FILE db with
  | None => db
  | Some logs =>
      {| ATTENDANCE_FILE := ATTENDANCE_FILE db;
         LOGS_FILE := Some (logs ++
           [{| log_id := clock 2%nat;
               log_type := type;
               log_description := description;
               log_userId := uid;
               log_timestamp := Some (clock 3%nat);
               ipAddress := "127.0.0.1" |}])%list |}
  end.


(** app.post('/api/attendance'): [act] is the [action] field of the body. *)
Definition post_attendance (clock : nat -> Z) (user : AuthUser)
    (act : JsValue) (db : Database) : Database * Response :=
  match ATTENDANCE_FILE db with
  | None => (db, server_error)
  | Some attendance =>
      let record :=
        {| id := clock 0%nat;
           userId := user_id user;
           username := user_name user;
           action := act;
           timestamp := Some (clock 1%nat);
           location := "Office" |} in
      let db1 :=
        {| ATTENDANCE_FILE := Some (attendance ++ [record])%list;
           LOGS_FILE := LOGS_FILE db |} in
      let db2 :=
        logActivity clock "attendance"
          (user_name user ++ " " ++ ToString act) (user_id user) db1 in
      (db2, {| status := 201; body := RecordBody record |})
  end.

(** SuperDatabase.validationRules and the body of the loop of
    SuperDatabase.validateData for one field. The date type and the pattern
    check, which the rule of the [action] field does not use, are left
    out. *)
Record Rule := {
  required : bool;
  type_number : bool;
  minLength : option nat;
  maxLength : option nat;
  enum : option (list string)
}.

Definition attendance_action_rule : Rule :=
  {| required := true; type_number := false; minLength := None;
     maxLength := None; enum := Some ["sign-in"; "sign-out"] |}.

Definition is_empty_value (v : JsValue) : bool :=
  match v with
  | JsUndefined | JsNull => true
  | JsStr s => String.eqb s ""
  | _ => false
  end.

Definition includes (l : list string) (v : JsValue) : bool :=
  existsb (strict_eq_str v) l.

Definition validateField (field : string) (rule : Rule) (value : JsValue)
    : list string :=
  if is_empty_value value then
    if required rule then [field ++ " is required"] else []
  else
    (if type_number rule
     then match value with JsInt _ => [] | _ => [field ++ " must be a number"] end
     else []) ++
    match value with
    | JsStr s =>
        match minLength rule with
        | Some n =>
            if (negb (Nat.eqb n 0) && Nat.ltb (String.length s) n)%bool
            then [field ++ " must be at least " ++
                  N_to_string (N.of_nat n) ++ " characters"]
            else []
        | None => []
        end ++
        match maxLength rule with
        | Some n =>
            if (negb (Nat.eqb n 0) && Nat.ltb n (String.length s))%bool
            then [field ++ " must not exceed " ++
                  N_to_string (N.of_nat n) ++ " characters"]
            else []
        | None => []
        end
    | _ => []
    end ++
    match enum rule with
    | Some values =>
        if includes values value then []
        else [field ++ " must be one of: " ++ String.concat ", " values]
    | None => []
    end.

(* ------------------------------------------------------------------ *)
(** ** Plain objects used as maps *)

(** A property key is an array index (a canonical numeric string below
    2^32 - 1, kept as its number) or any other string. *)
Inductive PropertyKey :=
| Idx (n : N)
| Str (s : string).

Definition array_index_limit : Z := 4294967295.

Definition array_index_of_string (s : string) : option N :=
  match NilEmpty.uint_of_string s with
  | Some d =>
      let n := N.of_uint d in
      if (String.eqb (N_to_string n) s && (Z.of_N n <? array_index_limit))%bool
      then Some n else None
  | None => None
  end.

(** ToPropertyKey of a string. *)
Definition key_of_string (s : string) : PropertyKey :=
  match array_index_of_string s with
  | Some n => Idx n
  | None => Str s
  end.

(** ToPropertyKey of an integral number or NaN ([None]). *)
Definition key_of_number (h : option Z) : PropertyKey :=
  match h with
  | None => Str "NaN"
  | Some z =>
      if ((0 <=? z) && (z <? array_index_limit))%bool
      then Idx (Z.to_N z) else Str (Z_to_string z)
  end.

(** The own properties of an object: array indices in ascending order, then
    the other keys in the order of their creation. *)
Record JsObject (V : Type) := {
  indices : list (N * V);
  names : list (string * V)
}.
Arguments indices {V} _.
Arguments names {V} _.

Definition empty_object {V} : JsObject V := {| indices := []; names := [] |}.

Fixpoint get_index {V} (n : N) (l : list (N * V)) : option V :=
  match l with
  | [] => None
  | (m, v) :: l' => if (n =? m)%N then Some v else get_index n l'
  end.

Fixpoint get_name {V} (s : string) (l : list (string * V)) : option V :=
  match l with
  | [] => None
  | (t, v) :: l' => if String.eqb s t then Some v else get_name s l'
  end.

Fixpoint set_index {V} (n : N) (v : V) (l : list (N * V)) : list (N * V) :=
  match l with
  | [] => [(n, v)]
  | (m, w) :: l' =>
      if (n <? m)%N then (n, v) :: l
      else if (n =? m)%N then (n, v) :: l'
      else (m, w) :: set_index n v l'
  end.

Fixpoint set_name {V} (s : string) (v : V) (l : list (string * V))
    : list (string * V) :=
  match l with
  | [] => [(s, v)]
  | (t, w) :: l' =>
      if String.eqb s t then (s, v) :: l' else (t, w) :: set_name s v l'
  end.

(** [o[k]] on own properties, [None] for undefined. *)
Definition obj_get {V} (k : PropertyKey) (o : JsObject V) : option V :=
  match k with
  | Idx n => get_index n (indices o)
  | Str s => get_name s (names o)
  end.

(** [o[k] = v] *)
Definition obj_set {V} (k : PropertyKey) (v : V) (o : JsObject V)
    : JsObject V :=
  match k with
  | Idx n => {| indices := set_index n v (indices o); names := names o |}
  | Str s => {| indices := indices o; names := set_name s v (names o) |}
  end.

Definition Object_entries {V} (o : JsObject V) : list (string * V) :=
  (map (fun e => (N_to_string (fst e), snd e)) (indices o) ++ names o)%list.

Definition Object_values {V} (o : JsObject V) : list V :=
  map snd (Object_entries o).

(** The names every plain object inherits from Object.prototype; each of
    them reads as a truthy value on an object without own properties. *)
Definition prototype_names : list string :=
  ["constructor"; "__proto__"; "hasOwnProperty"; "isPrototypeOf";
   "propertyIsEnumerable"; "toLocaleString"; "toString"; "valueOf";
   "__defineGetter__"; "__defineSetter__"; "__lookupGetter__";
   "__lookupSetter__"].

Definition inherited (s : string) : bool :=
  existsb (String.eqb s) prototype_names.

(** Array.prototype.sort with a comparator. The sort is stable, and for a
    consistent comparator its result is the one of a stable insertion
    sort: [x] is placed before the first [y] with [cmp x y <= 0]. *)
Fixpoint sort_insert {A} (cmp : A -> A -> Z) (x : A) (l : list A) : list A :=
  match l with
  | [] => [x]
  | y :: l' => if 0 <? cmp x y then y :: sort_insert cmp x l' else x :: l
  end.

Definition Array_sort {A} (cmp : A -> A -> Z) (l : list A) : list A :=
  fold_right (sort_insert cmp) [] l.

(** [l.slice(0, n)] *)
Definition slice0 {A} (n : nat) (l : list A) : list A := firstn n l.

(** [(v || 0)] on a count read from an object. *)
Definition or_zero (v : option Z) : Z :=
  match v with
  | Some c => if c =? 0 then 0 else c
  | None => 0
  end.

(** The counters of a breakdown bucket. *)
Record Counters := {
  signIns : Z;
  signOuts : Z
}.

Definition zero_counters : Counters := {| signIns := 0; signOuts := 0 |}.

(** [c[record.action === 'sign-in' ? 'signIns' : 'signOuts']++] *)
Definition bump (r : AttendanceRecord) (c : Counters) : Counters :=
  if is_sign_in r
  then {| signIns := signIns c + 1; signOuts := signOuts c |}
  else {| signIns := signIns c; signOuts := signOuts c + 1 |}.

(** An entry of the peak hours ranking. *)
Record PeakHour := {
  hour : option Z;
  count : Z
}.

(** The comparator [([,a], [,b]) => b - a]. *)
Definition by_count_desc (x y : string * Z) : Z := snd y - snd x.

Definition peak_entry (e : string * Z) : PeakHour :=
  {| hour := parseInt (fst e); count := snd e |}.

(** An anomaly reported by detectAnomalies. *)
Record Anomaly := {
  an_type : string;
  an_record : AttendanceRecord;
  an_message : string
}.

Definition hour_num (h : option Z) : JsNum :=
  match h with
  | Some z => num_of_Z z
  | None => NaN
  end.

(* ------------------------------------------------------------------ *)
(** ** The operations that read the local clock *)

Section Aggregation.

(** The offset of local time from UTC at a given time value, in
    milliseconds (the host's time zone, daylight saving included). *)
Variable LocalTZA : Z -> Z.

Definition LocalTime (t : Z) : Z := t + LocalTZA t.

(** [d.getHours()]: NaN ([None]) for an Invalid Date. *)
Definition getHours (d : TimeValue) : option Z :=
  option_map (fun t => HourFromTime (LocalTime t)) d.

(** [d.toDateString()] *)
Definition toDateString (d : TimeValue) : string :=
  match d with
  | Some t => DateString (LocalTime t)
  | None => "Invalid Date"
  end.

(** *** server.js: GET /api/reports/:type *)

(** A request of the report route: the path parameter and the query
    string, which the handler never reads. *)
Record ReportRequest := {
  params_type : string;
  query : list (string * string)
}.

(** The [switch] of the route: the records kept for a type, [None] in the
    default branch. [now] is the time value of [new Date()]. *)
Definition filteredRecords (type : string) (now : Z)
    (attendance : list AttendanceRecord) : option (list AttendanceRecord) :=
  if String.eqb type "daily" then
    let today := toDateString (Some now) in
    Some (filter (fun r => String.eqb (toDateString (timestamp r)) today)
            attendance)
  else if String.eqb type "weekly" then
    let weekAgo := TimeClip (now - 7 * 24 * 60 * 60 * 1000) in
    Some (filter (fun r => date_geb (timestamp r) weekAgo) attendance)
  else if String.eqb type "monthly" then
    let monthAgo := TimeClip (now - 30 * 24 * 60 * 60 * 1000) in
    Some (filter (fun r => date_geb (timestamp r) monthAgo) attendance)
  else None.

Definition get_report (req : ReportRequest) (now : Z) (db : Database)
    : Response :=
  match ATTENDANCE_FILE db with
  | None => server_error
  | Some attendance =>
      match filteredRecords (params_type req) now attendance with
      | None => {| status := 400; body := ErrorBody "Invalid report type" |}
      | Some records =>
          {| status := 200;
             body := ReportBody
               {| rp_type := params_type req;
                  rp_period := params_type req;
                  rp_totalRecords := length_Z records;
                  rp_signIns := length_Z (filter is_sign_in records);
                  rp_signOuts := length_Z (filter is_sign_out records);
                  rp_records := records |} |}
      end
  end.

(** *** dashboard-charts.js: the breakdown helpers *)

Definition getHourlyBreakdown (records : list AttendanceRecord) : JsObject Z :=
  fold_left
    (fun breakdown record =>
       let hour := key_of_number (getHours (timestamp record)) in
       obj_set hour (or_zero (obj_get hour breakdown) + 1) breakdown)
    records empty_object.

(** A date string is never the name of an inherited property, so a bucket
    is missing exactly when the object has no own property for it. *)
Definition getDailyBreakdown (records : list AttendanceRecord)
    : JsObject Counters :=
  fold_left
    (fun breakdown record =>
       let date := key_of_string (toDateString (timestamp record)) in
       let bucket :=
         match obj_get date breakdown with
         | Some c => c
         | None => zero_counters
         end in
       obj_set date (bump record bucket) breakdown)
    records empty_object.

(** For a username that names an inherited property the lookup finds the
    inherited value, which is truthy: no bucket is created and the
    increment lands on that inherited value, not on the breakdown. *)
Definition getUserBreakdown (records : list AttendanceRecord)
    : JsObject Counters :=
  fold_left
    (fun breakdown record =>
       let user := key_of_string (username record) in
       match obj_get user breakdown with
       | Some c => obj_set user (bump record c) breakdown
       | None =>
           if inherited (username record) then breakdown
           else obj_set user (bump record zero_counters) breakdown
       end)
    records empty_object.

(** The ranking shared by calculatePeakHours (5 entries), calculateAnalytics
    (3) and createPeakHoursChart (8):
    [Object.entries(h).sort(([,a], [,b]) => b - a).slice(0, topN)]. *)
Definition sortedHours (topN : nat) (hourly : JsObject Z) : list (string * Z) :=
  slice0 topN (Array_sort by_count_desc (Object_entries hourly)).

(** The data the dashboard gathers; the week and month record lists, which
    come from the calendar arithmetic of setDate, are left out. *)
Record DashboardData := {
  allRecords : list AttendanceRecord;
  todayRecords : list AttendanceRecord;
  hourlyBreakdown : JsObject Z;
  dailyBreakdown : JsObject Counters;
  userBreakdown : JsObject Counters
}.

Definition gatherDashboardData (records : list AttendanceRecord) (now : Z)
    : DashboardData :=
  let today := toDateString (Some now) in
  {| allRecords := records;
     todayRecords :=
       filter (fun r => String.eqb (toDateString (timestamp r)) today) records;
     hourlyBreakdown := getHourlyBreakdown records;
     dailyBreakdown := getDailyBreakdown records;
     userBreakdown := getUserBreakdown records |}.

Definition createPeakHoursChart_sortedHours (data : DashboardData)
    : list (string * Z) :=
  sortedHours 8 (hourlyBreakdown data).

Definition calculateProductivityScore (data : DashboardData) : Z :=
  let baseScore := 75 in
  let activityBonus := Z.min (length_Z (todayRecords data) * 2) 25 in
  Z.min (baseScore + activityBonus) 100.

(** *** SuperDatabase: analytics helpers *)

Record DateRange := {
  range_start : TimeValue;
  range_end : TimeValue
}.

Definition in_range (dateRange : DateRange) (r : AttendanceRecord) : bool :=
  date_geb (timestamp r) (range_start dateRange) &&
  date_leb (timestamp r) (range_end dateRange).

Definition filterRecordsByDateRange (records : list AttendanceRecord)
    (dateRange : option DateRange) : list AttendanceRecord :=
  match dateRange with
  | None => records
  | Some range => filter (in_range range) records
  end.

(** calculatePeakHours fills its [hourCounts] with the loop of
    getHourlyBreakdown, written out again in its body. *)
Definition calculatePeakHours (records : list AttendanceRecord)
    : list PeakHour :=
  map peak_entry (sortedHours 5 (getHourlyBreakdown records)).

Definition signInHours (records : list AttendanceRecord) : list (option Z) :=
  map (fun r => getHours (timestamp r)) (filter is_sign_in records).

Definition avgSignInHour (records : list AttendanceRecord) : JsNum :=
  num_div
    (fold_left (fun a b => num_add a (hour_num b)) (signInHours records)
       (num_of_Z 0))
    (num_of_Z (length_Z (signInHours records))).

Definition unusual_time (avg : JsNum) (record : AttendanceRecord) : bool :=
  is_sign_in record &&
  num_gtb
    (Math_abs (num_sub (hour_num (getHours (timestamp record))) avg))
    (num_of_Z 3).

Definition unusual_time_anomaly (avg : JsNum) (record : AttendanceRecord)
    : Anomaly :=
  {| an_type := "unusual_time";
     an_record := record;
     an_message :=
       "Unusual sign-in time: " ++
       num_to_string (hour_num (getHours (timestamp record))) ++
       ":00 (average: " ++ num_to_string (Math_round avg) ++ ":00)" |}.

Definition detectAnomalies (records : list AttendanceRecord) : list Anomaly :=
  let avgSignInHour := avgSignInHour records in
  flat_map
    (fun record =>
       if unusual_time avgSignInHour record
       then [unusual_time_anomaly avgSignInHour record] else [])
    records.

(** *** AdvancedReporting: gatherReportData and calculateAnalytics *)

Record UserStats := {
  us_signIns : Z;
  us_signOuts : Z;
  totalHours : Z
}.

Definition bump_user (r : AttendanceRecord) (c : UserStats) : UserStats :=
  if is_sign_in r
  then {| us_signIns := us_signIns c + 1; us_signOuts := us_signOuts c;
          totalHours := totalHours c |}
  else {| us_signIns := us_signIns c; us_signOuts := us_signOuts c + 1;
          totalHours := totalHours c |}.

Record Analytics := {
  totalSignIns : Z;
  totalSignOuts : Z;
  uniqueUsers : Z;
  an_dailyBreakdown : JsObject Counters;
  an_hourlyBreakdown : JsObject Z;
  an_userBreakdown : JsObject UserStats;
  averageSessionTime : Z;
  peakHours : list PeakHour;
  anomalies : list Anomaly
}.

(** The daily and the hourly breakdown of calculateAnalytics are the loops
    of getDailyBreakdown and getHourlyBreakdown, written out again in its
    body; its user buckets carry a [totalHours] field that stays 0. *)
Definition calculateAnalytics (records : list AttendanceRecord) : Analytics :=
  let hourly := getHourlyBreakdown records in
  {| totalSignIns := length_Z (filter is_sign_in records);
     totalSignOuts := length_Z (filter is_sign_out records);
     uniqueUsers := length_Z (nodup string_dec (map username records));
     an_dailyBreakdown := getDailyBreakdown records;
     an_hourlyBreakdown := hourly;
     an_userBreakdown :=
       fold_left
         (fun breakdown record =>
            let user := key_of_string (username record) in
            match obj_get user breakdown with
            | Some c => obj_set user (bump_user record c) breakdown
            | None =>
                if inherited (username record) then breakdown
                else obj_set user
                       (bump_user record
                          {| us_signIns := 0; us_signOuts := 0;
                             totalHours := 0 |})
                       breakdown
            end)
         records empty_object;
     averageSessionTime := 0;
     peakHours := map peak_entry (sortedHours 3 hourly);
     anomalies := [] |}.

Record ReportData := {
  rd_type : string;
  rd_dateRange : option DateRange;
  rd_records : list AttendanceRecord;
  rd_analytics : Analytics;
  generatedAt : TimeValue;
  rd_totalRecords : Z
}.

(** [records] is what the attendance source returns, [users] the optional
    list of usernames, [now] the clock reading of [generatedAt]; the
    [departments] argument is accepted and never read. *)
Definition gatherReportData (records : list AttendanceRecord) (now : Z)
    (type : string) (dateRange : option DateRange)
    (users : option (list string)) : ReportData :=
  let records :=
    match dateRange with
    | Some range => filter (in_range range) records
    | None => records
    end in
  let records :=
    match users with
    | Some (u :: us) =>
        filter (fun r => existsb (String.eqb (username r)) (u :: us)) records
    | _ => records
    end in
  {| rd_type := type;
     rd_dateRange := dateRange;
     rd_records := records;
     rd_analytics := calculateAnalytics records;
     generatedAt := Some now;
     rd_totalRecords := length_Z records |}.

End Aggregation.

(* ------------------------------------------------------------------ *)
(** ** Decidable equalities and sample data *)

Definition JsValue_eq_dec (a b : JsValue) : {a = b} + {a <> b}.
Proof.
  decide equality; try apply string_dec; try apply Z.eq_dec;
    apply Bool.bool_dec.
Defined.



Definition PropertyKey_eq_dec (a b : PropertyKey) : {a = b} + {a <> b}.
Proof. decide equality; [apply N.eq_dec | apply string_dec]. Defined.

(** A host whose local time is UTC. *)
Definition UTC : Z -> Z := fun _ => 0.

(** A record signed by [user] at [hour] o'clock UTC, [day] days after the
    epoch. *)
Definition record_at (n : Z) (user : string) (act : string) (day h : Z)
    : AttendanceRecord :=
  {| id := n; userId := n; username := user; action := JsStr act;
     timestamp := Some (day * msPerDay + h * msPerHour);
     location := "Office" |}.

(** A stored record whose timestamp string does not parse. *)
Definition malformed_record (n : Z) (user : string) (act : string)
    : AttendanceRecord :=
  {| id := n; userId := n; username := user; action := JsStr act;
     timestamp := None; location := "Office" |}.

Definition sample_user : AuthUser :=
  {| user_id := 3; user_name := "employee1"; user_role := "employee" |}.

Definition sample_clock : nat -> Z := fun k => 1700000000000 + Z.of_nat k.


Definition empty_database : Database :=
  {| ATTENDANCE_FILE := Some []; LOGS_FILE := Some [] |}.

(** A record has a parseable timestamp. *)
Definition valid_timestamp (r : AttendanceRecord) : bool :=
  match timestamp r with
  | Some _ => true
  | None => false
  end.

Definition sum_Z (l : list Z) : Z := fold_right Z.add 0 l.

(** The order in which an ascending enumeration lists hours: numbers by
    value, NaN after every number. *)
Definition hour_lt (a b : option Z) : Prop :=
  match a, b with
  | Some x, Some y => x < y
  | Some _, None => True
  | None, _ => False
  end.

(** [p] ranks strictly before [q]: a larger count, or the same count and an
    earlier hour. *)
Definition ranks_before (p q : PeakHour) : Prop :=
  count q < count p \/ (count p = count q /\ hour_lt (hour p) (hour q)).

(** The hours of a list when none of them is NaN. *)
Fixpoint known_hours (l : list (option Z)) : option (list Z) :=
  match l with
  | [] => Some []
  | Some h :: l' => option_map (cons h) (known_hours l')
  | None :: _ => None
  end.

(** The mean of the sign-in hours as a rational, when it exists: at least
    one sign-in, and no sign-in with an unparseable timestamp. *)
Definition mean_hour (hours : list (option Z)) : option Q :=
  match known_hours hours with
  | Some (h :: hs) =>
      Some (inject_Z (sum_Z (h :: hs)) / inject_Z (length_Z (h :: hs)))%Q
  | _ => None
  end.

(** The words of the anomaly rule, spelled out on the records themselves:
    the sign-in events of the input, the mean of their hours of day, and
    the events the rule flags, a sign-in whose hour lies more than 3 away
    from that mean. *)
Definition sign_in_event (r : AttendanceRecord) : bool :=
  if JsValue_eq_dec (action r) (JsStr "sign-in") then true else false.

Definition mean_sign_in_hour (tz : Z -> Z) (records : list AttendanceRecord)
    : option Q :=
  mean_hour
    (map (fun r => getHours tz (timestamp r)) (filter sign_in_event records)).

Definition flagged (tz : Z -> Z) (records : list AttendanceRecord)
    (r : AttendanceRecord) : bool :=
  sign_in_event r &&
  match getHours tz (timestamp r), mean_sign_in_hour tz records with
  | Some h, Some m => negb (Qle_bool (Qabs (inject_Z h - m)) 3)
  | _, _ => false
  end.

Definition key_eqb (a b : PropertyKey) : bool :=
  if PropertyKey_eq_dec a b then true else false.

(** The bucket keys the hourly and the daily breakdown file a record
    under. *)
Definition hour_key (tz : Z -> Z) (r : AttendanceRecord) : PropertyKey :=
  key_of_number (getHours tz (timestamp r)).

Definition date_key (tz : Z -> Z) (r : AttendanceRecord) : PropertyKey :=
  key_of_string (toDateString tz (timestamp r)).

(** The sum of a measure over the values of an object. *)
Definition total {V} (w : V -> Z) (o : JsObject V) : Z :=
  sum_Z (map w (Object_values o)).

Definition weight_of {V} (w : V -> Z) (c : option V) : Z :=
  match c with
  | Some v => w v
  | None => 0
  end.

Definition is_other (r : AttendanceRecord) : bool := negb (is_sign_in r).

(** The bucket a non-empty group of records fills: a plain count, or the
    two counters split by action; no bucket for an empty group. *)
Definition count_of (rs : list AttendanceRecord) : option Z :=
  match rs with
  | [] => None
  | _ => Some (length_Z rs)
  end.

Definition counters_of (rs : list AttendanceRecord) : option Counters :=
  match rs with
  | [] => None
  | _ => Some {| signIns := length_Z (filter is_sign_in rs);
                 signOuts := length_Z (filter is_other rs) |}
  end.

(** The same record with another timestamp. *)
Definition with_timestamp (t : TimeValue) (r : AttendanceRecord)
    : AttendanceRecord :=
  {| id := id r; userId := userId r; username := username r;
     action := action r; timestamp := t; location := location r |}.

(** [x] ranks strictly before [y]: a larger count, or the same count and
    an earlier place in the enumeration. *)
Definition ranked_by {A} (cnt : A -> Z) (before : A -> A -> Prop) (x y : A)
    : Prop :=
  cnt y < cnt x \/ (cnt x = cnt y /\ before x y).

(** The enumeration order of the entries of an hourly breakdown, read off
    their keys. *)
Definition entry_before (x y : string * Z) : Prop :=
  hour_lt (parseInt (fst x)) (parseInt (fst y)).

(** The shape of an hourly breakdown: hour buckets below 24 in ascending
    order, then at most the bucket NaN. *)
Definition hourly_shape (o : JsObject Z) : Prop :=
  StronglySorted N.lt (map fst (indices o)) /\
  Forall (fun n => (n < 24)%N) (map fst (indices o)) /\
  (names o = [] \/ exists c, names o = [("NaN", c)]).

(** A record whose action is neither of the two the ledger knows. *)
Definition is_unknown_action (r : AttendanceRecord) : bool :=
  negb (is_sign_in r) && negb (is_sign_out r).

(** The index keys of an object are in ascending order. *)
Definition sorted_indices {V} (o : JsObject V) : Prop :=
  StronglySorted N.lt (map fst (indices o)).

(** The records signed at a given local hour of the day. *)
Definition at_hour (tz : Z -> Z) (h : Z) (r : AttendanceRecord) : bool :=
  match getHours tz (timestamp r) with
  | Some x => x =? h
  | None => false
  end.

Definition of_user (u : string) (r : AttendanceRecord) : bool :=
  String.eqb (username r) u.

(* ------------------------------------------------------------------ *)
(** ** SuperDatabase: daily average, password policy, rate limiting *)

Definition Object_keys {V} (o : JsObject V) : list string :=
  map fst (Object_entries o).

(** SuperDatabase.calculateDailyAverage *)
Definition calculateDailyAverage (tz : Z -> Z)
    (records : list AttendanceRecord) : JsNum :=
  let dailyCounts :=
    fold_left
      (fun dailyCounts record =>
         let date := key_of_string (toDateString tz (timestamp record)) in
         obj_set date (or_zero (obj_get date dailyCounts) + 1) dailyCounts)
      records empty_object in
  let days := length_Z (Object_keys dailyCounts) in
  let totalRecords := length_Z records in
  if 0 <? days
  then Math_round (num_div (num_of_Z totalRecords) (num_of_Z days))
  else num_of_Z 0.

(** A string as the password checks see it: the sequence of its UTF-16
    code units. [password.length] counts them, a character class and [.]
    match one of them at a time. *)
Definition JsString := list N.

(** The code units of a literal made of ASCII characters. *)
Definition units (s : string) : JsString :=
  map N_of_ascii (list_ascii_of_string s).

(** The character classes of the password checks, on code units. *)
Definition is_lower (c : N) : bool := ((97 <=? c) && (c <=? 122))%N.
Definition is_upper (c : N) : bool := ((65 <=? c) && (c <=? 90))%N.
Definition is_digit (c : N) : bool := ((48 <=? c) && (c <=? 57))%N.

(** The class of special characters of the password checks, by code unit:
    exclamation mark, at, hash, dollar, percent, caret, ampersand, star,
    the two parentheses, comma, dot, question mark, double quote, colon,
    the two braces, bar, less than, greater than. *)
Definition special_codes : list N :=
  [33; 64; 35; 36; 37; 94; 38; 42; 40; 41; 44; 46; 63; 34; 58; 123; 125;
   124; 60; 62]%N.
Definition is_special (c : N) : bool := existsb (N.eqb c) special_codes.

(** The test of a pattern made of one character class. *)
Definition test_units (p : N -> bool) (s : JsString) : bool := existsb p s.

(** The test of a pattern made of one character class, on a header. *)
Fixpoint test_class (p : ascii -> bool) (s : string) : bool :=
  match s with
  | String c s' => p c || test_class p s'
  | EmptyString => false
  end.

(** [.] matches any code unit but a line terminator: line feed, carriage
    return, line separator, paragraph separator. *)
Definition is_line_terminator (c : N) : bool :=
  ((c =? 10) || (c =? 13) || (c =? 8232) || (c =? 8233))%N.

(** The test of the pattern for repeated characters: some code unit, not
    a line terminator, three times in a row. *)
Fixpoint test_repeated (s : JsString) : bool :=
  match s with
  | a :: s1 =>
      match s1 with
      | b :: c :: _ =>
          ((a =? b)%N && (b =? c)%N && negb (is_line_terminator a))
          || test_repeated s1
      | _ => false
      end
  | [] => false
  end.

(** Canonicalize of a case-insensitive pattern without the unicode flag:
    a lower-case ASCII letter becomes its upper-case letter; a code unit
    from 128 on never becomes one below 128, so it matches no character
    of the ASCII patterns. *)
Definition fold_case (c : N) : N := if is_lower c then (c - 32)%N else c.

Fixpoint prefix_ci (pat s : JsString) : bool :=
  match pat, s with
  | [], _ => true
  | p :: pat', c :: s' => (fold_case p =? fold_case c)%N && prefix_ci pat' s'
  | _ :: _, [] => false
  end.

Fixpoint contains_ci (pat s : JsString) : bool :=
  prefix_ci pat s ||
  match s with
  | _ :: s' => contains_ci pat s'
  | [] => false
  end.

(** The test of the case-insensitive pattern 123, abc or qwe. *)
Definition test_common (s : JsString) : bool :=
  contains_ci (units "123") s || contains_ci (units "abc") s ||
  contains_ci (units "qwe") s.

(** The [score] of calculatePasswordStrength before it is turned into a
    label. *)
Definition password_score (password : JsString) : Z :=
  let score := 0 in
  let score := score + Z.min (Z.of_nat (List.length password) * 2) 20 in
  let score := if test_units is_lower password then score + 5 else score in
  let score := if test_units is_upper password then score + 5 else score in
  let score := if test_units is_digit password then score + 5 else score in
  let score := if test_units is_special password then score + 10 else score in
  let score := if test_repeated password then score - 10 else score in
  let score := if test_common password then score - 10 else score in
  score.

Definition calculatePasswordStrength (password : JsString) : string :=
  let score := password_score password in
  if score <? 30 then "weak"
  else if score <? 60 then "medium"
  else if score <? 90 then "strong"
  else "very-strong".

Record PasswordCheck := {
  pw_valid : bool;
  pw_errors : list string;
  pw_strength : string
}.

(** validatePassword under the policy of setupSecurityFeatures: minimum
    length 8, upper case, lower case and digits required, special
    characters not required. *)
Definition validatePassword (password : JsString) : PasswordCheck :=
  let errors :=
    ((if Nat.ltb (List.length password) 8
      then ["Password must be at least 8 characters long"] else []) ++
     (if negb (test_units is_upper password)
      then ["Password must contain at least one uppercase letter"] else []) ++
     (if negb (test_units is_lower password)
      then ["Password must contain at least one lowercase letter"] else []) ++
     (if negb (test_units is_digit password)
      then ["Password must contain at least one number"] else []) ++
     (if (false && negb (test_units is_special password))%bool
      then ["Password must contain at least one special character"]
      else []))%list in
  {| pw_valid := Nat.eqb (List.length errors) 0;
     pw_errors := errors;
     pw_strength := calculatePasswordStrength password |}.

(** The entries of the [loginAttempts] map. *)
Record Attempts := {
  attempt_count : Z;
  lastAttempt : Z
}.

(** A Map with string keys: its entries in insertion order. *)
Definition LoginAttempts := list (string * Attempts).

Fixpoint delete_name {V} (s : string) (l : list (string * V))
    : list (string * V) :=
  match l with
  | [] => []
  | (t, v) :: l' =>
      if String.eqb s t then l' else (t, v) :: delete_name s l'
  end.

Definition maxLoginAttempts : Z := 5.
Definition lockoutDuration : Z := 900000.

Record RateDecision := {
  allowed : bool;
  timeLeft : option Z;
  rate_message : option string
}.

Definition rate_key (identifier action : string) : string :=
  identifier ++ "-" ++ action.

(** checkRateLimit at the clock reading [now]. The entry found in the map
    is the object the function works on, so resetting its counter changes
    the map; the default object of a missing key is not stored. *)
Definition checkRateLimit (now : Z) (identifier action : string)
    (loginAttempts : LoginAttempts) : LoginAttempts * RateDecision :=
  let key := rate_key identifier action in
  let stored := get_name key loginAttempts in
  let attempts :=
    match stored with
    | Some a => a
    | None => {| attempt_count := 0; lastAttempt := 0 |}
    end in
  let expired := lockoutDuration <? now - lastAttempt attempts in
  let attempts :=
    if expired
    then {| attempt_count := 0; lastAttempt := lastAttempt attempts |}
    else attempts in
  let loginAttempts :=
    match stored with
    | Some _ => if expired then set_name key attempts loginAttempts
                else loginAttempts
    | None => loginAttempts
    end in
  let timeLeft := lockoutDuration - (now - lastAttempt attempts) in
  if ((maxLoginAttempts <=? attempt_count attempts) && (0 <? timeLeft))%bool
  then
    let minutes := Qceiling (inject_Z timeLeft / 1000 / 60) in
    (loginAttempts,
     {| allowed := false;
        timeLeft := Some minutes;
        rate_message :=
          Some ("Too many attempts. Try again in " ++ Z_to_string minutes ++
                " minutes.") |})
  else
    (loginAttempts,
     {| allowed := true; timeLeft := None; rate_message := None |}).

(** What checkRateLimit leaves in the map under the key it examined. *)
Definition after_check (now : Z) (a : Attempts) : Attempts :=
  if lockoutDuration <? now - lastAttempt a
  then {| attempt_count := 0; lastAttempt := lastAttempt a |}
  else a.

(** recordLoginAttempt at the clock reading [now]. *)
Definition recordLoginAttempt (now : Z) (identifier action : string)
    (success : bool) (loginAttempts : LoginAttempts) : LoginAttempts :=
  let key := rate_key identifier action in
  let attempts :=
    match get_name key loginAttempts with
    | Some a => a
    | None => {| attempt_count := 0; lastAttempt := 0 |}
    end in
  if success then delete_name key loginAttempts
  else
    set_name key
      {| attempt_count := attempt_count attempts + 1; lastAttempt := now |}
      loginAttempts.

(* ------------------------------------------------------------------ *)
(** ** SuperDatabase: edit distance and similarity *)

(** The row [matrix[0]]: the numbers from [j] on, one per column. *)
Fixpoint first_row (j : Z) (str1 : string) : list Z :=
  j :: match str1 with
       | String _ s => first_row (j + 1) s
       | EmptyString => []
       end.

(** The inner loop over [j]: [c2] is [str2.charAt(i - 1)], [str1] what is
    left of the first string from column [j] on, [diag] is
    [matrix[i-1][j-1]], [left] is [matrix[i][j-1]] and [above] holds
    [matrix[i-1][j]] and the cells after it. *)
Fixpoint fill_row (c2 : ascii) (str1 : string) (diag left : Z)
    (above : list Z) : list Z :=
  match str1, above with
  | String c1 s1, up :: above' =>
      let v :=
        if Ascii.eqb c2 c1 then diag
        else Z.min (diag + 1) (Z.min (left + 1) (up + 1)) in
      v :: fill_row c2 s1 up v above'
  | _, _ => []
  end.

(** The row [matrix[i]] from the row [matrix[i-1]]. *)
Definition next_row (c2 : ascii) (i : Z) (str1 : string) (prev : list Z)
    : list Z :=
  match prev with
  | d :: above => i :: fill_row c2 str1 d i above
  | [] => [i]
  end.

(** The outer loop over [i]: the last row of the matrix. *)
Fixpoint last_row (str1 str2 : string) (i : Z) (prev : list Z) : list Z :=
  match str2 with
  | String c2 s2 => last_row str1 s2 (i + 1) (next_row c2 (i + 1) str1 prev)
  | EmptyString => prev
  end.

(** SuperDatabase.levenshteinDistance: [matrix[str2.length][str1.length]]. *)
Definition levenshteinDistance (str1 str2 : string) : Z :=
  last (last_row str1 str2 0 (first_row 0 str1)) 0.

Definition length_of (s : string) : Z := Z.of_nat (String.length s).

(** SuperDatabase.calculateSimilarity *)
Definition calculateSimilarity (str1 str2 : string) : Q :=
  let longer := if length_of str2 <? length_of str1 then str1 else str2 in
  let shorter := if length_of str2 <? length_of str1 then str2 else str1 in
  if length_of longer =? 0 then 1%Q
  else
    let editDistance := levenshteinDistance longer shorter in
    (inject_Z (length_of longer - editDistance) / inject_Z (length_of longer))%Q.

(** The cell [matrix[i][j]] by the recurrence the loops implement. *)
Definition same_char (a b : option ascii) : bool :=
  match a, b with
  | Some x, Some y => Ascii.eqb x y
  | _, _ => false
  end.

Fixpoint cell (str1 str2 : string) (i : nat) {struct i} : nat -> Z :=
  match i with
  | O => fun j => Z.of_nat j
  | S i' =>
      fix row (j : nat) : Z :=
        match j with
        | O => Z.of_nat (S i')
        | S j' =>
            if same_char (String.get i' str2) (String.get j' str1)
            then cell str1 str2 i' j'
            else Z.min (cell str1 str2 i' j' + 1)
                   (Z.min (row j' + 1) (cell str1 str2 i' (S j') + 1))
        end
  end.

(* ------------------------------------------------------------------ *)
(** ** server.js: accounts, tokens and the log route *)

(** A stored user account. *)
Record User := {
  u_id : Z;
  u_username : string;
  u_email : string;
  u_password : string;
  u_role : string;
  mfaEnabled : bool;
  isActive : bool;
  createdAt : TimeValue
}.

(** An account as the routes send it: every field but the password. *)
Record PublicUser := {
  p_id : Z;
  p_username : string;
  p_email : string;
  p_role : string;
  p_mfaEnabled : bool;
  p_isActive : bool;
  p_createdAt : TimeValue
}.

Definition without_password (u : User) : PublicUser :=
  {| p_id := u_id u; p_username := u_username u; p_email := u_email u;
     p_role := u_role u; p_mfaEnabled := mfaEnabled u;
     p_isActive := isActive u; p_createdAt := createdAt u |}.

(** The libraries the routes call: the hash bcrypt produces for a password
    in this call, its comparison of a password with a hash, and the
    signing and the verification of a token by jsonwebtoken. *)
Record Libraries := {
  bcrypt_hash : string -> string;
  bcrypt_compare : string -> string -> bool;
  jwt_sign : AuthUser -> string;
  jwt_verify : string -> option AuthUser
}.

(** The users file next to the files of the ledger. *)
Record Server := {
  USERS_FILE : option (list User);
  files : Database
}.

Inductive AccountBody :=
| StatusText (text : string)
| AccountError (error : string)
| Registered (user : PublicUser)
| LoggedIn (token : string) (user : PublicUser)
| UserList (users : list PublicUser)
| LogList (logs : list LogEntry).

Record AccountResponse := {
  account_status : Z;
  account_body : AccountBody
}.

Definition account_error (code : Z) (msg : string) : AccountResponse :=
  {| account_status := code; account_body := AccountError msg |}.

(** [res.sendStatus(code)]: the status with its name as the body. *)
Definition send_status (code : Z) (text : string) : AccountResponse :=
  {| account_status := code; account_body := StatusText text |}.

(** [Math.max(...ids, 0)], the ids being the integers the file holds. *)
Definition max_id (users : list User) : Z :=
  fold_right Z.max 0 (map u_id users).

Definition taken (username email : string) (u : User) : bool :=
  String.eqb (u_username u) username || String.eqb (u_email u) email.

(** app.post('/api/register'), for a body whose username, email and
    password are strings; [role] is [None] when the body has no role. The
    new id is the double sum [Math.max(...ids, 0) + 1]: above 2^53 the
    addition of 1 rounds. *)
Definition post_register (lib : Libraries) (clock : nat -> Z)
    (username email password : string) (role : option string)
    (srv : Server) : Server * AccountResponse :=
  match USERS_FILE srv with
  | None => (srv, account_error 500 "Server error")
  | Some users =>
      if existsb (taken username email) users
      then (srv, account_error 400 "User already exists")
      else
        let newUser :=
          {| u_id := double_of_Z (max_id users + 1);
             u_username := username;
             u_email := email;
             u_password := bcrypt_hash lib password;
             u_role := match role with Some r => r | None => "employee" end;
             mfaEnabled := false;
             isActive := true;
             createdAt := Some (clock 0%nat) |} in
        ({| USERS_FILE := Some (users ++ [newUser])%list; files := files srv |},
         {| account_status := 201;
            account_body := Registered (without_password newUser) |})
  end.

(** app.post('/api/login') *)
Definition post_login (lib : Libraries) (clock : nat -> Z)
    (username password : string) (srv : Server) : Server * AccountResponse :=
  match USERS_FILE srv with
  | None => (srv, account_error 500 "Server error")
  | Some users =>
      match find (fun u => String.eqb (u_username u) username && isActive u)
              users with
      | Some user =>
          if bcrypt_compare lib password (u_password user) then
            let token :=
              jwt_sign lib
                {| user_id := u_id user; user_name := u_username user;
                   user_role := u_role user |} in
            let db :=
              logActivity (fun k => clock (k - 2)%nat) "login"
                ("User " ++ username ++ " logged in") (u_id user)
                (files srv) in
            ({| USERS_FILE := USERS_FILE srv; files := db |},
             {| account_status := 200;
                account_body := LoggedIn token (without_password user) |})
          else (srv, account_error 401 "Invalid credentials")
      | None => (srv, account_error 401 "Invalid credentials")
      end
  end.

(** [s.split(' ')]: [cur] is the piece being read. *)
Fixpoint split_space (s cur : string) : list string :=
  match s with
  | EmptyString => [cur]
  | String c s' =>
      if Ascii.eqb c " " then cur :: split_space s' ""
      else split_space s' (cur ++ String c "")
  end.

(** The outcome of the authenticateToken middleware: status 401, status
    403, or the call of the route with the user of the token. *)
Inductive AuthOutcome :=
| Unauthorized
| Forbidden
| Next (user : AuthUser).

(** authenticateToken; [authorization] is the header, if the request has
    one. *)
Definition authenticateToken (lib : Libraries)
    (authorization : option string) : AuthOutcome :=
  match authorization with
  | None => Unauthorized
  | Some authHeader =>
      if String.eqb authHeader "" then Unauthorized
      else
        match nth_error (split_space authHeader "") 1 with
        | None => Unauthorized
        | Some token =>
            if String.eqb token "" then Unauthorized
            else
              match jwt_verify lib token with
              | Some user => Next user
              | None => Forbidden
              end
        end
  end.

(** app.get('/api/users') behind the middleware. *)
Definition get_users (lib : Libraries) (authorization : option string)
    (srv : Server) : AccountResponse :=
  match authenticateToken lib authorization with
  | Unauthorized => send_status 401 "Unauthorized"
  | Forbidden => send_status 403 "Forbidden"
  | Next _ =>
      match USERS_FILE srv with
      | None => account_error 500 "Server error"
      | Some users =>
          {| account_status := 200;
             account_body := UserList (map without_password users) |}
      end
  end.

(** app.get('/api/logs') behind the middleware. *)
Definition get_logs (lib : Libraries) (authorization : option string)
    (srv : Server) : AccountResponse :=
  match authenticateToken lib authorization with
  | Unauthorized => send_status 401 "Unauthorized"
  | Forbidden => send_status 403 "Forbidden"
  | Next user =>
      if negb (String.eqb (user_role user) "admin")
      then account_error 403 "Access denied"
      else
        match LOGS_FILE (files srv) with
        | None => account_error 500 "Server error"
        | Some logs => {| account_status := 200; account_body := LogList logs |}
        end
  end.

Definition has_space (s : string) : bool :=
  test_class (fun c => Ascii.eqb c " ") s.

(* ------------------------------------------------------------------ *)
(** ** dashboard-charts.js: rate and chart series *)

Definition num_mul (a b : JsNum) : JsNum :=
  match a, b with
  | NaN, _ | _, NaN => NaN
  | Infty s, Infty s' => Infty (xorb s s')
  | Infty s, Fin q | Fin q, Infty s =>
      if Qzerob q then NaN else Infty (xorb s (Qnegb q))
  | Fin p, Fin q => Fin (p * q)
  end.

(** The number of elements of [new Set(names)]. *)
Definition distinct (names : list string) : Z :=
  length_Z (nodup string_dec names).

Definition calculateAttendanceRate (data : DashboardData) : JsNum :=
  let expectedUsers := 10 in
  let actualUsers := distinct (map username (todayRecords data)) in
  Math_round
    (num_mul (num_div (num_of_Z actualUsers) (num_of_Z expectedUsers))
       (num_of_Z 100)).

(** [Array.from({length: 24}, (_, i) => i)] *)
Definition hours24 : list Z := map Z.of_nat (seq 0 24).

(** The two series of createDailyActivityChart: for every hour the number
    of today's records of that hour with the action. *)
Definition dailyActivity_signIns (tz : Z -> Z) (data : DashboardData)
    : list Z :=
  map (fun hour =>
         length_Z (filter (fun r => at_hour tz hour r && is_sign_in r)
                     (todayRecords data)))
    hours24.

Definition dailyActivity_signOuts (tz : Z -> Z) (data : DashboardData)
    : list Z :=
  map (fun hour =>
         length_Z (filter (fun r => at_hour tz hour r && is_sign_out r)
                     (todayRecords data)))
    hours24.

(** The comparator of createUserActivityChart. *)
Definition by_activity_desc (x y : string * Counters) : Z :=
  (signIns (snd y) + signOuts (snd y)) - (signIns (snd x) + signOuts (snd x)).

Definition userStats (data : DashboardData) : list (string * Counters) :=
  slice0 10 (Array_sort by_activity_desc (Object_entries (userBreakdown data))).

(* ------------------------------------------------------------------ *)
(** ** AttendanceAnalytics.generateInsights *)

(** The result of a call that may throw. *)
Inductive Completion (A : Type) :=
| Returned (a : A)
| Thrown (error : string).
Arguments Returned {A} _.
Arguments Thrown {A} _.

Record Insight := {
  insight_type : string;
  insight_message : string
}.

(** [o[name]] for a property name given as a string. *)
Definition lookup {V} (o : JsObject V) (name : string) : option V :=
  obj_get (key_of_string name) o.

(** [a > b] on values read from an object: with an undefined side the
    comparison is false. *)
Definition gt_counts (a b : option Z) : bool :=
  match a, b with
  | Some x, Some y => y <? x
  | _, _ => false
  end.

(** [keys.reduce((a, b) => counts[a] > counts[b] ? a : b)]; reduce without
    an initial value throws on an empty array. *)
Definition reduce_peak (counts : JsObject Z) (keys : list string)
    : Completion string :=
  match keys with
  | [] => Thrown "TypeError: Reduce of empty array with no initial value"
  | k :: ks =>
      Returned
        (fold_left
           (fun a b => if gt_counts (lookup counts a) (lookup counts b)
                       then a else b)
           ks k)
  end.

Definition count_text (c : option Z) : string :=
  match c with
  | Some z => Z_to_string z
  | None => "undefined"
  end.

Definition generateInsights (tz : Z -> Z)
    (attendanceRecords : list AttendanceRecord) : Completion (list Insight) :=
  let hourCounts := getHourlyBreakdown tz attendanceRecords in
  match reduce_peak hourCounts (Object_keys hourCounts) with
  | Thrown e => Thrown e
  | Returned peakHour =>
      Returned
        [ {| insight_type := "peak_activity";
             insight_message :=
               "Peak activity hour: " ++ peakHour ++ ":00 with " ++
               count_text (lookup hourCounts peakHour) ++ " records" |} ]
  end.

(* ------------------------------------------------------------------ *)
(** ** SuperDatabase: files, the operation log, cached analytics *)

(** A JSON file of the database directory as readData finds it: absent,
    present with text that fs.readJson cannot parse (it throws [error]),
    or holding a value. *)
Inductive FileState (A : Type) :=
| Missing
| Corrupt (error : string)
| Content (a : A).
Arguments Missing {A}.
Arguments Corrupt {A} _.
Arguments Content {A} _.

(** SuperDatabase.readData: an absent file reads as the empty array. *)
Definition readData {A} (file : FileState (list A)) : Completion (list A) :=
  match file with
  | Missing => Returned []
  | Corrupt error => Thrown error
  | Content a => Returned a
  end.

(** An entry of operation_logs.json; [op_timestamp] is the time value
    whose ISO string the entry carries. *)
Record OperationLog := {
  op_timestamp : Z;
  operation : string;
  op_type : string;
  recordCount : Z;
  checksum : string
}.

(** SuperDatabase.logOperation; [sha256] is calculateChecksum, [now] the
    clock reading of the entry. The result is the array written back. *)
Definition logOperation (sha256 : string -> string) (now : Z)
    (operation type : string) (recordCount : Z)
    (operation_logs : FileState (list OperationLog))
    : Completion (list OperationLog) :=
  let logEntry :=
    {| op_timestamp := now;
       operation := operation;
       op_type := type;
       recordCount := recordCount;
       checksum :=
         sha256 (operation ++ "-" ++ type ++ "-" ++ Z_to_string recordCount)
    |} in
  match readData operation_logs with
  | Thrown error => Thrown error
  | Returned logs =>
      let logs := (logs ++ [logEntry])%list in
      Returned
        (if (1000 <? List.length logs)%nat
         then skipn (List.length logs - 1000) logs
         else logs)
  end.

(** The options of an analytics request: the text [JSON.stringify] gives
    for the object, which keys the cache, and its date range. *)
Record Options := {
  options_json : string;
  opt_dateRange : option DateRange
}.

Record AttendanceAnalytics := {
  aa_totalRecords : Z;
  aa_uniqueUsers : Z;
  signInCount : Z;
  signOutCount : Z;
  dailyAverage : JsNum;
  aa_peakHours : list PeakHour;
  userActivity : JsObject Counters;
  aa_anomalies : list Anomaly
}.

(** calculateUserActivity is the loop of getUserBreakdown, written out
    again in its body. *)
Definition calculateUserActivity (records : list AttendanceRecord)
    : JsObject Counters :=
  getUserBreakdown records.

(** SuperDatabase.getAttendanceAnalytics *)
Definition getAttendanceAnalytics (tz : Z -> Z)
    (attendance : FileState (list AttendanceRecord)) (options : Options)
    : Completion AttendanceAnalytics :=
  match readData attendance with
  | Thrown error => Thrown error
  | Returned records =>
      let filtered :=
        filterRecordsByDateRange records (opt_dateRange options) in
      Returned
        {| aa_totalRecords := length_Z filtered;
           aa_uniqueUsers := distinct (map username filtered);
           signInCount := length_Z (filter is_sign_in filtered);
           signOutCount := length_Z (filter is_sign_out filtered);
           dailyAverage := calculateDailyAverage tz filtered;
           aa_peakHours := calculatePeakHours tz filtered;
           userActivity := calculateUserActivity filtered;
           aa_anomalies := detectAnomalies tz filtered |}
  end.

(** An entry of the analytics cache, a Map keyed by strings: entries in
    insertion order, a key set again keeps its place. *)
Record CacheEntry := {
  cached_data : AttendanceAnalytics;
  cached_timestamp : Z
}.

Definition cacheExpiry : Z := 300000.

(** The [switch] of getDataAnalytics. The class defines no
    getUserAnalytics, getProductivityAnalytics or getTrendAnalytics, so
    calling them throws. *)
Definition analytics_of (tz : Z -> Z)
    (attendance : FileState (list AttendanceRecord)) (type : string)
    (options : Options) : Completion AttendanceAnalytics :=
  if String.eqb type "attendance" then
    getAttendanceAnalytics tz attendance options
  else if String.eqb type "users" then
    Thrown "TypeError: this.getUserAnalytics is not a function"
  else if String.eqb type "productivity" then
    Thrown "TypeError: this.getProductivityAnalytics is not a function"
  else if String.eqb type "trends" then
    Thrown "TypeError: this.getTrendAnalytics is not a function"
  else Thrown ("Error: Unknown analytics type: " ++ type).

(** SuperDatabase.getDataAnalytics: the cache after the call and its
    completion. [clock] gives the successive readings of [Date.now()]:
    the first one is taken when an entry is found, the next one when a
    result is stored. *)
Definition getDataAnalytics (tz : Z -> Z) (clock : nat -> Z)
    (attendance : FileState (list AttendanceRecord)) (type : string)
    (options : Options) (analyticsCache : list (string * CacheEntry))
    : list (string * CacheEntry) * Completion AttendanceAnalytics :=
  let cacheKey := type ++ "-" ++ options_json options in
  let cached := get_name cacheKey analyticsCache in
  let compute (reading : nat) :=
    match analytics_of tz attendance type options with
    | Thrown error => (analyticsCache, Thrown error)
    | Returned analytics =>
        (set_name cacheKey
           {| cached_data := analytics; cached_timestamp := clock reading |}
           analyticsCache,
         Returned analytics)
    end in
  match cached with
  | Some entry =>
      if clock 0%nat - cached_timestamp entry <? cacheExpiry
      then (analyticsCache, Returned (cached_data entry))
      else compute 1%nat
  | None => compute 0%nat
  end.

(** Stand-ins for the libraries, for worked examples: a hash that tags the
    password, and tokens that are the username of the one admin. *)
Definition sample_libraries : Libraries :=
  {| bcrypt_hash := fun p => "hash:" ++ p;
     bcrypt_compare := fun p h => String.eqb ("hash:" ++ p) h;
     jwt_sign := fun u => user_name u;
     jwt_verify := fun t =>
       if String.eqb t "admin"
       then Some {| user_id := 1; user_name := "admin";
                    user_role := "admin" |}
       else None |}.

Definition empty_server : Server :=
  {| USERS_FILE := Some []; files := empty_database |}.

(** A users file with two accounts. *)
Definition sample_accounts : list User :=
  [ {| u_id := 1; u_username := "admin"; u_email := "admin@company.com";
       u_password := "hash:admin123"; u_role := "admin";
       mfaEnabled := true; isActive := true; createdAt := Some 0 |};
    {| u_id := 7; u_username := "employee1";
       u_email := "employee@company.com"; u_password := "hash:emp123";
       u_role := "employee"; mfaEnabled := false; isActive := true;
       createdAt := Some 0 |} ].

(** A ledger of nine records: on 14 November 2023 five sign-ins at nine,
    a record with the action lunch, a sign-out, a late sign-in at
    twenty-three; and one sign-in on the next day. *)
Definition sample_ledger : list AttendanceRecord :=
  [ record_at 1 "ann" "sign-in" 19675 9;
    record_at 2 "bob" "sign-in" 19675 9;
    record_at 3 "cy" "sign-in" 19675 9;
    record_at 4 "dee" "sign-in" 19675 9;
    record_at 5 "eve" "sign-in" 19675 9;
    record_at 6 "ann" "lunch" 19675 12;
    record_at 7 "ann" "sign-out" 19675 17;
    record_at 8 "fay" "sign-in" 19675 23;
    record_at 9 "ann" "sign-in" 19676 9 ].

Definition double_quote : string := String (ascii_of_nat 34) "".

(** The options of a request for the analytics of 14 November 2023. *)
Definition sample_options : Options :=
  {| options_json :=
       "{" ++ double_quote ++ "dateRange" ++ double_quote ++ ":{" ++
       double_quote ++ "start" ++ double_quote ++ ":" ++
       double_quote ++ "2023-11-14T00:00:00.000Z" ++ double_quote ++ "," ++
       double_quote ++ "end" ++ double_quote ++ ":" ++
       double_quote ++ "2023-11-14T23:59:59.999Z" ++ double_quote ++ "}}";
     opt_dateRange :=
       Some {| range_start := Some (19675 * msPerDay);
               range_end := Some (19676 * msPerDay - 1) |} |}.

(* ------------------------------------------------------------------ *)
(** ** Properties of the ledger routes *)

Lemma logActivity_keeps_attendance clock type description uid db :
  ATTENDANCE_FILE (logActivity clock type description uid db) =
  ATTENDANCE_FILE db.
Proof.
  unfold logActivity. destruct (LOGS_FILE db); reflexivity.
Qed.


(** The route never inspects the action. Whatever value the body carries,
    allowed or not, the request is answered 201 with the created record and
    that record is stored at the end of the ledger; SuperDatabase's own rule
    for the field rejects the very values the route stores. *)
Lemma post_attendance_accepts_any_action :
  forall clock user act attendance logs,
    let db := {| ATTENDANCE_FILE := Some attendance; LOGS_FILE := logs |} in
    let record :=
      {| id := clock 0%nat; userId := user_id user;
         username := user_name user; action := act;
         timestamp := Some (clock 1%nat); location := "Office" |} in
    snd (post_attendance clock user act db) =
      {| status := 201; body := RecordBody record |} /\
    ATTENDANCE_FILE (fst (post_attendance clock user act db)) =
      Some (attendance ++ [record])%list /\
    (includes ["sign-in"; "sign-out"] act = false ->
     validateField "action" attendance_action_rule act <> []).
Proof.
  intros clock user act attendance logs db record.
  unfold post_attendance, db; simpl.
  rewrite logActivity_keeps_attendance; simpl.
  repeat split.
  intros Hout. unfold validateField.
  destruct (is_empty_value act); simpl; [discriminate |].
  rewrite Hout.
  destruct act; simpl; discriminate.
Qed.

(** C1, at a failing input: a POST whose action is "lunch" is answered 201
    with the created record, which is appended to the ledger, while the
    validation rule of the action field rejects the value. *)
Theorem post_attendance_lunch :
  snd (post_attendance sample_clock sample_user (JsStr "lunch")
         empty_database) =
    {| status := 201;
       body := RecordBody
         {| id := 1700000000000; userId := 3; username := "employee1";
            action := JsStr "lunch"; timestamp := Some 1700000000001;
            location := "Office" |} |} /\
  ATTENDANCE_FILE
    (fst (post_attendance sample_clock sample_user (JsStr "lunch")
            empty_database)) =
    Some [ {| id := 1700000000000; userId := 3; username := "employee1";
              action := JsStr "lunch"; timestamp := Some 1700000000001;
              location := "Office" |} ] /\
  validateField "action" attendance_action_rule (JsStr "lunch") =
    ["action must be one of: sign-in, sign-out"].
Proof. repeat split. Qed.




(* ------------------------------------------------------------------ *)
(** ** Properties of the scores *)

(** C9: the productivity score is min(75 + min(2c, 25), 100) for [c]
    records of today; it stays between 75 and 100 and never decreases when
    the count grows. *)
Theorem productivity_score_range_monotone :
  forall data : DashboardData,
    let c := length_Z (todayRecords data) in
    calculateProductivityScore data = Z.min (75 + Z.min (c * 2) 25) 100 /\
    75 <= calculateProductivityScore data <= 100 /\
    (forall data' : DashboardData,
        c <= length_Z (todayRecords data') ->
        calculateProductivityScore data <= calculateProductivityScore data').
Proof.
  intros data c. unfold calculateProductivityScore. fold c.
  assert (Hc : 0 <= c) by (unfold c, length_Z; lia).
  split; [reflexivity |]. split; [lia |].
  intros data' Hle. lia.
Qed.

Lemma productivity_score_range_monotone_witness :
  let quiet :=
    {| allRecords := []; todayRecords := [];
       hourlyBreakdown := empty_object; dailyBreakdown := empty_object;
       userBreakdown := empty_object |} in
  let busy :=
    {| allRecords := []; todayRecords := [record_at 1 "u1" "sign-in" 0 9];
       hourlyBreakdown := empty_object; dailyBreakdown := empty_object;
       userBreakdown := empty_object |} in
  calculateProductivityScore quiet <= calculateProductivityScore busy.
Proof.
  intros quiet busy.
  apply (productivity_score_range_monotone quiet).
  vm_compute. discriminate.
Defined.

(* ------------------------------------------------------------------ *)
(** ** Properties of the report windows *)

Lemma TimeClip_in_range t :
  Z.abs t <= maxTimeValue -> TimeClip t = Some t.
Proof.
  intros H. unfold TimeClip.
  destruct (Z.leb_spec (Z.abs t) maxTimeValue); [reflexivity | lia].
Qed.

Lemma date_geb_spec (a b : TimeValue) :
  date_geb a b = true <->
  exists x y, a = Some x /\ b = Some y /\ y <= x.
Proof.
  unfold date_geb. destruct a as [x |], b as [y |]; split;
    try discriminate; try (intros (x' & y' & H1 & H2 & _); discriminate).
  - intros H. apply Z.leb_le in H. eauto.
  - intros (x' & y' & H1 & H2 & H). inversion H1; inversion H2; subst.
    now apply Z.leb_le.
Qed.

Lemma date_leb_spec (a b : TimeValue) :
  date_leb a b = true <->
  exists x y, a = Some x /\ b = Some y /\ x <= y.
Proof.
  unfold date_leb. destruct a as [x |], b as [y |]; split;
    try discriminate; try (intros (x' & y' & H1 & H2 & _); discriminate).
  - intros H. apply Z.leb_le in H. eauto.
  - intros (x' & y' & H1 & H2 & H). inversion H1; inversion H2; subst.
    now apply Z.leb_le.
Qed.

(** C8: with a week-ago instant that is a valid time value, the weekly
    window keeps exactly the records whose timestamp is at or after
    now - 7 days: a record exactly 7 days old is kept, one exactly 8 days
    old is dropped. *)
Theorem weekly_window_inclusive :
  forall (tz : Z -> Z) (now : Z) (attendance : list AttendanceRecord),
    Z.abs (now - 7 * msPerDay) <= maxTimeValue ->
    exists kept,
      filteredRecords tz "weekly" now attendance = Some kept /\
      (forall r, In r kept <->
                 In r attendance /\
                 exists t, timestamp r = Some t /\ now - 7 * msPerDay <= t) /\
      (forall r, In r attendance ->
                 timestamp r = Some (now - 7 * msPerDay) -> In r kept) /\
      (forall r, timestamp r = Some (now - 8 * msPerDay) -> ~ In r kept).
Proof.
  intros tz now attendance Hvalid.
  eexists. split; [reflexivity |].
  change (7 * 24 * 60 * 60 * 1000) with (7 * msPerDay).
  rewrite (TimeClip_in_range _ Hvalid).
  assert (Hin : forall r,
    In r (filter (fun r => date_geb (timestamp r) (Some (now - 7 * msPerDay)))
            attendance) <->
    In r attendance /\
    exists t, timestamp r = Some t /\ now - 7 * msPerDay <= t).
  { intros r. rewrite filter_In, date_geb_spec. split.
    - intros (Hr & x & y & Hx & Hy & Hle). inversion Hy; subst. eauto.
    - intros (Hr & t & Ht & Hle). split; [exact Hr | eauto]. }
  split; [exact Hin |]. split.
  - intros r Hr Ht. apply Hin. split; [exact Hr |].
    exists (now - 7 * msPerDay). split; [exact Ht | lia].
  - intros r Ht Hkept. apply Hin in Hkept.
    destruct Hkept as (_ & t & Ht' & Hle).
    rewrite Ht in Ht'. inversion Ht'; subst.
    unfold msPerDay in Hle. lia.
Qed.

Lemma weekly_window_inclusive_witness :
  let now := 20 * msPerDay in
  let edge := record_at 1 "u1" "sign-in" 13 0 in
  let old := record_at 2 "u2" "sign-in" 12 0 in
  exists kept,
    filteredRecords UTC "weekly" now [old; edge] = Some kept /\
    In edge kept /\ ~ In old kept.
Proof.
  intros now edge old.
  destruct (weekly_window_inclusive UTC now [old; edge])
    as (kept & Heq & _ & Hedge & Hold).
  - vm_compute. discriminate.
  - exists kept. split; [exact Heq |]. split.
    + apply Hedge; [simpl; tauto | reflexivity].
    + apply Hold. reflexivity.
Defined.

Lemma filteredRecords_none (tz : Z -> Z) type now attendance :
  filteredRecords tz type now attendance = None <->
  ~ In type ["daily"; "weekly"; "monthly"].
Proof.
  unfold filteredRecords.
  destruct (String.eqb_spec type "daily") as [-> | Hd].
  { split; [discriminate | intros H; exfalso; apply H; simpl; tauto]. }
  destruct (String.eqb_spec type "weekly") as [-> | Hw].
  { split; [discriminate | intros H; exfalso; apply H; simpl; tauto]. }
  destruct (String.eqb_spec type "monthly") as [-> | Hm].
  { split; [discriminate | intros H; exfalso; apply H; simpl; tauto]. }
  split; [| reflexivity].
  intros _ [H | [H | [H | []]]]; congruence.
Qed.

(** C3 (amended): the server route answers 400 "Invalid report type"
    exactly when the type is none of daily, weekly, monthly, so a custom
    request is refused whatever the query carries; gatherReportData has no
    failure at all: with a date range it keeps exactly the records whose
    timestamp lies between the two bounds, both included, and without one it
    keeps every record. *)
Theorem report_window_failures :
  forall (tz : Z -> Z) (req : ReportRequest) (now : Z)
         (attendance : list AttendanceRecord) (logs : option (list LogEntry)),
    let db := {| ATTENDANCE_FILE := Some attendance; LOGS_FILE := logs |} in
    (get_report tz req now db =
       {| status := 400; body := ErrorBody "Invalid report type" |} <->
     ~ In (params_type req) ["daily"; "weekly"; "monthly"]) /\
    (In (params_type req) ["daily"; "weekly"; "monthly"] ->
     status (get_report tz req now db) = 200) /\
    (params_type req = "custom" -> status (get_report tz req now db) = 400) /\
    (forall type range r,
        In r (rd_records
                (gatherReportData tz attendance now type (Some range) None))
        <->
        In r attendance /\
        exists t s e,
          timestamp r = Some t /\ range_start range = Some s /\
          range_end range = Some e /\ s <= t <= e) /\
    (forall type,
        rd_records (gatherReportData tz attendance now type None None) =
        attendance).
Proof.
  intros tz req now attendance logs db.
  assert (Hnone := filteredRecords_none tz (params_type req) now attendance).
  unfold get_report, db; simpl.
  destruct (filteredRecords tz (params_type req) now attendance)
    as [records |] eqn:Hf.
  - assert (Hin : In (params_type req) ["daily"; "weekly"; "monthly"]).
    { destruct (in_dec string_dec (params_type req)
                  ["daily"; "weekly"; "monthly"]) as [H | H]; [exact H |].
      apply Hnone in H. discriminate. }
    split; [split; [discriminate | intros H; contradiction] |].
    split; [reflexivity |].
    split.
    { intros Hc. rewrite Hc in Hin. simpl in Hin.
      destruct Hin as [H | [H | [H | []]]]; discriminate. }
    split; [| reflexivity].
    intros type range r. simpl. unfold in_range.
    rewrite filter_In, andb_true_iff, date_geb_spec, date_leb_spec.
    split.
    + intros (Hr & (x & s & Hx & Hs & Hsx) & (x' & e & Hx' & He & Hxe)).
      rewrite Hx in Hx'. inversion Hx'; subst x'.
      split; [exact Hr |]. exists x, s, e. repeat split; assumption.
    + intros (Hr & t & s & e & Ht & Hs & He & Hst & Hte).
      split; [exact Hr |]. split; eauto 6.
  - assert (Hout : ~ In (params_type req) ["daily"; "weekly"; "monthly"])
      by (apply Hnone; reflexivity).
    split; [split; [intros _; exact Hout | reflexivity] |].
    split; [intros H; contradiction |].
    split; [reflexivity |].
    split; [| reflexivity].
    intros type range r. simpl. unfold in_range.
    rewrite filter_In, andb_true_iff, date_geb_spec, date_leb_spec.
    split.
    + intros (Hr & (x & s & Hx & Hs & Hsx) & (x' & e & Hx' & He & Hxe)).
      rewrite Hx in Hx'. inversion Hx'; subst x'.
      split; [exact Hr |]. exists x, s, e. repeat split; assumption.
    + intros (Hr & t & s & e & Ht & Hs & He & Hst & Hte).
      split; [exact Hr |]. split; eauto 6.
Qed.

Lemma report_window_failures_witness :
  let req := {| params_type := "weekly"; query := [] |} in
  status (get_report UTC req (20 * msPerDay) empty_database) = 200.
Proof.
  intros req.
  apply (report_window_failures UTC req (20 * msPerDay) [] (Some [])).
  simpl. tauto.
Defined.

(** C3 (as stated) fails: a custom request that supplies both bounds is
    answered 400 "Invalid report type" instead of a report; and
    gatherReportData returns a report for a type outside the four window
    types, and for a custom type without bounds, instead of failing. *)
Lemma custom_report_with_bounds_rejected :
  let req :=
    {| params_type := "custom";
       query := [("start", "2024-01-01"); ("end", "2024-01-31")] |} in
  let ledger := [record_at 1 "u1" "sign-in" 19737 9] in
  let db := {| ATTENDANCE_FILE := Some ledger; LOGS_FILE := Some [] |} in
  let now := 19740 * msPerDay in
  get_report UTC req now db =
    {| status := 400; body := ErrorBody "Invalid report type" |} /\
  status (get_report UTC req now db) <> 200 /\
  rd_records (gatherReportData UTC ledger now "yearly" None None) = ledger /\
  rd_records (gatherReportData UTC ledger now "custom" None None) = ledger.
Proof. repeat split. discriminate. Qed.

(* ------------------------------------------------------------------ *)
(** ** Properties of the anomaly detection *)

Lemma inject_Z_plus_eq (a b : Z) :
  (inject_Z a + inject_Z b)%Q = inject_Z (a + b).
Proof.
  unfold inject_Z, Qplus; simpl. f_equal. lia.
Qed.

Lemma sum_hours_nan (l : list (option Z)) :
  fold_left (fun a b => num_add a (hour_num b)) l NaN = NaN.
Proof.
  induction l as [| h l IH]; simpl; [reflexivity | exact IH].
Qed.

Lemma sum_hours_known (l : list (option Z)) :
  forall hs s,
    known_hours l = Some hs ->
    fold_left (fun a b => num_add a (hour_num b)) l (num_of_Z s) =
    num_of_Z (s + sum_Z hs).
Proof.
  induction l as [| [h |] l IH]; simpl; intros hs s Hk.
  - inversion Hk; subst. simpl. now rewrite Z.add_0_r.
  - destruct (known_hours l) as [hs' |] eqn:Hl; [| discriminate].
    inversion Hk; subst.
    rewrite inject_Z_plus_eq. fold (num_of_Z (s + h)).
    rewrite (IH hs' (s + h) eq_refl).
    replace (s + sum_Z (h :: hs')) with (s + h + sum_Z hs')
      by (unfold sum_Z; simpl; lia).
    reflexivity.
  - discriminate.
Qed.

Lemma sum_hours_unknown (l : list (option Z)) :
  forall s,
    known_hours l = None ->
    fold_left (fun a b => num_add a (hour_num b)) l (num_of_Z s) = NaN.
Proof.
  induction l as [| [h |] l IH]; simpl; intros s Hk.
  - discriminate.
  - destruct (known_hours l) as [hs' |] eqn:Hl; [discriminate |].
    rewrite inject_Z_plus_eq. fold (num_of_Z (s + h)).
    apply (IH (s + h) eq_refl).
  - apply sum_hours_nan.
Qed.

Lemma known_hours_length (l : list (option Z)) :
  forall hs, known_hours l = Some hs -> List.length hs = List.length l.
Proof.
  induction l as [| [h |] l IH]; simpl; intros hs Hk.
  - now inversion Hk.
  - destruct (known_hours l) as [hs' |]; [| discriminate].
    inversion Hk; subst. simpl. f_equal. now apply IH.
  - discriminate.
Qed.

(** The average the code computes is the rational mean of the sign-in
    hours, and NaN when that mean does not exist. *)
Lemma avgSignInHour_mean (tz : Z -> Z) (records : list AttendanceRecord) :
  avgSignInHour tz records =
  match mean_hour (signInHours tz records) with
  | Some m => Fin m
  | None => NaN
  end.
Proof.
  unfold avgSignInHour, mean_hour.
  destruct (known_hours (signInHours tz records)) as [hs |] eqn:Hk.
  - rewrite (sum_hours_known _ hs 0 Hk).
    unfold length_Z. rewrite <- (known_hours_length _ _ Hk).
    destruct hs as [| h hs]; [reflexivity |].
    unfold num_div, num_of_Z, Qzerob. simpl Qnum.
    destruct (Z.eqb_spec (Z.of_nat (List.length (h :: hs))) 0) as [H0 | _];
      [simpl in H0; lia | reflexivity].
  - rewrite (sum_hours_unknown _ 0 Hk). reflexivity.
Qed.

Lemma unusual_time_spec (tz : Z -> Z) (mean : option Q)
    (r : AttendanceRecord) :
  unusual_time tz (match mean with Some m => Fin m | None => NaN end) r
    = true <->
  is_sign_in r = true /\
  exists h m,
    getHours tz (timestamp r) = Some h /\ mean = Some m /\
    (3 < Qabs (inject_Z h - m))%Q.
Proof.
  unfold unusual_time. rewrite andb_true_iff.
  split; intros (Hs & H); (split; [exact Hs |]).
  - destruct (getHours tz (timestamp r)) as [h |]; [| discriminate].
    destruct mean as [m |]; [| discriminate].
    exists h, m. repeat split.
    change (negb (Qle_bool (Qabs (inject_Z h - m)) 3) = true) in H.
    apply negb_true_iff in H. apply Qnot_le_lt. intros Hle.
    apply Qle_bool_iff in Hle. congruence.
  - destruct H as (h & m & Hh & Hm & Hlt). rewrite Hh, Hm.
    change (negb (Qle_bool (Qabs (inject_Z h - m)) 3) = true).
    apply negb_true_iff. destruct (Qle_bool _ _) eqn:Hle; [| reflexivity].
    apply Qle_bool_iff in Hle. exfalso.
    apply (Qlt_not_le _ _ Hlt). exact Hle.
Qed.

Lemma unusual_time_nan (tz : Z -> Z) (r : AttendanceRecord) :
  unusual_time tz NaN r = false.
Proof.
  unfold unusual_time.
  destruct (is_sign_in r); [| reflexivity].
  destruct (getHours tz (timestamp r)); reflexivity.
Qed.

Lemma detectAnomalies_no_mean (tz : Z -> Z) records :
  avgSignInHour tz records = NaN -> detectAnomalies tz records = [].
Proof.
  intros Havg. unfold detectAnomalies. rewrite Havg.
  clear Havg. induction records as [| r records IH]; [reflexivity |].
  simpl. rewrite unusual_time_nan. exact IH.
Qed.

Lemma flat_map_singleton {A B} (p : A -> bool) (f : A -> B) (l : list A) :
  flat_map (fun x => if p x then [f x] else []) l = map f (filter p l).
Proof.
  induction l as [| x l IH]; [reflexivity |].
  simpl. destruct (p x); simpl; now rewrite IH.
Qed.

(** C10: without any sign-in record the division 0 / 0 yields NaN, no
    comparison with it holds, and the anomaly list is empty. *)
Theorem detectAnomalies_without_sign_in :
  forall (tz : Z -> Z) (records : list AttendanceRecord),
    (forall r, In r records -> is_sign_in r = false) ->
    avgSignInHour tz records = NaN /\ detectAnomalies tz records = [].
Proof.
  intros tz records Hnone.
  assert (Havg : avgSignInHour tz records = NaN).
  { unfold avgSignInHour, signInHours.
    replace (filter is_sign_in records) with (@nil AttendanceRecord);
      [reflexivity |].
    symmetry. induction records as [| r records IH]; [reflexivity |].
    simpl. rewrite (Hnone r) by (simpl; tauto).
    apply IH. intros r' Hr'. apply Hnone. simpl. tauto. }
  split; [exact Havg | now apply detectAnomalies_no_mean].
Qed.

Lemma detectAnomalies_without_sign_in_witness :
  detectAnomalies UTC
    [record_at 1 "u1" "sign-out" 0 17; record_at 2 "u2" "sign-out" 0 2] = [].
Proof.
  apply (detectAnomalies_without_sign_in UTC).
  intros r [<- | [<- | []]]; reflexivity.
Defined.

Lemma is_sign_in_event (r : AttendanceRecord) :
  is_sign_in r = sign_in_event r.
Proof.
  unfold is_sign_in, sign_in_event, strict_eq_str.
  destruct (JsValue_eq_dec (action r) (JsStr "sign-in")) as [-> | Hne];
    [reflexivity |].
  destruct (action r) as [| | b | z | s]; try reflexivity.
  destruct (String.eqb_spec s "sign-in") as [-> | _];
    [contradiction | reflexivity].
Qed.

Lemma sign_in_event_true (r : AttendanceRecord) :
  sign_in_event r = true <-> action r = JsStr "sign-in".
Proof.
  unfold sign_in_event.
  destruct (JsValue_eq_dec (action r) (JsStr "sign-in"));
    split; congruence.
Qed.

Lemma signInHours_sign_in_events (tz : Z -> Z)
    (records : list AttendanceRecord) :
  signInHours tz records =
  map (fun r => getHours tz (timestamp r)) (filter sign_in_event records).
Proof.
  unfold signInHours. f_equal. apply filter_ext. apply is_sign_in_event.
Qed.

(** C7: detectAnomalies averages the hour of day over the records whose
    action is sign-in, and over no other record, and reports exactly the
    sign-in records whose hour differs from that mean by more than 3, in
    ledger order; a record with any other action is never reported, and
    when the mean does not exist nothing is reported. Sign-ins at hours
    9, 9, 9, 9, 2 report the last record only. *)
Theorem detectAnomalies_flags_outliers :
  forall (tz : Z -> Z) (records : list AttendanceRecord),
    avgSignInHour tz records =
      match mean_sign_in_hour tz records with
      | Some m => Fin m
      | None => NaN
      end /\
    map an_record (detectAnomalies tz records) =
      filter (flagged tz records) records /\
    (forall r,
        In r (map an_record (detectAnomalies tz records)) <->
        In r records /\ action r = JsStr "sign-in" /\
        exists h m,
          getHours tz (timestamp r) = Some h /\
          mean_sign_in_hour tz records = Some m /\
          (3 < Qabs (inject_Z h - m))%Q) /\
    (forall r,
        In r (map an_record (detectAnomalies tz records)) ->
        action r <> JsStr "sign-out") /\
    (forall r1 r2 r3 r4 r5,
        records = [r1; r2; r3; r4; r5] ->
        Forall (fun r => action r = JsStr "sign-in") records ->
        map (fun r => getHours tz (timestamp r)) records =
          [Some 9; Some 9; Some 9; Some 9; Some 2] ->
        mean_sign_in_hour tz records = Some (38 # 5) /\
        map an_record (detectAnomalies tz records) = [r5]).
Proof.
  intros tz records.
  assert (Hmean : avgSignInHour tz records =
                  match mean_sign_in_hour tz records with
                  | Some m => Fin m
                  | None => NaN
                  end).
  { unfold mean_sign_in_hour. rewrite <- signInHours_sign_in_events.
    apply avgSignInHour_mean. }
  assert (Hshape : map an_record (detectAnomalies tz records) =
                   filter (unusual_time tz (avgSignInHour tz records))
                     records).
  { unfold detectAnomalies. cbv zeta. rewrite flat_map_singleton, map_map.
    cbn [an_record unusual_time_anomaly]. apply map_id. }
  assert (Hiff : forall r,
    In r (map an_record (detectAnomalies tz records)) <->
    In r records /\ action r = JsStr "sign-in" /\
    exists h m,
      getHours tz (timestamp r) = Some h /\
      mean_sign_in_hour tz records = Some m /\
      (3 < Qabs (inject_Z h - m))%Q).
  { intros r. rewrite Hshape, filter_In, Hmean, unusual_time_spec.
    rewrite is_sign_in_event, sign_in_event_true. tauto. }
  split; [exact Hmean |]. split; [| split; [exact Hiff | split]].
  - rewrite Hshape. apply filter_ext. intros r.
    unfold unusual_time, flagged. rewrite Hmean, is_sign_in_event.
    destruct (sign_in_event r); [| reflexivity].
    destruct (getHours tz (timestamp r)) as [h |];
      destruct (mean_sign_in_hour tz records) as [m |]; reflexivity.
  - intros r Hr. apply Hiff in Hr. destruct Hr as (_ & Hact & _).
    rewrite Hact. discriminate.
  - intros r1 r2 r3 r4 r5 Hrecords Hall Hhours.
    assert (Hm : mean_sign_in_hour tz records = Some (38 # 5)).
    { unfold mean_sign_in_hour.
      assert (Hkeep : filter sign_in_event records = records).
      { clear Hhours Hmean Hshape Hiff Hrecords.
        induction Hall as [| r l Hr Hall IH]; [reflexivity |].
        cbn [filter]. apply sign_in_event_true in Hr. rewrite Hr.
        f_equal. exact IH. }
      rewrite Hkeep, Hhours. reflexivity. }
    split; [exact Hm |].
    assert (Hflag : forall r, flagged tz records r =
      sign_in_event r &&
      match getHours tz (timestamp r) with
      | Some h => negb (Qle_bool (Qabs (inject_Z h - (38 # 5))) 3)
      | None => false
      end).
    { intros r. unfold flagged. rewrite Hm.
      destruct (getHours tz (timestamp r)); reflexivity. }
    assert (Hfilter : map an_record (detectAnomalies tz records) =
                      filter (flagged tz records) records).
    { rewrite Hshape. apply filter_ext. intros r.
      unfold unusual_time, flagged. rewrite Hmean, is_sign_in_event.
      destruct (sign_in_event r); [| reflexivity].
      destruct (getHours tz (timestamp r)) as [h |];
        destruct (mean_sign_in_hour tz records) as [m |]; reflexivity. }
    rewrite Hfilter, (filter_ext _ _ Hflag). subst records.
    inversion Hall as [| ? ? H1 Hall1]; subst.
    inversion Hall1 as [| ? ? H2 Hall2]; subst.
    inversion Hall2 as [| ? ? H3 Hall3]; subst.
    inversion Hall3 as [| ? ? H4 Hall4]; subst.
    inversion Hall4 as [| ? ? H5 _]; subst.
    apply sign_in_event_true in H1, H2, H3, H4, H5.
    cbn [map] in Hhours. injection Hhours as E1 E2 E3 E4 E5.
    cbn [filter]. rewrite H1, H2, H3, H4, H5, E1, E2, E3, E4, E5.
    reflexivity.
Qed.

Lemma detectAnomalies_flags_outliers_witness :
  mean_sign_in_hour UTC
    [record_at 1 "u1" "sign-in" 0 9; record_at 2 "u2" "sign-in" 0 9;
     record_at 3 "u3" "sign-in" 0 9; record_at 4 "u4" "sign-in" 0 9;
     record_at 5 "u5" "sign-in" 0 2] = Some (38 # 5) /\
  map an_record
    (detectAnomalies UTC
       [record_at 1 "u1" "sign-in" 0 9; record_at 2 "u2" "sign-in" 0 9;
        record_at 3 "u3" "sign-in" 0 9; record_at 4 "u4" "sign-in" 0 9;
        record_at 5 "u5" "sign-in" 0 2]) =
    [record_at 5 "u5" "sign-in" 0 2].
Proof.
  apply (proj2 (proj2 (proj2 (proj2
           (detectAnomalies_flags_outliers UTC
              [record_at 1 "u1" "sign-in" 0 9; record_at 2 "u2" "sign-in" 0 9;
               record_at 3 "u3" "sign-in" 0 9; record_at 4 "u4" "sign-in" 0 9;
               record_at 5 "u5" "sign-in" 0 2]))))
         _ _ _ _ _ eq_refl).
  - repeat constructor.
  - reflexivity.
Defined.

(** Sign-outs do not enter the mean: a sign-in at 9 among three sign-outs
    at 23 is the only sign-in, the mean is 9, and nothing is reported. *)
Example sign_outs_do_not_move_the_mean :
  let records :=
    [record_at 1 "u1" "sign-in" 0 9; record_at 2 "u1" "sign-out" 0 23;
     record_at 3 "u2" "sign-out" 0 23; record_at 4 "u3" "sign-out" 0 23] in
  mean_sign_in_hour UTC records = Some (9 # 1) /\
  avgSignInHour UTC records = Fin (9 # 1) /\
  detectAnomalies UTC records = [].
Proof. repeat split. Qed.

(* ------------------------------------------------------------------ *)
(** ** Properties of objects used as maps *)

Section ObjectFacts.

Context {V : Type}.

Lemma get_index_set_same (n : N) (v : V) (l : list (N * V)) :
  get_index n (set_index n v l) = Some v.
Proof.
  induction l as [| [m w] l IH]; simpl.
  - now rewrite N.eqb_refl.
  - destruct (N.ltb_spec n m); simpl.
    + now rewrite N.eqb_refl.
    + destruct (N.eqb_spec n m) as [-> | Hne]; simpl.
      * now rewrite N.eqb_refl.
      * destruct (N.eqb_spec n m); [contradiction | exact IH].
Qed.

Lemma get_index_set_other (n m : N) (v : V) (l : list (N * V)) :
  n <> m -> get_index m (set_index n v l) = get_index m l.
Proof.
  intros Hne. induction l as [| [p w] l IH]; simpl.
  - destruct (N.eqb_spec m n); [congruence | reflexivity].
  - destruct (N.ltb_spec n p); simpl.
    + destruct (N.eqb_spec m n); [congruence | reflexivity].
    + destruct (N.eqb_spec n p) as [-> | Hnp]; simpl.
      * destruct (N.eqb_spec m p); [congruence | reflexivity].
      * destruct (N.eqb_spec m p); [reflexivity | exact IH].
Qed.

Lemma get_name_set_same (s : string) (v : V) (l : list (string * V)) :
  get_name s (set_name s v l) = Some v.
Proof.
  induction l as [| [t w] l IH]; simpl.
  - now rewrite String.eqb_refl.
  - destruct (String.eqb_spec s t) as [-> | Hne]; simpl.
    + now rewrite String.eqb_refl.
    + destruct (String.eqb_spec s t); [contradiction | exact IH].
Qed.

Lemma get_name_set_other (s t : string) (v : V) (l : list (string * V)) :
  s <> t -> get_name t (set_name s v l) = get_name t l.
Proof.
  intros Hne. induction l as [| [u w] l IH]; simpl.
  - destruct (String.eqb_spec t s); [congruence | reflexivity].
  - destruct (String.eqb_spec s u) as [-> | Hsu]; simpl.
    + destruct (String.eqb_spec t u); [congruence | reflexivity].
    + destruct (String.eqb_spec t u); [reflexivity | exact IH].
Qed.

Lemma obj_get_set_same (k : PropertyKey) (v : V) (o : JsObject V) :
  obj_get k (obj_set k v o) = Some v.
Proof.
  destruct k; simpl; [apply get_index_set_same | apply get_name_set_same].
Qed.

Lemma obj_get_set_other (k k' : PropertyKey) (v : V) (o : JsObject V) :
  k <> k' -> obj_get k' (obj_set k v o) = obj_get k' o.
Proof.
  intros Hne. destruct k as [n | s], k' as [m | t]; simpl; try reflexivity.
  - apply get_index_set_other. congruence.
  - apply get_name_set_other. congruence.
Qed.

(** A fold that files every record under a key and updates the bucket
    found there: the bucket of a key only sees the records of that key. *)
Lemma keyed_fold_get (key : AttendanceRecord -> PropertyKey)
    (upd : AttendanceRecord -> option V -> V) (k : PropertyKey) :
  forall (records : list AttendanceRecord) (o : JsObject V),
    obj_get k
      (fold_left
         (fun o r => obj_set (key r) (upd r (obj_get (key r) o)) o)
         records o) =
    fold_left (fun c r => Some (upd r c))
      (filter (fun r => key_eqb (key r) k) records) (obj_get k o).
Proof.
  induction records as [| r records IH]; intros o; [reflexivity |].
  simpl. rewrite IH. unfold key_eqb.
  destruct (PropertyKey_eq_dec (key r) k) as [<- | Hne]; simpl.
  - now rewrite obj_get_set_same.
  - now rewrite obj_get_set_other.
Qed.

Variable w : V -> Z.

Lemma sum_Z_app (a b : list Z) : sum_Z (a ++ b) = sum_Z a + sum_Z b.
Proof.
  induction a as [| x a IH]; simpl; [reflexivity |].
  unfold sum_Z in *. simpl. rewrite IH. lia.
Qed.

Lemma sum_set_name (s : string) (v : V) (l : list (string * V)) :
  sum_Z (map w (map snd (set_name s v l))) =
  sum_Z (map w (map snd l)) - weight_of w (get_name s l) + w v.
Proof.
  unfold sum_Z.
  induction l as [| [t u] l IH]; simpl; [lia |].
  destruct (String.eqb_spec s t) as [-> | Hne]; simpl; [lia |].
  rewrite IH. lia.
Qed.

(** Writing a bucket under a string key changes the total by the weight
    of the new bucket minus the weight of the one it replaces. *)
Lemma total_set_name (s : string) (v : V) (o : JsObject V) :
  total w (obj_set (Str s) v o) =
  total w o - weight_of w (obj_get (Str s) o) + w v.
Proof.
  unfold total, Object_values, Object_entries. simpl.
  rewrite !map_app, !sum_Z_app, sum_set_name. lia.
Qed.

End ObjectFacts.

(* ------------------------------------------------------------------ *)
(** ** Properties of the date strings *)

Ltac head_of_day k :=
  do 7 (destruct k as [| k];
        [simpl; eexists _, _; split; [reflexivity | simpl; tauto] |]);
  destruct k; simpl; eexists _, _; (split; [reflexivity | simpl; tauto]).

(** A date string starts with the first letter of a day name. *)
Lemma DateString_head (lt : Z) :
  exists c rest,
    DateString lt = String c rest /\
    In c ["S"; "M"; "T"; "W"; "F"]%char.
Proof.
  unfold DateString.
  destruct (civil_from_days (Day lt)) as [[y m] d].
  generalize (Z.to_nat (WeekDay lt)). intros k.
  head_of_day k.
Qed.

Lemma DateString_not_invalid (lt : Z) : DateString lt <> "Invalid Date".
Proof.
  destruct (DateString_head lt) as (c & rest & -> & Hc).
  simpl in Hc. intros Heq. inversion Heq; subst.
  repeat (destruct Hc as [Hc | Hc]; [discriminate |]). exact Hc.
Qed.

Lemma key_of_DateString (lt : Z) :
  key_of_string (DateString lt) = Str (DateString lt).
Proof.
  destruct (DateString_head lt) as (c & rest & -> & Hc).
  unfold key_of_string, array_index_of_string. simpl in *.
  destruct (NilEmpty.uint_of_string rest);
    repeat (destruct Hc as [<- | Hc]; [reflexivity |]); contradiction.
Qed.

Lemma date_key_is_name (tz : Z -> Z) (r : AttendanceRecord) :
  date_key tz r = Str (toDateString tz (timestamp r)).
Proof.
  unfold date_key, toDateString.
  destruct (timestamp r); [apply key_of_DateString | reflexivity].
Qed.

Lemma date_key_invalid (tz : Z -> Z) (r : AttendanceRecord) :
  date_key tz r = Str "Invalid Date" <-> timestamp r = None.
Proof.
  rewrite date_key_is_name. unfold toDateString.
  destruct (timestamp r) as [t |]; split; try reflexivity; try discriminate.
  intros H. inversion H as [Heq].
  exfalso. exact (DateString_not_invalid _ Heq).
Qed.

(* ------------------------------------------------------------------ *)
(** ** Properties of the daily breakdown *)

Lemma sum_Z_map_const_one {A} (l : list A) :
  sum_Z (map (fun _ => 1) l) = length_Z l.
Proof.
  unfold sum_Z, length_Z. induction l as [| x l IH]; [reflexivity |].
  cbn [map fold_right List.length]. rewrite IH. lia.
Qed.

Lemma sum_Z_indicator {A} (p : A -> bool) (l : list A) :
  sum_Z (map (fun x => if p x then 1 else 0) l) = length_Z (filter p l).
Proof.
  unfold sum_Z, length_Z. induction l as [| x l IH]; [reflexivity |].
  cbn [map fold_right filter]. rewrite IH.
  destruct (p x); cbn [List.length]; lia.
Qed.

(** Each record adds its own share [d r] to the total of any measure [w]
    that [bump] raises by [d r] and that is zero on an empty bucket. *)
Lemma daily_total (tz : Z -> Z) (w : Counters -> Z)
    (d : AttendanceRecord -> Z) :
  w zero_counters = 0 ->
  (forall r c, w (bump r c) = w c + d r) ->
  forall records,
    total w (getDailyBreakdown tz records) = sum_Z (map d records).
Proof.
  intros Hzero Hbump records. unfold getDailyBreakdown.
  assert (Hgen : forall (o : JsObject Counters),
    total w
      (fold_left
         (fun breakdown record =>
            let date := key_of_string (toDateString tz (timestamp record)) in
            let bucket :=
              match obj_get date breakdown with
              | Some c => c
              | None => zero_counters
              end in
            obj_set date (bump record bucket) breakdown)
         records o) =
    total w o + sum_Z (map d records)).
  { induction records as [| r records IH]; intros o.
    - unfold sum_Z. simpl. lia.
    - simpl fold_left. rewrite IH.
      fold (date_key tz r). rewrite date_key_is_name.
      rewrite total_set_name, Hbump.
      destruct (obj_get (Str (toDateString tz (timestamp r))) o) as [c |];
        unfold sum_Z; simpl; [lia | rewrite Hzero; lia]. }
  rewrite Hgen. reflexivity.
Qed.

(** C5: the counters of the daily breakdown add up to the number of
    events; the sign-in counters add up to the number of sign-in events and
    the sign-out counters to the number of all other events, so every event
    raises exactly one counter of one date bucket by one. *)
Theorem daily_breakdown_counts_every_event :
  forall (tz : Z -> Z) (E : list AttendanceRecord),
    total (fun c => signIns c + signOuts c) (getDailyBreakdown tz E) =
      length_Z E /\
    total signIns (getDailyBreakdown tz E) = length_Z (filter is_sign_in E) /\
    total signOuts (getDailyBreakdown tz E) = length_Z (filter is_other E).
Proof.
  intros tz E. repeat split.
  - rewrite (daily_total tz _ (fun _ => 1)).
    + apply sum_Z_map_const_one.
    + reflexivity.
    + intros r c. unfold bump. destruct (is_sign_in r); simpl; lia.
  - rewrite (daily_total tz _ (fun r => if is_sign_in r then 1 else 0)).
    + apply sum_Z_indicator.
    + reflexivity.
    + intros r c. unfold bump. destruct (is_sign_in r); simpl; lia.
  - rewrite (daily_total tz _ (fun r => if is_other r then 1 else 0)).
    + apply sum_Z_indicator.
    + reflexivity.
    + intros r c. unfold bump, is_other.
      destruct (is_sign_in r); simpl; lia.
Qed.

(* ------------------------------------------------------------------ *)
(** ** Records with an unparseable timestamp *)

Lemma filter_implied {A} (p q : A -> bool) (l : list A) :
  (forall x, p x = true -> q x = true) ->
  filter p (filter q l) = filter p l.
Proof.
  intros Himp. induction l as [| x l IH]; [reflexivity |].
  simpl. destruct (q x) eqn:Hq; simpl.
  - now rewrite IH.
  - destruct (p x) eqn:Hp; [| exact IH].
    apply Himp in Hp. congruence.
Qed.

Lemma HourFromTime_range (t : Z) : 0 <= HourFromTime t < 24.
Proof. unfold HourFromTime. apply Z.mod_pos_bound. lia. Qed.

Lemma hour_key_valid (tz : Z -> Z) (r : AttendanceRecord) (t : Z) :
  timestamp r = Some t ->
  hour_key tz r = Idx (Z.to_N (HourFromTime (LocalTime tz t))).
Proof.
  intros Ht. unfold hour_key, getHours. rewrite Ht. simpl.
  pose proof (HourFromTime_range (LocalTime tz t)) as Hr.
  unfold array_index_limit.
  destruct (Z.leb_spec 0 (HourFromTime (LocalTime tz t))); [| lia].
  destruct (Z.ltb_spec (HourFromTime (LocalTime tz t)) 4294967295);
    [reflexivity | lia].
Qed.

Lemma hour_key_invalid (tz : Z -> Z) (r : AttendanceRecord) :
  hour_key tz r = Str "NaN" <-> timestamp r = None.
Proof.
  split.
  - destruct (timestamp r) as [t |] eqn:Ht; [| reflexivity].
    rewrite (hour_key_valid tz r t Ht). discriminate.
  - intros Ht. unfold hour_key. rewrite Ht. reflexivity.
Qed.

Lemma count_fold (rs : list AttendanceRecord) :
  forall n,
    fold_left (fun c (_ : AttendanceRecord) => Some (or_zero c + 1)) rs
      (Some n) = Some (n + length_Z rs).
Proof.
  unfold length_Z.
  induction rs as [| r rs IH]; intros n; cbn [fold_left List.length].
  - f_equal. lia.
  - assert (Hor : or_zero (Some n) = n).
    { simpl. destruct (Z.eqb_spec n 0); congruence. }
    rewrite Hor, IH. f_equal. lia.
Qed.

(** The hourly breakdown read key by key: the bucket of a key holds the
    number of records filed under it, and exists only if there is one. *)
Lemma hourly_get (tz : Z -> Z) (records : list AttendanceRecord)
    (k : PropertyKey) :
  obj_get k (getHourlyBreakdown tz records) =
  count_of (filter (fun r => key_eqb (hour_key tz r) k) records).
Proof.
  unfold getHourlyBreakdown.
  rewrite (keyed_fold_get (hour_key tz) (fun _ c => or_zero c + 1) k).
  destruct k; simpl;
    (destruct (filter _ records) as [| r rs]; [reflexivity |]);
    cbn [fold_left count_of]; change (or_zero None + 1) with 1;
    rewrite count_fold; unfold length_Z; cbn [List.length]; f_equal; lia.
Qed.

Lemma counters_fold (rs : list AttendanceRecord) :
  forall c,
    fold_left
      (fun (b : option Counters) r =>
         Some (bump r match b with Some c => c | None => zero_counters end))
      rs (Some c) =
    Some {| signIns := signIns c + length_Z (filter is_sign_in rs);
            signOuts := signOuts c + length_Z (filter is_other rs) |}.
Proof.
  unfold length_Z, is_other.
  induction rs as [| r rs IH]; intros c; cbn [fold_left filter].
  - destruct c; simpl. f_equal. f_equal; lia.
  - rewrite IH. unfold bump.
    destruct (is_sign_in r); cbn [negb signIns signOuts List.length];
      f_equal; f_equal; lia.
Qed.

(** The daily breakdown read key by key. *)
Lemma daily_get (tz : Z -> Z) (records : list AttendanceRecord)
    (k : PropertyKey) :
  obj_get k (getDailyBreakdown tz records) =
  counters_of (filter (fun r => key_eqb (date_key tz r) k) records).
Proof.
  unfold getDailyBreakdown.
  rewrite (keyed_fold_get (date_key tz)
             (fun r b =>
                bump r match b with Some c => c | None => zero_counters end)
             k).
  destruct k; simpl;
    (destruct (filter _ records) as [| r rs]; [reflexivity |]);
    cbn [fold_left counters_of]; rewrite counters_fold;
    unfold bump, length_Z, is_other; cbn [filter];
    destruct (is_sign_in r); unfold zero_counters;
    cbn [negb signIns signOuts List.length]; f_equal; f_equal; lia.
Qed.

Lemma filter_key_valid (key : AttendanceRecord -> PropertyKey)
    (bad k : PropertyKey) (records : list AttendanceRecord) :
  (forall r, timestamp r = None -> key r = bad) ->
  k <> bad ->
  filter (fun r => key_eqb (key r) k) (filter valid_timestamp records) =
  filter (fun r => key_eqb (key r) k) records.
Proof.
  intros Hbad Hk. apply filter_implied. intros r Hr.
  unfold valid_timestamp. destruct (timestamp r) eqn:Ht; [reflexivity |].
  unfold key_eqb in Hr. rewrite (Hbad r Ht) in Hr.
  destruct (PropertyKey_eq_dec bad k); [congruence | discriminate].
Qed.

Lemma filter_key_bad (key : AttendanceRecord -> PropertyKey)
    (bad : PropertyKey) (records : list AttendanceRecord) :
  (forall r, key r = bad <-> timestamp r = None) ->
  filter (fun r => key_eqb (key r) bad) records =
  filter (fun r => negb (valid_timestamp r)) records.
Proof.
  intros Hbad. apply filter_ext. intros r.
  unfold key_eqb, valid_timestamp.
  destruct (PropertyKey_eq_dec (key r) bad) as [He | Hne].
  - apply Hbad in He. now rewrite He.
  - destruct (timestamp r) eqn:Ht; [reflexivity |].
    exfalso. apply Hne, Hbad, Ht.
Qed.

Lemma filter_valid_then_bad (records : list AttendanceRecord) :
  filter (fun r => negb (valid_timestamp r))
    (filter valid_timestamp records) = [].
Proof.
  induction records as [| r records IH]; [reflexivity |].
  simpl. destruct (valid_timestamp r) eqn:Hv; simpl; [| exact IH].
  now rewrite Hv.
Qed.

Lemma getUserBreakdown_ignores_timestamp
    (f : AttendanceRecord -> TimeValue) (records : list AttendanceRecord) :
  getUserBreakdown (map (fun r => with_timestamp (f r) r) records) =
  getUserBreakdown records.
Proof.
  unfold getUserBreakdown. generalize (@empty_object Counters).
  induction records as [| r records IH]; intros o; [reflexivity |].
  simpl. rewrite IH. reflexivity.
Qed.

Lemma filteredRecords_valid (tz : Z -> Z) (type : string) (now : Z)
    (records : list AttendanceRecord) :
  filteredRecords tz type now (filter valid_timestamp records) =
  filteredRecords tz type now records.
Proof.
  unfold filteredRecords.
  destruct (String.eqb type "daily").
  { f_equal. apply filter_implied. intros r Hr.
    unfold valid_timestamp. destruct (timestamp r); [reflexivity |].
    apply String.eqb_eq in Hr. simpl in Hr. symmetry in Hr.
    exfalso. exact (DateString_not_invalid _ Hr). }
  destruct (String.eqb type "weekly").
  { f_equal. apply filter_implied. intros r Hr.
    unfold valid_timestamp. destruct (timestamp r); [reflexivity |].
    discriminate. }
  destruct (String.eqb type "monthly"); [| reflexivity].
  f_equal. apply filter_implied. intros r Hr.
  unfold valid_timestamp. destruct (timestamp r); [reflexivity |].
  discriminate.
Qed.

(** C2 (amended): no aggregation has a failure path. The window filters
    (the daily, weekly and monthly cases of the report route and the date
    range filter) leave out every record whose timestamp does not parse.
    The breakdowns do not: the hourly breakdown counts such records in a
    bucket "NaN" and the daily breakdown in a bucket "Invalid Date", next to
    buckets that are those of the valid records; the user breakdown never
    reads the timestamp and counts the record under its username. *)
Theorem malformed_records_in_aggregation :
  forall (tz : Z -> Z) (E : list AttendanceRecord) (now : Z),
    let valid := filter valid_timestamp E in
    let malformed := filter (fun r => negb (valid_timestamp r)) E in
    (forall type,
        filteredRecords tz type now E = filteredRecords tz type now valid) /\
    (forall range,
        filterRecordsByDateRange E (Some range) =
        filterRecordsByDateRange valid (Some range)) /\
    (forall k, k <> Str "NaN" ->
        obj_get k (getHourlyBreakdown tz E) =
        obj_get k (getHourlyBreakdown tz valid)) /\
    obj_get (Str "NaN") (getHourlyBreakdown tz valid) = None /\
    obj_get (Str "NaN") (getHourlyBreakdown tz E) = count_of malformed /\
    (forall k, k <> Str "Invalid Date" ->
        obj_get k (getDailyBreakdown tz E) =
        obj_get k (getDailyBreakdown tz valid)) /\
    obj_get (Str "Invalid Date") (getDailyBreakdown tz valid) = None /\
    obj_get (Str "Invalid Date") (getDailyBreakdown tz E) =
      counters_of malformed /\
    (forall f : AttendanceRecord -> TimeValue,
        getUserBreakdown (map (fun r => with_timestamp (f r) r) E) =
        getUserBreakdown E).
Proof.
  intros tz E now valid malformed.
  assert (Hhour : forall r, hour_key tz r = Str "NaN" <-> timestamp r = None)
    by (intros r; apply hour_key_invalid).
  assert (Hdate : forall r,
    date_key tz r = Str "Invalid Date" <-> timestamp r = None)
    by (intros r; apply date_key_invalid).
  split; [intros type; symmetry; apply filteredRecords_valid |].
  split.
  { intros range. unfold filterRecordsByDateRange, valid. symmetry.
    apply filter_implied. intros r Hr. unfold in_range in Hr.
    apply andb_true_iff in Hr. destruct Hr as [Hr _].
    unfold valid_timestamp. destruct (timestamp r); [reflexivity |].
    discriminate. }
  split.
  { intros k Hk. rewrite !hourly_get. unfold valid.
    rewrite (filter_key_valid (hour_key tz) (Str "NaN")); [reflexivity | | exact Hk].
    intros r Hr. now apply Hhour. }
  split.
  { rewrite hourly_get. unfold valid.
    rewrite (filter_key_bad (hour_key tz) (Str "NaN") _ Hhour).
    now rewrite filter_valid_then_bad. }
  split.
  { rewrite hourly_get.
    now rewrite (filter_key_bad (hour_key tz) (Str "NaN") _ Hhour). }
  split.
  { intros k Hk. rewrite !daily_get. unfold valid.
    rewrite (filter_key_valid (date_key tz) (Str "Invalid Date"));
      [reflexivity | | exact Hk].
    intros r Hr. now apply Hdate. }
  split.
  { rewrite daily_get. unfold valid.
    rewrite (filter_key_bad (date_key tz) (Str "Invalid Date") _ Hdate).
    now rewrite filter_valid_then_bad. }
  split.
  { rewrite daily_get.
    now rewrite (filter_key_bad (date_key tz) (Str "Invalid Date") _ Hdate). }
  intros f. apply getUserBreakdown_ignores_timestamp.
Qed.

(** C2 (as stated) fails: with one malformed record next to a valid one,
    the hourly and the daily breakdown are not the aggregates over the
    valid record alone; they carry one more bucket, which counts the
    malformed record. *)
Lemma malformed_record_is_counted :
  let good := record_at 1 "u1" "sign-in" 19737 9 in
  let bad := malformed_record 2 "u2" "sign-in" in
  getHourlyBreakdown UTC [good; bad] =
    {| indices := [(9%N, 1)]; names := [("NaN", 1)] |} /\
  getHourlyBreakdown UTC [good; bad] <>
    getHourlyBreakdown UTC (filter valid_timestamp [good; bad]) /\
  getDailyBreakdown UTC [good; bad] =
    {| indices := [];
       names := [("Mon Jan 15 2024", {| signIns := 1; signOuts := 0 |});
                 ("Invalid Date", {| signIns := 1; signOuts := 0 |})] |} /\
  getDailyBreakdown UTC [good; bad] <>
    getDailyBreakdown UTC (filter valid_timestamp [good; bad]).
Proof.
  repeat split; try reflexivity; vm_compute; discriminate.
Qed.

(* ------------------------------------------------------------------ *)
(** ** Properties of the stable sort *)

Section StableSort.

Context {A : Type}.
Variable cnt : A -> Z.
Variable before : A -> A -> Prop.

Let cmp (x y : A) : Z := cnt y - cnt x.

Lemma sort_insert_In (x z : A) (l : list A) :
  In z (sort_insert cmp x l) <-> z = x \/ In z l.
Proof.
  induction l as [| y l IH]; simpl; [intuition |].
  destruct (0 <? cmp x y); simpl; [rewrite IH |]; intuition.
Qed.

Lemma sort_insert_perm (x : A) (l : list A) :
  Permutation (x :: l) (sort_insert cmp x l).
Proof.
  induction l as [| y l IH]; simpl; [apply Permutation_refl |].
  destruct (0 <? cmp x y); [| apply Permutation_refl].
  eapply perm_trans; [apply perm_swap |]. now apply perm_skip.
Qed.

Lemma Array_sort_perm (l : list A) : Permutation l (Array_sort cmp l).
Proof.
  induction l as [| x l IH]; simpl; [apply perm_nil |].
  eapply perm_trans; [apply perm_skip, IH | apply sort_insert_perm].
Qed.

Lemma Array_sort_In (z : A) (l : list A) :
  In z (Array_sort cmp l) <-> In z l.
Proof.
  induction l as [| x l IH]; simpl; [tauto |].
  rewrite sort_insert_In, IH. intuition.
Qed.

(** Inserting an element that precedes, in the enumeration, every element
    of a ranked list keeps the list ranked. *)
Lemma sort_insert_ranked (x : A) (l : list A) :
  StronglySorted (ranked_by cnt before) l ->
  Forall (before x) l ->
  StronglySorted (ranked_by cnt before) (sort_insert cmp x l).
Proof.
  induction l as [| y l IH]; intros Hs Hb; simpl.
  - constructor; constructor.
  - apply StronglySorted_inv in Hs. destruct Hs as [Hs Hy].
    inversion Hb as [| ? ? Hxy Hb']; subst.
    destruct (Z.ltb_spec 0 (cmp x y)) as [Hlt | Hge]; unfold cmp in *.
    + apply SSorted_cons; [now apply IH |].
      apply Forall_forall. intros z Hz. apply sort_insert_In in Hz.
      destruct Hz as [-> | Hz].
      * left. lia.
      * rewrite Forall_forall in Hy. now apply Hy.
    + apply SSorted_cons; [now apply SSorted_cons |].
      constructor.
      * destruct (Z.eq_dec (cnt x) (cnt y)) as [He | Hne];
          [right; split; assumption | left; lia].
      * apply Forall_forall. intros z Hz.
        rewrite Forall_forall in Hy, Hb'.
        specialize (Hy z Hz). specialize (Hb' z Hz).
        destruct Hy as [Hy | [Hy _]].
        -- left. lia.
        -- destruct (Z.eq_dec (cnt x) (cnt z)) as [He | Hne];
             [right; split; assumption | left; lia].
Qed.

(** A stable sort by descending count of a list given in enumeration
    order ranks by count first and by enumeration order among equals. *)
Lemma Array_sort_ranked (l : list A) :
  StronglySorted before l ->
  StronglySorted (ranked_by cnt before) (Array_sort cmp l).
Proof.
  induction l as [| x l IH]; intros Hs; simpl; [constructor |].
  apply StronglySorted_inv in Hs. destruct Hs as [Hs Hx].
  apply sort_insert_ranked; [now apply IH |].
  apply Forall_forall. intros z Hz. rewrite Array_sort_In in Hz.
  rewrite Forall_forall in Hx. now apply Hx.
Qed.

End StableSort.

Lemma StronglySorted_app_cross {A} (R : A -> A -> Prop) (l1 l2 : list A) :
  StronglySorted R (l1 ++ l2) ->
  StronglySorted R l1 /\
  (forall a b, In a l1 -> In b l2 -> R a b).
Proof.
  induction l1 as [| x l1 IH]; simpl; intros Hs.
  - split; [constructor | intros a b []].
  - apply StronglySorted_inv in Hs. destruct Hs as [Hs Hx].
    destruct (IH Hs) as [Hs1 Hcross].
    rewrite Forall_forall in Hx. split.
    + apply SSorted_cons; [exact Hs1 |].
      apply Forall_forall. intros z Hz. apply Hx, in_or_app. now left.
    + intros a b [<- | Ha] Hb; [apply Hx, in_or_app; now right |].
      now apply Hcross.
Qed.

Lemma StronglySorted_map {A B} (f : A -> B) (R : B -> B -> Prop)
    (l : list A) :
  StronglySorted (fun a b => R (f a) (f b)) l ->
  StronglySorted R (map f l).
Proof.
  induction 1 as [| x l Hs IH Hx]; simpl; [constructor |].
  apply SSorted_cons; [exact IH |].
  apply Forall_forall. intros z Hz. apply in_map_iff in Hz.
  destruct Hz as (a & <- & Ha). rewrite Forall_forall in Hx. now apply Hx.
Qed.

(* ------------------------------------------------------------------ *)
(** ** Properties of the hourly breakdown and of the peak hours *)

Lemma set_index_keys {V} (n m : N) (v : V) (l : list (N * V)) :
  In m (map fst (set_index n v l)) <-> m = n \/ In m (map fst l).
Proof.
  induction l as [| [p w] l IH]; simpl; [intuition |].
  destruct (N.ltb_spec n p); simpl; [intuition |].
  destruct (N.eqb_spec n p) as [-> | Hne]; simpl; [intuition |].
  rewrite IH. intuition.
Qed.

Lemma set_index_sorted {V} (n : N) (v : V) (l : list (N * V)) :
  StronglySorted N.lt (map fst l) ->
  StronglySorted N.lt (map fst (set_index n v l)).
Proof.
  induction l as [| [p w] l IH]; simpl; intros Hs.
  - constructor; constructor.
  - apply StronglySorted_inv in Hs. destruct Hs as [Hs Hp].
    rewrite Forall_forall in Hp.
    destruct (N.ltb_spec n p) as [Hlt | Hge]; simpl.
    + apply SSorted_cons; [now apply SSorted_cons; [| apply Forall_forall] |].
      constructor; [exact Hlt |].
      apply Forall_forall. intros z Hz. specialize (Hp z Hz). lia.
    + destruct (N.eqb_spec n p) as [-> | Hne]; simpl.
      * apply SSorted_cons; [exact Hs | now apply Forall_forall].
      * apply SSorted_cons; [now apply IH |].
        apply Forall_forall. intros z Hz. apply set_index_keys in Hz.
        destruct Hz as [-> | Hz]; [lia | now apply Hp].
Qed.

Lemma getHourlyBreakdown_shape (tz : Z -> Z)
    (records : list AttendanceRecord) :
  hourly_shape (getHourlyBreakdown tz records).
Proof.
  unfold getHourlyBreakdown.
  assert (Hgen : forall o : JsObject Z,
    hourly_shape o ->
    hourly_shape
      (fold_left
         (fun breakdown record =>
            let hour := key_of_number (getHours tz (timestamp record)) in
            obj_set hour (or_zero (obj_get hour breakdown) + 1) breakdown)
         records o)).
  { induction records as [| r records IH]; intros o Ho; [exact Ho |].
    simpl fold_left. apply IH. fold (hour_key tz r).
    destruct Ho as (Hsorted & Hsmall & Hnames).
    destruct (timestamp r) as [t |] eqn:Ht.
    - rewrite (hour_key_valid tz r t Ht).
      pose proof (HourFromTime_range (LocalTime tz t)) as Hr.
      unfold hourly_shape. simpl. split; [now apply set_index_sorted |].
      split; [| exact Hnames].
      apply Forall_forall. intros m Hm. apply set_index_keys in Hm.
      rewrite Forall_forall in Hsmall.
      destruct Hm as [-> | Hm]; [lia | now apply Hsmall].
    - assert (Hk : hour_key tz r = Str "NaN") by now apply hour_key_invalid.
      rewrite Hk. unfold hourly_shape. simpl.
      split; [exact Hsorted |]. split; [exact Hsmall |]. right.
      destruct Hnames as [-> | (c & ->)]; simpl; eauto. }
  apply Hgen. unfold hourly_shape. simpl.
  split; [constructor |]. split; [constructor | now left].
Qed.

(** The key of an hour bucket reads back as its hour. *)
Lemma parseInt_hour (n : N) :
  (n < 24)%N -> parseInt (N_to_string n) = Some (Z.of_N n).
Proof.
  intros Hn. rewrite <- (N2Nat.id n).
  assert (Hk : (N.to_nat n < 24)%nat) by lia.
  revert Hk. generalize (N.to_nat n). intros k Hk.
  do 24 (destruct k as [| k]; [reflexivity |]). lia.
Qed.

Lemma Object_entries_sorted (o : JsObject Z) :
  hourly_shape o -> StronglySorted entry_before (Object_entries o).
Proof.
  destruct o as [idx nms]. unfold hourly_shape, Object_entries. simpl.
  intros (Hsorted & Hsmall & Hnames).
  induction idx as [| [n v] idx IH]; simpl.
  - destruct Hnames as [-> | (c & ->)]; repeat constructor.
  - simpl in Hsorted, Hsmall.
    apply StronglySorted_inv in Hsorted. destruct Hsorted as [Hs Hn].
    inversion Hsmall as [| ? ? Hn24 Hsmall']; subst.
    apply SSorted_cons; [now apply IH |].
    apply Forall_forall. intros z Hz. unfold entry_before. simpl.
    rewrite (parseInt_hour n Hn24).
    apply in_app_or in Hz. destruct Hz as [Hz | Hz].
    + apply in_map_iff in Hz. destruct Hz as ([m u] & <- & Hm). simpl.
      rewrite Forall_forall in Hn, Hsmall'.
      assert (Hin : In m (map fst idx))
        by (apply in_map_iff; exists (m, u); auto).
      rewrite (parseInt_hour m (Hsmall' m Hin)). simpl.
      specialize (Hn m Hin). lia.
    + destruct Hnames as [-> | (c & ->)]; [destruct Hz |].
      destruct Hz as [<- | []]. reflexivity.
Qed.

(** C6: the entries of the hourly breakdown, sorted by the comparator and
    cut to their first [n], are at most [n] hour/count pairs in descending
    order of count, equal counts in ascending order of hour; every returned
    pair ranks before every pair left out, so no unreturned count exceeds a
    returned one; returned and unreturned pairs together are the entries of
    the breakdown. calculatePeakHours is the case [n = 5]. *)
Theorem peak_hours_top_n :
  forall (tz : Z -> Z) (E : list AttendanceRecord) (n : nat),
    let hourly := getHourlyBreakdown tz E in
    let ranking :=
      map peak_entry (Array_sort by_count_desc (Object_entries hourly)) in
    let returned := map peak_entry (sortedHours n hourly) in
    let unreturned := skipn n ranking in
    (List.length returned <= n)%nat /\
    StronglySorted ranks_before returned /\
    (forall p q, In p returned -> In q unreturned -> ranks_before p q) /\
    (forall p q, In p returned -> In q unreturned -> count q <= count p) /\
    Permutation (returned ++ unreturned)
      (map peak_entry (Object_entries hourly)) /\
    calculatePeakHours tz E =
      map peak_entry (sortedHours 5 (getHourlyBreakdown tz E)).
Proof.
  intros tz E n hourly ranking returned unreturned.
  assert (Hranked : StronglySorted ranks_before ranking).
  { unfold ranking. apply StronglySorted_map.
    apply (Array_sort_ranked snd entry_before).
    apply Object_entries_sorted, getHourlyBreakdown_shape. }
  assert (Hsplit : ranking = (returned ++ unreturned)%list).
  { unfold returned, unreturned, sortedHours, slice0, ranking.
    rewrite <- firstn_map. symmetry. apply firstn_skipn. }
  rewrite Hsplit in Hranked.
  apply StronglySorted_app_cross in Hranked.
  destruct Hranked as [Hret Hcross].
  split.
  { unfold returned, sortedHours, slice0.
    rewrite length_map. apply firstn_le_length. }
  split; [exact Hret |].
  split; [exact Hcross |].
  split.
  { intros p q Hp Hq. destruct (Hcross p q Hp Hq) as [H | [H _]]; lia. }
  split; [| reflexivity].
  rewrite <- Hsplit. unfold ranking.
  apply Permutation_map, Permutation_sym.
  apply (Array_sort_perm snd).
Qed.

(* ------------------------------------------------------------------ *)
(** ** Worked scenarios *)

(** Three events of one morning: one hour bucket, two user buckets. *)
Example morning_breakdowns :
  let events :=
    [ {| id := 1; userId := 1; username := "u1"; action := JsStr "sign-in";
         timestamp := Some (19737 * msPerDay + 9 * msPerHour);
         location := "Office" |};
      {| id := 2; userId := 1; username := "u1"; action := JsStr "sign-out";
         timestamp := Some (19737 * msPerDay + 9 * msPerHour + 300000);
         location := "Office" |};
      {| id := 3; userId := 2; username := "u2"; action := JsStr "sign-in";
         timestamp := Some (19737 * msPerDay + 9 * msPerHour + 600000);
         location := "Office" |} ] in
  getHourlyBreakdown UTC events = {| indices := [(9%N, 3)]; names := [] |} /\
  getUserBreakdown events =
    {| indices := [];
       names := [("u1", {| signIns := 1; signOuts := 1 |});
                 ("u2", {| signIns := 1; signOuts := 0 |})] |}.
Proof. split; reflexivity. Qed.

(** Equal counts come out in ascending order of hour, whatever the order
    of the events. *)
Example peak_hours_tie :
  calculatePeakHours UTC
    [record_at 1 "u1" "sign-in" 0 17; record_at 2 "u2" "sign-in" 0 9;
     record_at 3 "u3" "sign-in" 0 17; record_at 4 "u4" "sign-in" 0 9;
     record_at 5 "u5" "sign-in" 0 8; malformed_record 6 "u6" "sign-in"] =
  [ {| hour := Some 9; count := 2 |}; {| hour := Some 17; count := 2 |};
    {| hour := Some 8; count := 1 |}; {| hour := None; count := 1 |} ].
Proof. reflexivity. Qed.

(** The message attached to the outlier of the 9, 9, 9, 9, 2 scenario. *)
Example anomaly_message :
  map an_message
    (detectAnomalies UTC
       [record_at 1 "u1" "sign-in" 0 9; record_at 2 "u2" "sign-in" 0 9;
        record_at 3 "u3" "sign-in" 0 9; record_at 4 "u4" "sign-in" 0 9;
        record_at 5 "u5" "sign-in" 0 2]) =
  ["Unusual sign-in time: 2:00 (average: 8:00)"].
Proof. reflexivity. Qed.

Example toDateString_samples :
  toDateString UTC (Some 0) = "Thu Jan 01 1970" /\
  toDateString UTC (Some 1709164800000) = "Thu Feb 29 2024" /\
  toDateString UTC None = "Invalid Date" /\
  getHours UTC (Some (-1)) = Some 23.
Proof. repeat split. Qed.

Example parseInt_samples :
  parseInt "9" = Some 9 /\ parseInt "NaN" = None /\
  parseInt " -12px" = Some (-12) /\ parseInt "0x1f" = Some 31.
Proof. repeat split. Qed.

(* ------------------------------------------------------------------ *)
(** ** Further properties of the report windows *)

Lemma filter_idempotent {A} (p : A -> bool) (l : list A) :
  filter p (filter p l) = filter p l.
Proof. apply filter_implied. auto. Qed.

(** Filtering the result of a window again with the same window changes
    nothing, for the three windows of the report route and for the date
    range filter of SuperDatabase. *)
Theorem window_filter_idempotent :
  forall (tz : Z -> Z) (type : string) (now : Z)
         (E kept : list AttendanceRecord),
    filteredRecords tz type now E = Some kept ->
    filteredRecords tz type now kept = Some kept /\
    (forall range,
        filterRecordsByDateRange (filterRecordsByDateRange E range) range =
        filterRecordsByDateRange E range).
Proof.
  intros tz type now E kept Hkept. split.
  - unfold filteredRecords in *.
    destruct (String.eqb type "daily").
    { inversion Hkept; subst. now rewrite filter_idempotent. }
    destruct (String.eqb type "weekly").
    { inversion Hkept; subst. now rewrite filter_idempotent. }
    destruct (String.eqb type "monthly"); [| discriminate].
    inversion Hkept; subst. now rewrite filter_idempotent.
  - intros [range |]; simpl; [apply filter_idempotent | reflexivity].
Qed.

Lemma window_filter_idempotent_witness :
  let E := [record_at 1 "u1" "sign-in" 12 0; record_at 2 "u2" "sign-in" 19 8] in
  filteredRecords UTC "weekly" (20 * msPerDay)
    [record_at 2 "u2" "sign-in" 19 8] =
  Some [record_at 2 "u2" "sign-in" 19 8].
Proof.
  intros E.
  apply (window_filter_idempotent UTC "weekly" (20 * msPerDay) E).
  reflexivity.
Defined.

Lemma filteredRecords_weekly (tz : Z -> Z) now E :
  filteredRecords tz "weekly" now E =
  Some (filter (fun r => date_geb (timestamp r)
                           (TimeClip (now - 7 * msPerDay))) E).
Proof. reflexivity. Qed.

Lemma filteredRecords_monthly (tz : Z -> Z) now E :
  filteredRecords tz "monthly" now E =
  Some (filter (fun r => date_geb (timestamp r)
                           (TimeClip (now - 30 * msPerDay))) E).
Proof. reflexivity. Qed.

(** Every record of the weekly report is a record of the monthly report
    taken at the same instant. *)
Theorem weekly_within_monthly :
  forall (tz : Z -> Z) (now : Z) (E week month : list AttendanceRecord),
    Z.abs (now - 30 * msPerDay) <= maxTimeValue ->
    filteredRecords tz "weekly" now E = Some week ->
    filteredRecords tz "monthly" now E = Some month ->
    forall r, In r week -> In r month.
Proof.
  intros tz now E week month Hvalid Hweek Hmonth r Hr.
  rewrite filteredRecords_weekly in Hweek.
  rewrite filteredRecords_monthly in Hmonth.
  injection Hweek as Hweek. injection Hmonth as Hmonth.
  rewrite <- Hweek in Hr. rewrite <- Hmonth.
  pose proof (TimeClip_in_range _ Hvalid) as Hclip.
  apply filter_In in Hr. destruct Hr as [HrE Hge].
  apply filter_In. split; [exact HrE |].
  apply date_geb_spec in Hge. destruct Hge as (x & y & Hx & Hy & Hle).
  apply date_geb_spec. exists x, (now - 30 * msPerDay).
  split; [exact Hx |]. split; [exact Hclip |].
  unfold TimeClip in Hy.
  destruct (Z.abs _ <=? maxTimeValue); [| discriminate].
  inversion Hy; subst y. unfold msPerDay in *. lia.
Qed.

Lemma weekly_within_monthly_witness :
  let r := record_at 2 "u2" "sign-in" 39 8 in
  In r [record_at 1 "u1" "sign-in" 12 0; r].
Proof.
  intros r.
  apply (weekly_within_monthly UTC (40 * msPerDay)
           [record_at 1 "u1" "sign-in" 2 0;
            record_at 1 "u1" "sign-in" 12 0; r]
           [r] [record_at 1 "u1" "sign-in" 12 0; r]).
  - vm_compute. discriminate.
  - reflexivity.
  - reflexivity.
  - simpl. tauto.
Defined.

(* ------------------------------------------------------------------ *)
(** ** Further properties of the breakdowns *)

Lemma sign_out_is_other (r : AttendanceRecord) :
  is_sign_out r = true -> is_sign_in r = false.
Proof.
  unfold is_sign_out, is_sign_in, strict_eq_str.
  destruct (action r); try discriminate.
  intros H. apply String.eqb_eq in H. subst. reflexivity.
Qed.

Lemma other_split (E : list AttendanceRecord) :
  length_Z (filter is_other E) =
  length_Z (filter is_sign_out E) + length_Z (filter is_unknown_action E).
Proof.
  unfold length_Z, is_other, is_unknown_action.
  induction E as [| r E IH]; [reflexivity |].
  cbn [filter].
  destruct (is_sign_out r) eqn:Hout.
  - rewrite (sign_out_is_other r Hout). cbn [negb andb List.length]. lia.
  - destruct (is_sign_in r); cbn [negb andb List.length]; lia.
Qed.

(** In the analytics of a report the sign-in counters of the daily
    breakdown add up to totalSignIns, but its sign-out counters add up to
    totalSignOuts plus the number of records whose action is neither
    sign-in nor sign-out: the breakdown files those as sign-outs, the total
    leaves them out. *)
Theorem analytics_totals_and_breakdown :
  forall (tz : Z -> Z) (E : list AttendanceRecord),
    let a := calculateAnalytics tz E in
    total signIns (an_dailyBreakdown a) = totalSignIns a /\
    total signOuts (an_dailyBreakdown a) =
      totalSignOuts a + length_Z (filter is_unknown_action E) /\
    totalSignIns a + totalSignOuts a + length_Z (filter is_unknown_action E) =
      length_Z E.
Proof.
  intros tz E a. unfold a, calculateAnalytics. cbn [an_dailyBreakdown
    totalSignIns totalSignOuts].
  assert (Hin : total signIns (getDailyBreakdown tz E) =
                length_Z (filter is_sign_in E)).
  { rewrite (daily_total tz _ (fun r => if is_sign_in r then 1 else 0)).
    - apply sum_Z_indicator.
    - reflexivity.
    - intros r c. unfold bump. destruct (is_sign_in r); simpl; lia. }
  assert (Hout : total signOuts (getDailyBreakdown tz E) =
                 length_Z (filter is_other E)).
  { rewrite (daily_total tz _ (fun r => if is_other r then 1 else 0)).
    - apply sum_Z_indicator.
    - reflexivity.
    - intros r c. unfold bump, is_other.
      destruct (is_sign_in r); simpl; lia. }
  split; [exact Hin |]. split; [rewrite Hout; apply other_split |].
  rewrite <- Z.add_assoc, <- other_split.
  unfold length_Z, is_other. clear.
  induction E as [| r E IH]; [reflexivity |].
  cbn [filter]. destruct (is_sign_in r); cbn [negb List.length]; lia.
Qed.

Section ObjectTotals.

Context {V : Type}.
Variable w : V -> Z.

Lemma get_index_above (n : N) (l : list (N * V)) :
  Forall (N.lt n) (map fst l) -> get_index n l = None.
Proof.
  induction l as [| [m u] l IH]; simpl; intros Hall; [reflexivity |].
  inversion Hall as [| ? ? Hlt Hall']; subst.
  destruct (N.eqb_spec n m); [lia | now apply IH].
Qed.

Lemma sum_set_index (n : N) (v : V) (l : list (N * V)) :
  StronglySorted N.lt (map fst l) ->
  sum_Z (map w (map snd (set_index n v l))) =
  sum_Z (map w (map snd l)) - weight_of w (get_index n l) + w v.
Proof.
  unfold sum_Z.
  induction l as [| [m u] l IH]; simpl; intros Hs; [lia |].
  apply StronglySorted_inv in Hs. destruct Hs as [Hs Hm].
  destruct (N.ltb_spec n m) as [Hlt | Hge]; simpl.
  - destruct (N.eqb_spec n m); [lia |].
    rewrite get_index_above; [simpl; lia |].
    apply Forall_forall. intros k Hk.
    rewrite Forall_forall in Hm. specialize (Hm k Hk). lia.
  - destruct (N.eqb_spec n m) as [-> | Hne]; simpl; [lia |].
    rewrite (IH Hs). lia.
Qed.

Lemma values_of_entries (o : JsObject V) :
  Object_values o = (map snd (indices o) ++ map snd (names o))%list.
Proof.
  unfold Object_values, Object_entries.
  rewrite map_app, map_map. reflexivity.
Qed.

(** Writing a bucket changes the total by the weight of the new bucket
    minus the weight of the bucket it replaces. *)
Lemma total_obj_set (k : PropertyKey) (v : V) (o : JsObject V) :
  sorted_indices o ->
  total w (obj_set k v o) = total w o - weight_of w (obj_get k o) + w v.
Proof.
  intros Hs. unfold total. rewrite !values_of_entries, !map_app, !sum_Z_app.
  destruct k as [n | s]; simpl.
  - rewrite (sum_set_index n v _ Hs). lia.
  - rewrite sum_set_name. lia.
Qed.

Lemma obj_set_sorted (k : PropertyKey) (v : V) (o : JsObject V) :
  sorted_indices o -> sorted_indices (obj_set k v o).
Proof.
  unfold sorted_indices. destruct k; simpl; [apply set_index_sorted | auto].
Qed.

End ObjectTotals.

Lemma empty_object_sorted {V} : sorted_indices (@empty_object V).
Proof. unfold sorted_indices. simpl. constructor. Qed.

Lemma hour_key_at_hour (tz : Z -> Z) (n : N) (r : AttendanceRecord) :
  key_eqb (hour_key tz r) (Idx n) = at_hour tz (Z.of_N n) r.
Proof.
  unfold key_eqb, at_hour.
  destruct (timestamp r) as [t |] eqn:Ht.
  - rewrite (hour_key_valid tz r t Ht). unfold getHours. cbn [option_map].
    pose proof (HourFromTime_range (LocalTime tz t)) as Hr.
    destruct (PropertyKey_eq_dec _ _) as [He | Hne];
      destruct (Z.eqb_spec (HourFromTime (LocalTime tz t)) (Z.of_N n))
        as [Hz | Hz]; try reflexivity.
    + inversion He. lia.
    + exfalso. apply Hne. f_equal. lia.
  - assert (Hk : hour_key tz r = Str "NaN") by now apply hour_key_invalid.
    rewrite Hk. unfold getHours. cbn [option_map].
    destruct (PropertyKey_eq_dec _ _); [discriminate | reflexivity].
Qed.

Lemma at_hour_out_of_range (tz : Z -> Z) (n : N) (r : AttendanceRecord) :
  (24 <= n)%N -> at_hour tz (Z.of_N n) r = false.
Proof.
  intros Hn. unfold at_hour, getHours.
  destruct (timestamp r) as [t |]; [| reflexivity]. cbn [option_map].
  pose proof (HourFromTime_range (LocalTime tz t)).
  destruct (Z.eqb_spec (HourFromTime (LocalTime tz t)) (Z.of_N n));
    [lia | reflexivity].
Qed.

(** The hourly breakdown is the sparse hour-to-count map: the bucket of an
    hour holds the number of records signed at that local hour and is
    missing when there is none, no bucket exists for a number from 24 on,
    and the counts of all buckets (the one of NaN included) add up to the
    number of records. *)
Theorem hourly_breakdown_counts :
  forall (tz : Z -> Z) (E : list AttendanceRecord),
    (forall n : N,
        obj_get (Idx n) (getHourlyBreakdown tz E) =
        count_of (filter (at_hour tz (Z.of_N n)) E)) /\
    (forall n : N, (24 <= n)%N ->
        obj_get (Idx n) (getHourlyBreakdown tz E) = None) /\
    names (getHourlyBreakdown tz E) =
      match count_of (filter (fun r => negb (valid_timestamp r)) E) with
      | Some c => [("NaN", c)]
      | None => []
      end /\
    total (fun c => c) (getHourlyBreakdown tz E) = length_Z E.
Proof.
  intros tz E.
  assert (Hget : forall n : N,
    obj_get (Idx n) (getHourlyBreakdown tz E) =
    count_of (filter (at_hour tz (Z.of_N n)) E)).
  { intros n. rewrite hourly_get. f_equal. apply filter_ext.
    intros r. apply hour_key_at_hour. }
  split; [exact Hget |]. split.
  { intros n Hn. rewrite Hget.
    replace (filter (at_hour tz (Z.of_N n)) E) with (@nil AttendanceRecord);
      [reflexivity |].
    symmetry. clear Hget. induction E as [| r E IH]; [reflexivity |].
    cbn [filter]. now rewrite (at_hour_out_of_range tz n r Hn). }
  split.
  { pose proof (hourly_get tz E (Str "NaN")) as Hnan.
    rewrite (filter_key_bad (hour_key tz) (Str "NaN") E
               (hour_key_invalid tz)) in Hnan.
    destruct (getHourlyBreakdown_shape tz E) as (_ & _ & Hnames).
    simpl in Hnan.
    destruct Hnames as [Hn | (c & Hn)]; rewrite Hn in *; simpl in Hnan.
    - now rewrite <- Hnan.
    - rewrite <- Hnan. reflexivity. }
  unfold getHourlyBreakdown.
  assert (Hgen : forall o : JsObject Z,
    sorted_indices o ->
    total (fun c => c)
      (fold_left
         (fun breakdown record =>
            let hour := key_of_number (getHours tz (timestamp record)) in
            obj_set hour (or_zero (obj_get hour breakdown) + 1) breakdown)
         E o) = total (fun c => c) o + length_Z E).
  { clear Hget. unfold length_Z. induction E as [| r E IH]; intros o Ho.
    - simpl. lia.
    - cbn [fold_left List.length].
      rewrite IH by (apply obj_set_sorted; exact Ho).
      rewrite total_obj_set by exact Ho.
      destruct (obj_get _ o) as [c |]; simpl; [| lia].
      destruct (Z.eqb_spec c 0); lia. }
  rewrite Hgen by apply empty_object_sorted. reflexivity.
Qed.

Lemma array_index_of_string_some (s : string) (n : N) :
  array_index_of_string s = Some n -> N_to_string n = s.
Proof.
  unfold array_index_of_string.
  destruct (NilEmpty.uint_of_string s) as [d |]; [| discriminate].
  destruct (String.eqb (N_to_string (N.of_uint d)) s) eqn:He;
    simpl; [| discriminate].
  destruct (Z.of_N (N.of_uint d) <? array_index_limit); [| discriminate].
  intros H. inversion H; subst. now apply String.eqb_eq.
Qed.

(** Two strings are the same property key only if they are equal. *)
Lemma key_of_string_inj (s t : string) :
  key_of_string s = key_of_string t -> s = t.
Proof.
  unfold key_of_string.
  destruct (array_index_of_string s) as [n |] eqn:Hs;
    destruct (array_index_of_string t) as [m |] eqn:Ht;
    intros H; inversion H; subst.
  - apply array_index_of_string_some in Hs, Ht. congruence.
  - reflexivity.
Qed.

Lemma user_key_eqb (u : string) (r : AttendanceRecord) :
  key_eqb (key_of_string (username r)) (key_of_string u) = of_user u r.
Proof.
  unfold key_eqb, of_user.
  destruct (PropertyKey_eq_dec _ _) as [He | Hne];
    destruct (String.eqb_spec (username r) u) as [Hu | Hu]; try reflexivity.
  - apply key_of_string_inj in He. contradiction.
  - exfalso. apply Hne. now rewrite Hu.
Qed.

(** The step of the loop of getUserBreakdown. *)
Lemma getUserBreakdown_fold (records : list AttendanceRecord) :
  getUserBreakdown records =
  fold_left
    (fun breakdown record =>
       match obj_get (key_of_string (username record)) breakdown with
       | Some c =>
           obj_set (key_of_string (username record)) (bump record c) breakdown
       | None =>
           if inherited (username record) then breakdown
           else obj_set (key_of_string (username record))
                  (bump record zero_counters) breakdown
       end)
    records empty_object.
Proof. reflexivity. Qed.

(** The breakdown by user, bucket by bucket: the bucket of a username holds
    the sign-in and the other records of that user and is missing when the
    user has none; the records of a user named like a property every object
    inherits (constructor, toString, ...) get no bucket at all, so the
    counters add up to the number of the remaining records. *)
Theorem user_breakdown_buckets :
  forall (E : list AttendanceRecord) (u : string),
    obj_get (key_of_string u) (getUserBreakdown E) =
      (if inherited u then None
       else counters_of (filter (of_user u) E)) /\
    total (fun c => signIns c + signOuts c) (getUserBreakdown E) =
      length_Z (filter (fun r => negb (inherited (username r))) E).
Proof.
  intros E u. rewrite getUserBreakdown_fold.
  set (step := fun (breakdown : JsObject Counters) record =>
       match obj_get (key_of_string (username record)) breakdown with
       | Some c =>
           obj_set (key_of_string (username record)) (bump record c) breakdown
       | None =>
           if inherited (username record) then breakdown
           else obj_set (key_of_string (username record))
                  (bump record zero_counters) breakdown
       end).
  set (clean := fun o : JsObject Counters =>
       forall v, inherited v = true -> obj_get (key_of_string v) o = None).
  assert (Hstep : forall r o, clean o -> clean (step o r)).
  { intros r o Ho v Hv. unfold step.
    assert (Hother : inherited (username r) = false ->
                     key_of_string (username r) <> key_of_string v).
    { intros Hr He. apply key_of_string_inj in He. congruence. }
    destruct (obj_get (key_of_string (username r)) o) as [c |] eqn:Hget.
    - destruct (inherited (username r)) eqn:Hr.
      + rewrite (Ho _ Hr) in Hget. discriminate.
      + rewrite obj_get_set_other by now apply Hother. now apply Ho.
    - destruct (inherited (username r)) eqn:Hr; [now apply Ho |].
      rewrite obj_get_set_other by now apply Hother. now apply Ho. }
  assert (Hsorted : forall r o, sorted_indices o -> sorted_indices (step o r)).
  { intros r o Ho. unfold step.
    destruct (obj_get _ o); [now apply obj_set_sorted |].
    destruct (inherited _); [exact Ho | now apply obj_set_sorted]. }
  split.
  - assert (Hgen : forall o, clean o ->
      obj_get (key_of_string u) (fold_left step E o) =
      if inherited u then None
      else fold_left
             (fun b r =>
                Some (bump r match b with
                             | Some c => c
                             | None => zero_counters
                             end))
             (filter (of_user u) E) (obj_get (key_of_string u) o)).
    { induction E as [| r E IH]; intros o Ho.
      - simpl. destruct (inherited u) eqn:Hu; [now apply Ho | reflexivity].
      - cbn [fold_left filter]. rewrite IH by now apply Hstep.
        destruct (inherited u) eqn:Hu; [reflexivity |].
        rewrite <- user_key_eqb. unfold key_eqb, step.
        destruct (PropertyKey_eq_dec _ _) as [He | Hne].
        + apply key_of_string_inj in He. rewrite He.
          destruct (obj_get (key_of_string u) o) as [c |] eqn:Hget.
          * rewrite obj_get_set_same. reflexivity.
          * rewrite Hu, obj_get_set_same. reflexivity.
        + destruct (obj_get (key_of_string (username r)) o) as [c |].
          * now rewrite obj_get_set_other.
          * destruct (inherited (username r)); [reflexivity |].
            now rewrite obj_get_set_other. }
    rewrite Hgen by (intros v _; destruct (key_of_string v); reflexivity).
    destruct (inherited u); [reflexivity |].
    assert (Hnone : obj_get (key_of_string u) (@empty_object Counters) = None)
      by (destruct (key_of_string u); reflexivity).
    rewrite Hnone.
    destruct (filter (of_user u) E) as [| r rs]; [reflexivity |].
    cbn [fold_left counters_of]. rewrite counters_fold.
    unfold bump, length_Z, is_other. cbn [filter].
    destruct (is_sign_in r); unfold zero_counters;
      cbn [negb signIns signOuts List.length]; f_equal; f_equal; lia.
  - assert (Hgen : forall o, clean o -> sorted_indices o ->
      total (fun c => signIns c + signOuts c) (fold_left step E o) =
      total (fun c => signIns c + signOuts c) o +
      length_Z (filter (fun r => negb (inherited (username r))) E)).
    { unfold length_Z. induction E as [| r E IH]; intros o Ho Hs.
      - simpl. lia.
      - cbn [fold_left filter].
        rewrite IH by (try apply Hstep; try apply Hsorted; assumption).
        unfold step.
        destruct (obj_get (key_of_string (username r)) o) as [c |] eqn:Hget.
        + destruct (inherited (username r)) eqn:Hr.
          * rewrite (Ho _ Hr) in Hget. discriminate.
          * rewrite total_obj_set by exact Hs. rewrite Hget.
            unfold bump. destruct (is_sign_in r);
              cbn [negb weight_of signIns signOuts List.length]; lia.
        + destruct (inherited (username r)) eqn:Hr;
            cbn [negb List.length]; [lia |].
          rewrite total_obj_set by exact Hs. rewrite Hget.
          unfold bump, zero_counters. destruct (is_sign_in r);
            cbn [weight_of signIns signOuts]; lia. }
    rewrite Hgen.
    + reflexivity.
    + intros v _. destruct (key_of_string v); reflexivity.
    + apply empty_object_sorted.
Qed.

(* ------------------------------------------------------------------ *)
(** ** Properties of the daily average *)

Lemma set_name_keys {V} (s t : string) (v : V) (l : list (string * V)) :
  In t (map fst (set_name s v l)) <-> t = s \/ In t (map fst l).
Proof.
  induction l as [| [u w] l IH]; simpl; [intuition |].
  destruct (String.eqb_spec s u) as [-> | Hne]; simpl; [intuition |].
  rewrite IH. intuition.
Qed.

Lemma set_name_NoDup {V} (s : string) (v : V) (l : list (string * V)) :
  NoDup (map fst l) -> NoDup (map fst (set_name s v l)).
Proof.
  induction l as [| [u w] l IH]; simpl; intros Hnd.
  - constructor; [intros [] | constructor].
  - inversion Hnd as [| ? ? Hu Hnd']; subst.
    destruct (String.eqb_spec s u) as [-> | Hne]; simpl.
    + now constructor.
    + constructor; [| now apply IH].
      intros Hin. apply set_name_keys in Hin.
      destruct Hin as [-> | Hin]; [congruence | contradiction].
Qed.

Lemma round_half_up (n d : Z) :
  0 < d ->
  Qfloor (inject_Z n / inject_Z d + (1 # 2)) = (2 * n + d) / (2 * d).
Proof.
  intros Hd. destruct d as [| p | p]; try lia.
  unfold Qfloor, Qdiv, Qinv, Qmult, Qplus, inject_Z. cbn [Qnum Qden].
  rewrite !Pos2Z.inj_mul. f_equal; lia.
Qed.

(** The day buckets of calculateDailyAverage: one per distinct date
    string. *)
Lemma daily_count_keys (tz : Z -> Z) (records : list AttendanceRecord) :
  forall o : JsObject Z,
    indices o = [] -> NoDup (map fst (names o)) ->
    let o' :=
      fold_left
        (fun dailyCounts record =>
           let date := key_of_string (toDateString tz (timestamp record)) in
           obj_set date (or_zero (obj_get date dailyCounts) + 1) dailyCounts)
        records o in
    indices o' = [] /\ NoDup (map fst (names o')) /\
    (forall k, In k (map fst (names o')) <->
               In k (map fst (names o)) \/
               In k (map (fun r => toDateString tz (timestamp r)) records)).
Proof.
  induction records as [| r records IH]; intros o Hidx Hnd; simpl.
  - split; [exact Hidx |]. split; [exact Hnd | intuition].
  - fold (date_key tz r). rewrite date_key_is_name.
    destruct (IH (obj_set (Str (toDateString tz (timestamp r)))
                    (or_zero
                       (obj_get (Str (toDateString tz (timestamp r))) o) + 1)
                    o))
      as (Hi & Hn & Hk).
    + exact Hidx.
    + simpl. now apply set_name_NoDup.
    + split; [exact Hi |]. split; [exact Hn |].
      intros k. rewrite Hk. simpl. rewrite set_name_keys. intuition.
Qed.

(** calculateDailyAverage is 0 on an empty list and otherwise the number
    of records divided by the number of distinct date strings, rounded to
    the nearest integer (halves up); that number of days is at least 1 and
    at most the number of records, and so is the result. *)
Theorem daily_average_rounds_records_per_day :
  forall (tz : Z -> Z) (E : list AttendanceRecord),
    let n := length_Z E in
    let days :=
      length_Z
        (nodup string_dec (map (fun r => toDateString tz (timestamp r)) E)) in
    calculateDailyAverage tz E =
      num_of_Z (if days =? 0 then 0 else (2 * n + days) / (2 * days)) /\
    (days = 0 <-> E = []) /\
    days <= n /\
    (E <> [] -> 1 <= (2 * n + days) / (2 * days) <= n).
Proof.
  intros tz E n days.
  set (dates := map (fun r => toDateString tz (timestamp r)) E) in *.
  assert (Hle : days <= n).
  { unfold days, n, length_Z. apply Nat2Z.inj_le.
    replace (List.length E) with (List.length dates)
      by (unfold dates; apply length_map).
    apply NoDup_incl_length; [apply NoDup_nodup |].
    intros x Hx. now apply nodup_In in Hx. }
  assert (Hzero : days = 0 <-> E = []).
  { unfold days, length_Z. split.
    - intros H0. destruct E as [| r E']; [reflexivity |]. exfalso.
      assert (Hin : In (toDateString tz (timestamp r))
                      (nodup string_dec dates))
        by (apply nodup_In; unfold dates; simpl; tauto).
      destruct (nodup string_dec dates); [destruct Hin | simpl in H0; lia].
    - intros ->. reflexivity. }
  assert (Hdays : length_Z
    (Object_keys
       (fold_left
          (fun dailyCounts record =>
             let date := key_of_string (toDateString tz (timestamp record)) in
             obj_set date (or_zero (obj_get date dailyCounts) + 1) dailyCounts)
          E (@empty_object Z))) = days).
  { pose proof (daily_count_keys tz E empty_object eq_refl (NoDup_nil _))
      as Hkeys.
    cbv zeta in Hkeys |- *. destruct Hkeys as (Hi & Hn & Hk).
    unfold Object_keys, Object_entries. rewrite Hi. simpl.
    unfold days, length_Z. f_equal.
    apply Permutation_length, NoDup_Permutation;
      [exact Hn | apply NoDup_nodup |].
    intros k. rewrite Hk, nodup_In. simpl. intuition. }
  split.
  { unfold calculateDailyAverage. cbv zeta in Hdays |- *.
    rewrite Hdays. fold n.
    destruct (Z.eqb_spec days 0) as [H0 | Hpos].
    - rewrite H0. reflexivity.
    - assert (Hd : 0 < days) by (unfold days, length_Z in *; lia).
      destruct (Z.ltb_spec 0 days); [| lia].
      unfold num_div, num_of_Z, Qzerob. cbn [Qnum inject_Z].
      destruct (Z.eqb_spec days 0); [lia |].
      unfold Math_round. now rewrite round_half_up. }
  split; [exact Hzero |]. split; [exact Hle |].
  intros Hne.
  assert (Hd : 1 <= days).
  { destruct (Z.eq_dec days 0) as [H0 | H0];
      [apply Hzero in H0; contradiction |].
    unfold days, length_Z in *. lia. }
  split.
  - apply Z.div_le_lower_bound; lia.
  - apply Z.lt_succ_r, Z.div_lt_upper_bound; nia.
Qed.

Lemma daily_average_rounds_records_per_day_witness :
  let E := [record_at 1 "u1" "sign-in" 0 9; record_at 2 "u2" "sign-in" 0 10;
            record_at 3 "u1" "sign-out" 1 17] in
  1 <= (2 * 3 + 2) / (2 * 2) <= 3.
Proof.
  intros E.
  apply (daily_average_rounds_records_per_day UTC E).
  discriminate.
Defined.

(* ------------------------------------------------------------------ *)
(** ** Properties of the password policy *)

Lemma password_score_range (password : JsString) :
  -20 <= password_score password <= 45.
Proof.
  unfold password_score.
  destruct (test_units is_lower password), (test_units is_upper password),
    (test_units is_digit password), (test_units is_special password),
    (test_repeated password), (test_common password); lia.
Qed.

(** The score of a password never reaches 60, so calculatePasswordStrength
    only ever answers weak or medium; the labels strong and very-strong
    cannot be returned. *)
Theorem password_strength_never_strong :
  forall password : JsString,
    password_score password <= 45 /\
    (calculatePasswordStrength password = "weak" \/
     calculatePasswordStrength password = "medium") /\
    (calculatePasswordStrength password = "medium" <->
     30 <= password_score password).
Proof.
  intros password. pose proof (password_score_range password) as Hr.
  unfold calculatePasswordStrength.
  destruct (Z.ltb_spec (password_score password) 30);
    destruct (Z.ltb_spec (password_score password) 60); try lia.
  - split; [lia |]. split; [now left |]. split; [discriminate | lia].
  - split; [lia |]. split; [now right |]. split; [lia | reflexivity].
Qed.

(** A password passes validatePassword exactly when it has at least 8
    UTF-16 code units, an upper-case ASCII letter, a lower-case ASCII
    letter and an ASCII digit among them; special characters are never
    asked for. A password that passes and shows neither a tripled code
    unit nor one of the common sequences is rated medium. *)
Theorem validatePassword_policy :
  forall password : JsString,
    (pw_valid (validatePassword password) = true <->
     (8 <= List.length password)%nat /\
     (exists c, In c password /\ (65 <= c <= 90)%N) /\
     (exists c, In c password /\ (97 <= c <= 122)%N) /\
     (exists c, In c password /\ (48 <= c <= 57)%N)) /\
    (pw_valid (validatePassword password) = true ->
     test_repeated password = false ->
     test_common password = false ->
     pw_strength (validatePassword password) = "medium").
Proof.
  intros password.
  assert (Hclass : forall lo hi : N,
    existsb (fun c => ((lo <=? c) && (c <=? hi))%N) password = true <->
    exists c, In c password /\ (lo <= c <= hi)%N).
  { intros lo hi. rewrite existsb_exists.
    split; intros (c & Hc & Hr); exists c; (split; [exact Hc |]).
    - apply andb_true_iff in Hr. destruct Hr as [H1 H2].
      apply N.leb_le in H1, H2. lia.
    - apply andb_true_iff. split; apply N.leb_le; lia. }
  assert (Hvalid : pw_valid (validatePassword password) = true <->
     (8 <= List.length password)%nat /\
     test_units is_upper password = true /\
     test_units is_lower password = true /\
     test_units is_digit password = true).
  { unfold validatePassword. cbn [pw_valid andb].
    destruct (Nat.ltb_spec (List.length password) 8);
      destruct (test_units is_upper password),
        (test_units is_lower password), (test_units is_digit password);
      simpl; split; try discriminate; try (intros (? & ? & ? & ?));
      try discriminate; try lia; auto. }
  split.
  { rewrite Hvalid. unfold test_units, is_upper, is_lower, is_digit.
    rewrite !Hclass. reflexivity. }
  intros Hv Hrep Hcom. apply Hvalid in Hv.
  destruct Hv as (Hlen & Hup & Hlow & Hdig).
  cbn [validatePassword pw_strength].
  pose proof (password_score_range password) as Hr.
  assert (Hscore : 30 <= password_score password).
  { unfold password_score. rewrite Hup, Hlow, Hdig, Hrep, Hcom.
    destruct (test_units is_special password); lia. }
  unfold calculatePasswordStrength.
  destruct (Z.ltb_spec (password_score password) 30); [lia |].
  destruct (Z.ltb_spec (password_score password) 60); [reflexivity | lia].
Qed.

Lemma validatePassword_policy_witness :
  pw_strength (validatePassword (units "Secret42x")) = "medium".
Proof.
  apply (validatePassword_policy (units "Secret42x")); reflexivity.
Defined.

(** Code units, not bytes: a password of three ASCII characters and four
    euro signs has length 7 and is refused as too short; its euro signs
    count as a tripled character. *)
Example validatePassword_euro_signs :
  let password := [65; 98; 49; 8364; 8364; 8364; 8364]%N in
  validatePassword password =
    {| pw_valid := false;
       pw_errors := ["Password must be at least 8 characters long"];
       pw_strength := "weak" |} /\
  password_score password = 19.
Proof. split; reflexivity. Qed.

(* ------------------------------------------------------------------ *)
(** ** Properties of the rate limiter *)

Lemma delete_name_keys {V} (s t : string) (l : list (string * V)) :
  In t (map fst (delete_name s l)) -> In t (map fst l).
Proof.
  induction l as [| [u w] l IH]; simpl; [tauto |].
  destruct (String.eqb s u); simpl; intuition.
Qed.

Lemma delete_name_NoDup {V} (s : string) (l : list (string * V)) :
  NoDup (map fst l) -> NoDup (map fst (delete_name s l)).
Proof.
  induction l as [| [u w] l IH]; simpl; intros Hnd; [constructor |].
  inversion Hnd as [| ? ? Hu Hnd']; subst.
  destruct (String.eqb s u); simpl; [exact Hnd' |].
  constructor; [| now apply IH].
  intros Hin. apply delete_name_keys in Hin. contradiction.
Qed.

Lemma get_name_absent {V} (s : string) (l : list (string * V)) :
  ~ In s (map fst l) -> get_name s l = None.
Proof.
  induction l as [| [u w] l IH]; simpl; intros Hn; [reflexivity |].
  destruct (String.eqb_spec s u) as [-> | Hne]; [tauto |].
  apply IH. tauto.
Qed.

Lemma get_name_delete_same {V} (s : string) (l : list (string * V)) :
  NoDup (map fst l) -> get_name s (delete_name s l) = None.
Proof.
  induction l as [| [u w] l IH]; simpl; intros Hnd; [reflexivity |].
  inversion Hnd as [| ? ? Hu Hnd']; subst.
  destruct (String.eqb_spec s u) as [-> | Hne].
  - now apply get_name_absent.
  - simpl. destruct (String.eqb_spec s u); [contradiction | now apply IH].
Qed.

Lemma get_name_delete_other {V} (s t : string) (l : list (string * V)) :
  s <> t -> get_name t (delete_name s l) = get_name t l.
Proof.
  intros Hne. induction l as [| [u w] l IH]; simpl; [reflexivity |].
  destruct (String.eqb_spec s u) as [-> | Hsu]; simpl.
  - destruct (String.eqb_spec t u); [congruence | reflexivity].
  - destruct (String.eqb_spec t u); [reflexivity | exact IH].
Qed.

Lemma ceil_minutes (t : Z) :
  let minutes := Qceiling (inject_Z t / 1000 / 60) in
  60000 * (minutes - 1) < t <= 60000 * minutes.
Proof.
  unfold Qceiling, Qfloor, Qdiv, Qinv, Qmult, Qopp, inject_Z.
  cbn [Qnum Qden].
  change (Z.pos (1 * 1000 * 60)) with 60000.
  pose proof (Z.div_mod (- (t * 1 * 1)) 60000 ltac:(lia)) as Hdm.
  pose proof (Z.mod_pos_bound (- (t * 1 * 1)) 60000 ltac:(lia)) as Hb.
  lia.
Qed.

Lemma checkRateLimit_blocked (now : Z) (identifier action : string)
    (m : LoginAttempts) :
  allowed (snd (checkRateLimit now identifier action m)) = false <->
  exists a,
    get_name (rate_key identifier action) m = Some a /\
    maxLoginAttempts <= attempt_count a /\
    now - lastAttempt a < lockoutDuration.
Proof.
  unfold checkRateLimit, maxLoginAttempts, lockoutDuration.
  destruct (get_name (rate_key identifier action) m) as [a |].
  - destruct (Z.ltb_spec 900000 (now - lastAttempt a)) as [He | He];
      cbn [attempt_count lastAttempt].
    + simpl. split; [discriminate |].
      intros (a' & Ha & Hc & Hl). inversion Ha; subst. lia.
    + destruct (Z.leb_spec 5 (attempt_count a)) as [Hc | Hc];
        destruct (Z.ltb_spec 0 (900000 - (now - lastAttempt a))) as [Hl | Hl];
        simpl; split; try discriminate; try reflexivity;
        try (intros (a' & Ha & Hc' & Hl'); inversion Ha; subst; lia).
      intros _. exists a. repeat split; lia.
  - cbn [attempt_count lastAttempt].
    destruct (900000 <? now - 0); simpl;
      (split; [discriminate | intros (a' & Ha & _); discriminate]).
Qed.

(** checkRateLimit refuses exactly when the map holds, for the key, at
    least five failed attempts the last of which is less than fifteen
    minutes old; the refusal tells the remaining time rounded up to whole
    minutes, at least one. A counter whose last failure is more than
    fifteen minutes old is reset to zero in the map itself, a missing key
    is not created, and no other key is touched. *)
Theorem rate_limit_decision :
  forall (now : Z) (identifier action : string) (m : LoginAttempts),
    let key := rate_key identifier action in
    let m' := fst (checkRateLimit now identifier action m) in
    let d := snd (checkRateLimit now identifier action m) in
    (allowed d = false <->
     exists a, get_name key m = Some a /\ 5 <= attempt_count a /\
               now - lastAttempt a < 900000) /\
    (forall a, get_name key m = Some a -> allowed d = false ->
       exists minutes,
         timeLeft d = Some minutes /\ 1 <= minutes /\
         60000 * (minutes - 1) < 900000 - (now - lastAttempt a)
           <= 60000 * minutes) /\
    (get_name key m = None -> m' = m /\ allowed d = true) /\
    (forall a, get_name key m = Some a ->
       get_name key m' = Some (after_check now a)) /\
    (forall k, k <> key -> get_name k m' = get_name k m).
Proof.
  intros now identifier action m key m' d.
  split; [apply checkRateLimit_blocked |].
  unfold d, m', checkRateLimit, after_check, maxLoginAttempts,
    lockoutDuration. fold key.
  destruct (get_name key m) as [a0 |] eqn:Hget.
  - split.
    { intros a Ha. inversion Ha; subst a0.
      destruct (Z.ltb_spec 900000 (now - lastAttempt a)) as [He | He];
        cbn [attempt_count lastAttempt].
      - simpl. discriminate.
      - destruct ((5 <=? attempt_count a) &&
                  (0 <? 900000 - (now - lastAttempt a)))%bool eqn:Hb;
          cbn [snd allowed timeLeft]; [| discriminate].
        intros _. eexists. split; [reflexivity |].
        apply andb_true_iff in Hb. destruct Hb as [_ Hb].
        apply Z.ltb_lt in Hb.
        pose proof (ceil_minutes (900000 - (now - lastAttempt a))) as Hm.
        cbv zeta in Hm. lia. }
    split; [discriminate |]. split.
    { intros a Ha. inversion Ha; subst a0.
      destruct (900000 <? now - lastAttempt a); cbn [attempt_count lastAttempt];
        destruct (_ && _)%bool; cbn [fst];
        try apply get_name_set_same; exact Hget. }
    intros k Hk.
    destruct (900000 <? now - lastAttempt a0); cbn [attempt_count lastAttempt];
      destruct (_ && _)%bool; cbn [fst];
      try (apply get_name_set_other; congruence); reflexivity.
  - split; [discriminate |]. split.
    { cbn [attempt_count lastAttempt].
      destruct (900000 <? now - 0); simpl; split; reflexivity. }
    split; [discriminate |]. intros k Hk.
    cbn [attempt_count lastAttempt].
    destruct (900000 <? now - 0); simpl; reflexivity.
Qed.

Lemma last_cons_default {A} (l : list A) :
  forall x d : A, last (x :: l) d = last l x.
Proof.
  induction l as [| y l IH]; intros x d; [reflexivity |].
  change (last (x :: y :: l) d) with (last (y :: l) d).
  now rewrite !IH.
Qed.

Lemma record_failures (identifier action : string) (times : list Z) :
  forall (m : LoginAttempts) (t : Z),
    let key := rate_key identifier action in
    let before :=
      match get_name key m with
      | Some a => attempt_count a
      | None => 0
      end in
    get_name key
      (fold_left (fun m t => recordLoginAttempt t identifier action false m)
         (t :: times) m) =
    Some {| attempt_count := before + length_Z (t :: times);
            lastAttempt := last times t |}.
Proof.
  unfold length_Z.
  induction times as [| t' times IH]; intros m t.
  - cbn [fold_left last List.length]. unfold recordLoginAttempt.
    rewrite get_name_set_same.
    destruct (get_name (rate_key identifier action) m); reflexivity.
  - cbn [fold_left]. cbn [fold_left] in IH.
    rewrite (IH (recordLoginAttempt t identifier action false m) t').
    unfold recordLoginAttempt at 1. rewrite get_name_set_same.
    rewrite last_cons_default.
    cbn [attempt_count List.length]. f_equal.
    destruct (get_name (rate_key identifier action) m); f_equal;
      cbn [attempt_count]; lia.
Qed.

Lemma recordLoginAttempt_NoDup now identifier action success
    (m : LoginAttempts) :
  NoDup (map fst m) ->
  NoDup (map fst (recordLoginAttempt now identifier action success m)).
Proof.
  intros Hnd. unfold recordLoginAttempt.
  destruct success; [now apply delete_name_NoDup | now apply set_name_NoDup].
Qed.

(** Failed attempts add up: after failures recorded at the instants
    [t :: times] the counter of the key is its earlier value plus their
    number, whatever the time between them, and the last instant is kept.
    With five failures or more a check less than fifteen minutes after the
    last one is refused. A success removes the entry, and the next check is
    allowed. *)
Theorem failed_attempts_lock_out :
  forall (identifier action : string) (m : LoginAttempts)
         (t : Z) (times : list Z) (now : Z),
    let key := rate_key identifier action in
    let failed :=
      fold_left (fun m t => recordLoginAttempt t identifier action false m)
        (t :: times) m in
    NoDup (map fst m) ->
    (exists a, get_name key failed = Some a /\
               attempt_count a =
                 match get_name key m with
                 | Some a0 => attempt_count a0
                 | None => 0
                 end + length_Z (t :: times) /\
               lastAttempt a = last times t) /\
    (get_name key m = None -> 4 <= length_Z times ->
     now - last times t < 900000 ->
     allowed (snd (checkRateLimit now identifier action failed)) = false) /\
    (let cleared := recordLoginAttempt now identifier action true failed in
     get_name key cleared = None /\
     allowed (snd (checkRateLimit now identifier action cleared)) = true).
Proof.
  intros identifier action m t times now key failed Hnd.
  pose proof (record_failures identifier action times m t) as Hrec.
  cbv zeta in Hrec. fold key in Hrec. fold failed in Hrec.
  split; [eexists; split; [exact Hrec | split; reflexivity] |].
  split.
  - intros Hnone Hlen Hrecent. apply checkRateLimit_blocked.
    eexists. split; [exact Hrec |]. rewrite Hnone.
    cbn [attempt_count lastAttempt].
    unfold maxLoginAttempts, lockoutDuration, length_Z in *.
    cbn [List.length]. split; lia.
  - assert (Hf : NoDup (map fst failed)).
    { unfold failed. clear Hrec failed. generalize (t :: times) as ts.
      intros ts. revert m Hnd.
      induction ts as [| x ts IH]; intros m Hnd; [exact Hnd |].
      cbn [fold_left]. apply IH. now apply recordLoginAttempt_NoDup. }
    assert (Hgone : get_name key
              (recordLoginAttempt now identifier action true failed) = None).
    { unfold recordLoginAttempt. now apply get_name_delete_same. }
    cbv zeta. split; [exact Hgone |].
    destruct (allowed (snd (checkRateLimit now identifier action
                 (recordLoginAttempt now identifier action true failed))))
      eqn:Hallowed; [reflexivity |].
    apply checkRateLimit_blocked in Hallowed.
    destruct Hallowed as (a & Ha & _). fold key in Ha.
    rewrite Hgone in Ha. discriminate.
Qed.

Lemma failed_attempts_lock_out_witness :
  allowed
    (snd (checkRateLimit 1000300000 "employee1" "login"
            (fold_left
               (fun m t => recordLoginAttempt t "employee1" "login" false m)
               [1000000000; 1000010000; 1000020000; 1000030000; 1000040000]
               []))) = false.
Proof.
  apply (failed_attempts_lock_out "employee1" "login" [] 1000000000
           [1000010000; 1000020000; 1000030000; 1000040000] 1000300000).
  - constructor.
  - reflexivity.
  - vm_compute. discriminate.
  - reflexivity.
Defined.

(* ------------------------------------------------------------------ *)
(** ** Properties of the edit distance *)

Lemma cell_succ (str1 str2 : string) (i j : nat) :
  cell str1 str2 (S i) (S j) =
  if same_char (String.get i str2) (String.get j str1)
  then cell str1 str2 i j
  else Z.min (cell str1 str2 i j + 1)
         (Z.min (cell str1 str2 (S i) j + 1) (cell str1 str2 i (S j) + 1)).
Proof. reflexivity. Qed.

Lemma cell_zero_column (str1 str2 : string) (i : nat) :
  cell str1 str2 i 0 = Z.of_nat i.
Proof. destruct i; reflexivity. Qed.

Lemma get_after_prefix (pre : string) (c : ascii) (rest : string) :
  String.get (String.length pre) (pre ++ String c rest) = Some c.
Proof. induction pre as [| a pre IH]; simpl; [reflexivity | exact IH]. Qed.

Lemma append_snoc (pre : string) (c : ascii) (rest : string) :
  (pre ++ String c rest = (pre ++ String c EmptyString) ++ rest)%string.
Proof. induction pre as [| a pre IH]; simpl; [reflexivity | now rewrite IH]. Qed.

Lemma length_snoc (pre : string) (c : ascii) :
  String.length (pre ++ String c EmptyString) = S (String.length pre).
Proof. induction pre as [| a pre IH]; simpl; [reflexivity | now rewrite IH]. Qed.

Lemma first_row_cells (str1 str2 : string) :
  forall (pre suffix : string),
    str1 = (pre ++ suffix)%string ->
    first_row (Z.of_nat (String.length pre)) suffix =
    map (cell str1 str2 0)
      (seq (String.length pre) (S (String.length suffix))).
Proof.
  intros pre suffix. revert pre.
  induction suffix as [| c suffix IH]; intros pre Hs; [reflexivity |].
  cbn [first_row String.length]. rewrite <- cons_seq. cbn [map].
  f_equal.
  rewrite append_snoc in Hs. specialize (IH _ Hs).
  rewrite length_snoc in IH. rewrite <- IH. f_equal. lia.
Qed.

(** The inner loop computes the cells of the recurrence. *)
Lemma fill_row_cells (str1 str2 : string) (i : nat) (c2 : ascii) :
  String.get i str2 = Some c2 ->
  forall (suffix pre : string),
    str1 = (pre ++ suffix)%string ->
    let j := String.length pre in
    fill_row c2 suffix (cell str1 str2 i j) (cell str1 str2 (S i) j)
      (map (cell str1 str2 i) (seq (S j) (String.length suffix))) =
    map (cell str1 str2 (S i)) (seq (S j) (String.length suffix)).
Proof.
  intros Hc2. induction suffix as [| c1 suffix IH]; intros pre Hs j;
    [reflexivity |].
  cbn [String.length]. rewrite <- !cons_seq. cbn [map fill_row].
  assert (Hc1 : String.get j str1 = Some c1)
    by (rewrite Hs; apply get_after_prefix).
  assert (Hcell : cell str1 str2 (S i) (S j) =
    if Ascii.eqb c2 c1 then cell str1 str2 i j
    else Z.min (cell str1 str2 i j + 1)
           (Z.min (cell str1 str2 (S i) j + 1) (cell str1 str2 i (S j) + 1))).
  { rewrite cell_succ, Hc2, Hc1. reflexivity. }
  rewrite <- Hcell. f_equal.
  rewrite append_snoc in Hs. specialize (IH _ Hs).
  cbv zeta in IH. rewrite length_snoc in IH. exact IH.
Qed.

(** The outer loop ends on the row of the whole second string. *)
Lemma last_row_cells (str1 str2 : string) :
  forall (suffix pre : string),
    str2 = (pre ++ suffix)%string ->
    last_row str1 suffix (Z.of_nat (String.length pre))
      (map (cell str1 str2 (String.length pre))
         (seq 0 (S (String.length str1)))) =
    map (cell str1 str2 (String.length str2))
      (seq 0 (S (String.length str1))).
Proof.
  induction suffix as [| c2 suffix IH]; intros pre Hs.
  - assert (Hlen : String.length str2 = String.length pre).
    { rewrite Hs. clear.
      induction pre as [| a pre IH]; simpl; [reflexivity | now rewrite IH]. }
    cbn [last_row]. now rewrite Hlen.
  - cbn [last_row].
    assert (Hc2 : String.get (String.length pre) str2 = Some c2)
      by (rewrite Hs; apply get_after_prefix).
    rewrite append_snoc in Hs. specialize (IH _ Hs).
    rewrite length_snoc in IH. rewrite <- IH. f_equal; [lia |].
    rewrite <- !cons_seq. cbn [map next_row].
    replace (Z.of_nat (String.length pre) + 1)
      with (cell str1 str2 (S (String.length pre)) 0)
      by (rewrite cell_zero_column; lia).
    f_equal.
    pose proof (fill_row_cells str1 str2 (String.length pre) c2 Hc2 str1
                  EmptyString eq_refl) as Hfill.
    cbv zeta in Hfill. cbn [String.length] in Hfill. exact Hfill.
Qed.

(** The distance the loops return is the last cell of the recurrence. *)
Lemma levenshteinDistance_cell (str1 str2 : string) :
  levenshteinDistance str1 str2 =
  cell str1 str2 (String.length str2) (String.length str1).
Proof.
  unfold levenshteinDistance.
  pose proof (first_row_cells str1 str2 EmptyString str1 eq_refl) as Hfirst.
  pose proof (last_row_cells str1 str2 str2 EmptyString eq_refl) as Hlast.
  cbn [String.length Z.of_nat] in Hfirst, Hlast.
  rewrite Hfirst, Hlast.
  rewrite seq_S, map_app.
  change (map (cell str1 str2 (String.length str2))
            [(0 + String.length str1)%nat])
    with [cell str1 str2 (String.length str2) (String.length str1)].
  apply last_last.
Qed.

Lemma cell_bounds (str1 str2 : string) (i : nat) :
  forall j : nat,
    Z.abs (Z.of_nat i - Z.of_nat j) <= cell str1 str2 i j
      <= Z.max (Z.of_nat i) (Z.of_nat j).
Proof.
  induction i as [| i IHi]; intros j.
  - cbn [cell]. lia.
  - induction j as [| j IHj].
    + rewrite cell_zero_column. lia.
    + rewrite cell_succ.
      pose proof (IHi j) as Hd. pose proof (IHi (S j)) as Hu.
      destruct (same_char _ _); lia.
Qed.

Lemma get_within (s : string) (k : nat) :
  (k < String.length s)%nat -> exists c, String.get k s = Some c.
Proof.
  revert k. induction s as [| a s IH]; intros k Hk; simpl in Hk; [lia |].
  destruct k as [| k]; simpl; [eauto |]. apply IH. lia.
Qed.

Lemma get_beyond (s : string) (k : nat) :
  (String.length s <= k)%nat -> String.get k s = None.
Proof.
  revert k. induction s as [| a s IH]; intros k Hk; simpl in *;
    [destruct k; reflexivity |].
  destruct k as [| k]; [lia |]. apply IH. lia.
Qed.

Lemma get_some_within (s : string) (k : nat) (c : ascii) :
  String.get k s = Some c -> (k < String.length s)%nat.
Proof.
  intros Hget.
  destruct (Nat.lt_ge_cases k (String.length s)) as [H | H]; [exact H |].
  rewrite (get_beyond s k H) in Hget. discriminate.
Qed.

Lemma same_char_true (a b : option ascii) :
  same_char a b = true <-> exists c, a = Some c /\ b = Some c.
Proof.
  destruct a as [x |], b as [y |]; simpl; split;
    try discriminate; try (intros (c & H1 & H2); discriminate).
  - intros H. apply Ascii.eqb_eq in H. subst. eauto.
  - intros (c & H1 & H2). inversion H1; inversion H2; subst.
    apply Ascii.eqb_refl.
Qed.

(** On equal strings the diagonal of the matrix is zero. *)
Lemma cell_diagonal (s : string) (i : nat) :
  (i <= String.length s)%nat -> cell s s i i = 0.
Proof.
  induction i as [| i IH]; intros Hi; [reflexivity |].
  rewrite cell_succ.
  destruct (get_within s i ltac:(lia)) as (c & Hc).
  assert (Hsame : same_char (String.get i s) (String.get i s) = true)
    by (apply same_char_true; eauto).
  rewrite Hsame. apply IH. lia.
Qed.

(** A zero cell: the two prefixes it compares are the same string. *)
Lemma cell_zero (str1 str2 : string) (i : nat) :
  forall j : nat,
    cell str1 str2 i j = 0 ->
    i = j /\
    forall k, (k < i)%nat ->
      exists c, String.get k str2 = Some c /\ String.get k str1 = Some c.
Proof.
  induction i as [| i IHi]; intros j Hz.
  - cbn [cell] in Hz. split; [lia | intros k Hk; lia].
  - destruct j as [| j]; [rewrite cell_zero_column in Hz; lia |].
    rewrite cell_succ in Hz.
    pose proof (cell_bounds str1 str2 i j) as Hd.
    pose proof (cell_bounds str1 str2 (S i) j) as Hl.
    pose proof (cell_bounds str1 str2 i (S j)) as Hu.
    destruct (same_char (String.get i str2) (String.get j str1)) eqn:Hsame;
      [| lia].
    destruct (IHi j Hz) as (Hij & Hpre). subst j.
    split; [reflexivity |].
    intros k Hk. destruct (Nat.eq_dec k i) as [-> | Hne].
    + apply same_char_true in Hsame. exact Hsame.
    + apply Hpre. lia.
Qed.

Lemma levenshteinDistance_zero (str1 str2 : string) :
  levenshteinDistance str1 str2 = 0 <-> str1 = str2.
Proof.
  rewrite levenshteinDistance_cell. split.
  - intros Hz. apply cell_zero in Hz. destruct Hz as (Hlen & Hpre).
    apply get_correct. intros n.
    destruct (Nat.lt_ge_cases n (String.length str2)) as [Hn | Hn].
    + destruct (Hpre n Hn) as (c & H2 & H1). congruence.
    + rewrite (get_beyond str2 n Hn).
      apply get_beyond. lia.
  - intros ->. apply cell_diagonal. lia.
Qed.

Lemma levenshteinDistance_bounds (str1 str2 : string) :
  Z.abs (length_of str1 - length_of str2) <= levenshteinDistance str1 str2
    <= Z.max (length_of str1) (length_of str2).
Proof.
  rewrite levenshteinDistance_cell. unfold length_of.
  pose proof (cell_bounds str1 str2 (String.length str2)
                (String.length str1)).
  lia.
Qed.

(** The edit distance lies between the difference of the two lengths and
    the larger length, it is zero exactly for equal strings, and against
    the empty string it is the length of the other string. *)
Theorem levenshtein_distance_properties :
  forall str1 str2 : string,
    Z.abs (length_of str1 - length_of str2)
      <= levenshteinDistance str1 str2
      <= Z.max (length_of str1) (length_of str2) /\
    (levenshteinDistance str1 str2 = 0 <-> str1 = str2) /\
    levenshteinDistance str1 "" = length_of str1 /\
    levenshteinDistance "" str2 = length_of str2.
Proof.
  intros str1 str2.
  split; [apply levenshteinDistance_bounds |].
  split; [apply levenshteinDistance_zero |].
  split.
  - pose proof (levenshteinDistance_bounds str1 "") as H.
    unfold length_of in *. simpl String.length in H. lia.
  - pose proof (levenshteinDistance_bounds "" str2) as H.
    unfold length_of in *. simpl String.length in H. lia.
Qed.

Lemma ratio_range (a l : Z) :
  0 < l -> 0 <= a <= l ->
  (0 <= inject_Z a / inject_Z l <= 1)%Q.
Proof.
  intros Hl Ha. destruct l as [| p | p]; try lia.
  unfold Qle, Qdiv, Qmult, Qinv, inject_Z. cbn [Qnum Qden].
  rewrite ?Pos2Z.inj_mul. split; nia.
Qed.

Lemma ratio_one (a l : Z) :
  0 < l -> (inject_Z a / inject_Z l == 1)%Q <-> a = l.
Proof.
  intros Hl. destruct l as [| p | p]; try lia.
  unfold Qeq, Qdiv, Qmult, Qinv, inject_Z. cbn [Qnum Qden].
  rewrite ?Pos2Z.inj_mul. split; intros H; nia.
Qed.

(** The similarity of two strings is a ratio between 0 and 1; it is 1
    exactly when the strings are equal, and 0 between a non-empty string
    and the empty one. *)
Theorem similarity_properties :
  forall str1 str2 : string,
    (0 <= calculateSimilarity str1 str2 <= 1)%Q /\
    ((calculateSimilarity str1 str2 == 1)%Q <-> str1 = str2) /\
    (str1 <> "" -> (calculateSimilarity str1 "" == 0)%Q).
Proof.
  intros str1 str2.
  assert (Hpos : forall s, 0 <= length_of s) by (intros s; unfold length_of; lia).
  assert (Hempty : forall s, length_of s = 0 -> s = "").
  { intros s Hs. unfold length_of in Hs. destruct s; [reflexivity |].
    simpl in Hs. lia. }
  split; [| split].
  - unfold calculateSimilarity.
    destruct (Z.ltb_spec (length_of str2) (length_of str1)).
    + destruct (Z.eqb_spec (length_of str1) 0); [split; discriminate |].
      pose proof (levenshteinDistance_bounds str1 str2).
      pose proof (Hpos str1). pose proof (Hpos str2).
      apply ratio_range; lia.
    + destruct (Z.eqb_spec (length_of str2) 0); [split; discriminate |].
      pose proof (levenshteinDistance_bounds str2 str1).
      pose proof (Hpos str1). pose proof (Hpos str2).
      apply ratio_range; lia.
  - unfold calculateSimilarity.
    destruct (Z.ltb_spec (length_of str2) (length_of str1)).
    + destruct (Z.eqb_spec (length_of str1) 0) as [H0 | H0].
      { pose proof (Hpos str2). lia. }
      pose proof (Hpos str1).
      rewrite ratio_one by lia.
      rewrite <- (levenshteinDistance_zero str1 str2). lia.
    + destruct (Z.eqb_spec (length_of str2) 0) as [H0 | H0].
      { pose proof (Hpos str1) as Hp1.
        assert (Hz1 : length_of str1 = 0) by lia.
        apply Hempty in H0, Hz1. subst. split; reflexivity. }
      pose proof (Hpos str2).
      rewrite ratio_one by lia.
      split.
      * intros Hd. symmetry. apply (levenshteinDistance_zero str2 str1). lia.
      * intros ->.
        assert (Hz : levenshteinDistance str2 str2 = 0)
          by now apply levenshteinDistance_zero.
        lia.
  - intros Hne. unfold calculateSimilarity.
    assert (Hl : 0 < length_of str1).
    { pose proof (Hpos str1).
      destruct (Z.eq_dec (length_of str1) 0) as [H0 | H0]; [| lia].
      apply Hempty in H0. contradiction. }
    change (length_of "") with 0.
    destruct (Z.ltb_spec 0 (length_of str1)); [| lia].
    destruct (Z.eqb_spec (length_of str1) 0); [lia |].
    pose proof (levenshteinDistance_bounds str1 "") as Hb.
    change (length_of "") with 0 in Hb.
    replace (length_of str1 - levenshteinDistance str1 "") with 0 by lia.
    destruct (length_of str1); reflexivity.
Qed.

Lemma similarity_properties_witness :
  (calculateSimilarity "attendance" "" == 0)%Q.
Proof.
  apply (similarity_properties "attendance" ""). discriminate.
Defined.

(* ------------------------------------------------------------------ *)
(** ** Properties of the account routes *)

Lemma NoDup_snoc {A} (l : list A) (x : A) :
  NoDup l -> ~ In x l -> NoDup (l ++ [x]).
Proof.
  induction l as [| y l IH]; simpl; intros Hnd Hx.
  - constructor; [intros [] | constructor].
  - inversion Hnd as [| ? ? Hy Hnd']; subst.
    constructor; [| apply IH; tauto].
    intros Hin. apply in_app_or in Hin.
    destruct Hin as [Hin | [-> | []]]; tauto.
Qed.

Lemma max_id_bounds (users : list User) :
  0 <= max_id users /\ forall u, In u users -> u_id u <= max_id users.
Proof.
  unfold max_id. induction users as [| v users (H0 & IH)]; simpl.
  - split; [lia | intros u []].
  - split; [lia |]. intros u [<- | Hu]; [lia |].
    specialize (IH u Hu). lia.
Qed.

Lemma taken_false (username email : string) (users : list User) :
  existsb (taken username email) users = false ->
  ~ In username (map u_username users) /\ ~ In email (map u_email users).
Proof.
  intros Hfree. split; intros Hin; apply in_map_iff in Hin;
    destruct Hin as (u & Heq & Hu);
    assert (Ht : existsb (taken username email) users = true)
      by (apply existsb_exists; exists u; split; [exact Hu |];
          unfold taken; rewrite Heq, String.eqb_refl;
          auto using orb_true_r);
    congruence.
Qed.

Lemma max_id_upper (users : list User) (bound : Z) :
  0 <= bound -> (forall u, In u users -> u_id u <= bound) ->
  max_id users <= bound.
Proof.
  intros Hb. unfold max_id. induction users as [| v users IH]; simpl.
  - intros _. exact Hb.
  - intros Hall. assert (Hv := Hall v (or_introl eq_refl)).
    assert (Hrest : fold_right Z.max 0 (map u_id users) <= bound)
      by (apply IH; intros u Hu; apply Hall; now right).
    lia.
Qed.

(** Integers up to 2^53 in absolute value are doubles. *)
Lemma double_of_Z_exact (z : Z) :
  Z.abs z <= 9007199254740992 -> double_of_Z z = z.
Proof.
  intros Hz. unfold double_of_Z. cbv zeta.
  change (2 ^ 53) with 9007199254740992.
  destruct (Z.leb_spec (Z.abs z) 9007199254740992); [reflexivity | lia].
Qed.

(** Rounding keeps a positive integer positive. *)
Lemma double_of_Z_pos (z : Z) : 0 < z -> 0 < double_of_Z z.
Proof.
  intros Hz. unfold double_of_Z. cbv zeta.
  change (2 ^ 53) with 9007199254740992.
  destruct (Z.leb_spec (Z.abs z) 9007199254740992) as [_ | Hbig];
    [exact Hz |].
  rewrite (Z.abs_eq z) in * by lia. rewrite (Z.sgn_pos z Hz), Z.mul_1_l.
  assert (Hlog : 53 <= Z.log2 z).
  { change 53 with (Z.log2 (2 ^ 53)). apply Z.log2_le_mono.
    change (2 ^ 53) with 9007199254740992. lia. }
  set (e := Z.log2 z - 52).
  assert (He : 0 < 2 ^ e) by (apply Z.pow_pos_nonneg; unfold e; lia).
  assert (Hle : 2 ^ e <= z).
  { apply Z.le_trans with (2 ^ Z.log2 z).
    - apply Z.pow_le_mono_r; unfold e; lia.
    - apply Z.log2_spec. exact Hz. }
  assert (Hq : 0 < z / 2 ^ e) by (apply Z.div_str_pos; lia).
  apply Z.mul_pos_pos; [| exact He].
  destruct ((2 ^ (e - 1) <? z mod 2 ^ e)
            || (z mod 2 ^ e =? 2 ^ (e - 1)) && Z.odd (z / 2 ^ e)); lia.
Qed.

(** Registration refuses, with status 400 and an unchanged users file, a
    username or an email that a stored account already has. Otherwise it
    answers 201 and appends one active account whose password is the
    hash, not the text sent, and whose id is the double sum of the largest
    stored id (or 0) and 1, a positive number. While every stored id is
    below 2^53 that id is larger than every stored id and distinct ids
    stay distinct; with a largest stored id of 2^53 the addition rounds
    back and the new account gets the id 2^53 a second time. Usernames
    and emails that were pairwise distinct stay so. *)
Theorem register_keeps_accounts_distinct :
  forall (lib : Libraries) (clock : nat -> Z)
         (username email password : string) (role : option string)
         (users : list User) (fs : Database),
    let srv := {| USERS_FILE := Some users; files := fs |} in
    let srv' := fst (post_register lib clock username email password role srv) in
    let resp := snd (post_register lib clock username email password role srv) in
    (account_status resp = 400 <->
     exists u, In u users /\
               (u_username u = username \/ u_email u = email)) /\
    (account_status resp = 400 -> srv' = srv) /\
    (account_status resp <> 400 ->
     exists newUser,
       account_status resp = 201 /\
       account_body resp = Registered (without_password newUser) /\
       USERS_FILE srv' = Some (users ++ [newUser])%list /\
       files srv' = fs /\
       u_username newUser = username /\ u_email newUser = email /\
       u_password newUser = bcrypt_hash lib password /\
       isActive newUser = true /\
       u_id newUser = double_of_Z (max_id users + 1) /\
       0 < u_id newUser /\
       ((forall u, In u users -> u_id u < 9007199254740992) ->
        u_id newUser = max_id users + 1 /\
        (forall u, In u users -> u_id u < u_id newUser) /\
        (NoDup (map u_id users) ->
         NoDup (map u_id (users ++ [newUser])))) /\
       ((forall u, In u users -> u_id u <= 9007199254740992) ->
        (exists u, In u users /\ u_id u = 9007199254740992) ->
        u_id newUser = 9007199254740992 /\
        ~ NoDup (map u_id (users ++ [newUser]))) /\
       (NoDup (map u_username users) ->
        NoDup (map u_username (users ++ [newUser]))) /\
       (NoDup (map u_email users) ->
        NoDup (map u_email (users ++ [newUser])))).
Proof.
  intros lib clock username email password role users fs srv srv' resp.
  unfold resp, srv', srv, post_register. cbn [USERS_FILE].
  destruct (existsb (taken username email) users) eqn:Htaken.
  - cbn [fst snd account_error account_status]. split.
    { split; [intros _ | reflexivity].
      apply existsb_exists in Htaken. destruct Htaken as (u & Hu & Ht).
      exists u. split; [exact Hu |]. unfold taken in Ht.
      apply orb_true_iff in Ht.
      destruct Ht as [Ht | Ht]; apply String.eqb_eq in Ht; auto. }
    split; [reflexivity | intros H; contradiction].
  - cbn [fst snd account_status account_body USERS_FILE files].
    split.
    { split; [discriminate |]. intros (u & Hu & Ht).
      assert (Hex : existsb (taken username email) users = true).
      { apply existsb_exists. exists u. split; [exact Hu |]. unfold taken.
        destruct Ht as [-> | ->]; rewrite String.eqb_refl;
          auto using orb_true_r. }
      congruence. }
    split; [discriminate |]. intros _.
    destruct (max_id_bounds users) as (Hpos & Hmax).
    destruct (taken_false username email users Htaken) as (Hname & Hmail).
    eexists. split; [reflexivity |]. split; [reflexivity |].
    split; [reflexivity |]. split; [reflexivity |].
    cbn [u_username u_email u_password isActive u_id].
    repeat (split; [reflexivity |]).
    split; [apply double_of_Z_pos; lia |].
    split; [| split; [| split]].
    + intros Hsafe.
      assert (Hup : max_id users <= 9007199254740991).
      { apply max_id_upper; [lia |]. intros u Hu.
        specialize (Hsafe u Hu). lia. }
      assert (Hid : double_of_Z (max_id users + 1) = max_id users + 1)
        by (apply double_of_Z_exact; lia).
      rewrite Hid. split; [reflexivity |]. split.
      * intros u Hu. specialize (Hmax u Hu). lia.
      * intros Hnd. rewrite map_app. cbn [map u_id].
        apply NoDup_snoc; [exact Hnd |].
        intros Hin. apply in_map_iff in Hin.
        destruct Hin as (u & Heq & Hu). specialize (Hmax u Hu). lia.
    + intros Hle (u & Hu & Hu53).
      assert (Hm : max_id users = 9007199254740992).
      { apply Z.le_antisymm; [apply max_id_upper; [lia | exact Hle] |].
        rewrite <- Hu53. now apply Hmax. }
      rewrite Hm. split; [reflexivity |].
      rewrite map_app. cbn [map u_id].
      change (double_of_Z (9007199254740992 + 1)) with 9007199254740992.
      intros Hnd. apply NoDup_remove_2 in Hnd. apply Hnd.
      rewrite app_nil_r. rewrite <- Hu53. now apply in_map.
    + intros Hnd. rewrite map_app. cbn [map]. now apply NoDup_snoc.
    + intros Hnd. rewrite map_app. cbn [map]. now apply NoDup_snoc.
Qed.

Lemma register_keeps_accounts_distinct_witness :
  exists newUser,
    USERS_FILE
      (fst (post_register sample_libraries sample_clock "carol"
              "carol@company.com" "s3cret" None
              {| USERS_FILE := Some sample_accounts;
                 files := empty_database |})) =
      Some (sample_accounts ++ [newUser])%list /\
    u_id newUser = 8 /\
    NoDup (map u_id (sample_accounts ++ [newUser])).
Proof.
  destruct (register_keeps_accounts_distinct sample_libraries sample_clock
              "carol" "carol@company.com" "s3cret" None sample_accounts
              empty_database) as (_ & _ & H).
  destruct H as (newUser & _ & _ & Hfile & _ & _ & _ & _ & _ & _ & _ &
                 Hsafe & _); [cbn; discriminate |].
  destruct Hsafe as (Hid & _ & Hnd).
  { intros u [<- | [<- | []]]; reflexivity. }
  exists newUser. split; [exact Hfile |]. split; [exact Hid |].
  apply Hnd. repeat constructor; cbn; intuition discriminate.
Defined.

(** A users file whose largest id is 2^53: the registration answers 201
    and the new account carries the id 2^53 again. *)
Example register_at_the_double_limit :
  let stored :=
    {| u_id := 9007199254740992; u_username := "old";
       u_email := "old@company.com"; u_password := "hash:x";
       u_role := "employee"; mfaEnabled := false; isActive := true;
       createdAt := Some 0 |} in
  snd (post_register sample_libraries sample_clock "carol"
         "carol@company.com" "s3cret" None
         {| USERS_FILE := Some [stored]; files := empty_database |}) =
  {| account_status := 201;
     account_body :=
       Registered
         {| p_id := 9007199254740992; p_username := "carol";
            p_email := "carol@company.com"; p_role := "employee";
            p_mfaEnabled := false; p_isActive := true;
            p_createdAt := Some 1700000000000 |} |}.
Proof. vm_compute. reflexivity. Qed.

(** A login is granted only to a stored, active account whose hash
    matches the password; when it is refused nothing is written. *)
Theorem login_grants_only_active_accounts :
  forall (lib : Libraries) (clock : nat -> Z) (username password : string)
         (srv : Server),
    let srv' := fst (post_login lib clock username password srv) in
    let resp := snd (post_login lib clock username password srv) in
    (account_status resp = 200 ->
     exists users u,
       USERS_FILE srv = Some users /\ In u users /\
       u_username u = username /\ isActive u = true /\
       bcrypt_compare lib password (u_password u) = true /\
       account_body resp =
         LoggedIn
           (jwt_sign lib {| user_id := u_id u; user_name := u_username u;
                            user_role := u_role u |})
           (without_password u) /\
       USERS_FILE srv' = USERS_FILE srv /\
       ATTENDANCE_FILE (files srv') = ATTENDANCE_FILE (files srv)) /\
    (account_status resp <> 200 ->
     srv' = srv /\
     (account_status resp = 401 \/ account_status resp = 500)).
Proof.
  intros lib clock username password srv srv' resp.
  unfold resp, srv', post_login.
  destruct (USERS_FILE srv) as [users |] eqn:Husers.
  - destruct (find _ users) as [user |] eqn:Hfind.
    + apply find_some in Hfind. destruct Hfind as (Hin & Hok).
      apply andb_true_iff in Hok. destruct Hok as (Hname & Hactive).
      apply String.eqb_eq in Hname.
      destruct (bcrypt_compare lib password (u_password user)) eqn:Hcmp;
        cbn [fst snd account_status account_body account_error USERS_FILE
             files].
      * split; [| intros H; contradiction]. intros _.
        exists users, user. repeat (split; [assumption || reflexivity |]).
        apply logActivity_keeps_attendance.
      * split; [discriminate |]. intros _. split; [reflexivity | now left].
    + cbn [fst snd account_status account_error].
      split; [discriminate |]. intros _. split; [reflexivity | now left].
  - cbn [fst snd account_status account_error].
    split; [discriminate |]. intros _. split; [reflexivity | now right].
Qed.

Lemma find_snoc_new {A} (p : A -> bool) (l : list A) (x : A) :
  (forall y, In y l -> p y = false) -> p x = true ->
  find p (l ++ [x]) = Some x.
Proof.
  intros Hl Hx. induction l as [| y l IH]; simpl; [now rewrite Hx |].
  rewrite (Hl y) by (simpl; tauto). apply IH.
  intros z Hz. apply Hl. simpl. tauto.
Qed.

(** An account that has just been registered can log in: with a bcrypt
    whose comparison accepts the hash it made of the password, the login
    with the registered username and password is answered 200 with the
    token signed for the new account. *)
Theorem register_then_login :
  forall (lib : Libraries) (clock clock' : nat -> Z)
         (username email password : string) (role : option string)
         (srv : Server),
    bcrypt_compare lib password (bcrypt_hash lib password) = true ->
    account_status
      (snd (post_register lib clock username email password role srv))
      = 201 ->
    exists newUser,
      account_body
        (snd (post_register lib clock username email password role srv)) =
        Registered newUser /\
      p_username newUser = username /\
      snd (post_login lib clock' username password
             (fst (post_register lib clock username email password role
                     srv))) =
      {| account_status := 200;
         account_body :=
           LoggedIn
             (jwt_sign lib {| user_id := p_id newUser;
                              user_name := username;
                              user_role := p_role newUser |})
             newUser |}.
Proof.
  intros lib clock clock' username email password role srv Hcmp Hok.
  unfold post_register in *.
  destruct (USERS_FILE srv) as [users |] eqn:Husers;
    [| cbn in Hok; discriminate].
  destruct (existsb (taken username email) users) eqn:Htaken;
    [cbn in Hok; discriminate |].
  cbn [fst snd account_body]. eexists. split; [reflexivity |].
  split; [reflexivity |].
  unfold post_login. cbn [USERS_FILE files].
  rewrite find_snoc_new.
  - cbn [u_password u_id u_username u_role]. rewrite Hcmp. reflexivity.
  - intros y Hy.
    destruct (String.eqb_spec (u_username y) username) as [He | Hne];
      [| reflexivity].
    exfalso.
    assert (Hex : existsb (taken username email) users = true).
    { apply existsb_exists. exists y. split; [exact Hy |]. unfold taken.
      rewrite He, String.eqb_refl. reflexivity. }
    congruence.
  - cbn [u_username isActive]. now rewrite String.eqb_refl.
Qed.

Lemma register_then_login_witness :
  exists newUser,
    snd (post_login sample_libraries sample_clock "carol" "s3cret"
           (fst (post_register sample_libraries sample_clock "carol"
                   "carol@company.com" "s3cret" None empty_server))) =
    {| account_status := 200;
       account_body := LoggedIn "carol" newUser |}.
Proof.
  destruct (register_then_login sample_libraries sample_clock sample_clock
              "carol" "carol@company.com" "s3cret" None empty_server)
    as (newUser & _ & _ & Hlogin).
  - reflexivity.
  - reflexivity.
  - exists newUser. exact Hlogin.
Defined.

Lemma append_empty_r (s : string) : (s ++ "")%string = s.
Proof. induction s as [| a s IH]; simpl; [reflexivity | now rewrite IH]. Qed.

Lemma split_no_space (s : string) :
  forall cur, has_space s = false -> split_space s cur = [(cur ++ s)%string].
Proof.
  induction s as [| c s IH]; intros cur Hs; simpl.
  - now rewrite append_empty_r.
  - unfold has_space in Hs. simpl in Hs. apply orb_false_iff in Hs.
    destruct Hs as (Hc & Hs). rewrite Hc.
    rewrite (IH _ Hs). now rewrite <- append_snoc.
Qed.

Lemma split_at_space (scheme rest : string) :
  forall cur,
    has_space scheme = false ->
    split_space (scheme ++ String " " rest) cur =
    (cur ++ scheme)%string :: split_space rest "".
Proof.
  induction scheme as [| c s IH]; intros cur Hs; simpl.
  - now rewrite append_empty_r.
  - unfold has_space in Hs. simpl in Hs. apply orb_false_iff in Hs.
    destruct Hs as (Hc & Hs). rewrite Hc.
    rewrite (IH _ Hs). now rewrite <- append_snoc.
Qed.

(** The middleware answers 401 without verifying anything when the request
    has no authorization header or a header without a space. For a header
    made of a word, one space and a token it answers 401 for an empty
    token and otherwise lets the verification of the token decide between
    403 and the route; the word before the space is never looked at. *)
Theorem authenticateToken_header :
  forall lib : Libraries,
    authenticateToken lib None = Unauthorized /\
    (forall header,
        has_space header = false ->
        authenticateToken lib (Some header) = Unauthorized) /\
    (forall scheme token,
        has_space scheme = false -> has_space token = false ->
        authenticateToken lib (Some (scheme ++ " " ++ token)) =
        if String.eqb token "" then Unauthorized
        else match jwt_verify lib token with
             | Some user => Next user
             | None => Forbidden
             end).
Proof.
  intros lib. split; [reflexivity |]. split.
  - intros header Hs. unfold authenticateToken.
    destruct (String.eqb header ""); [reflexivity |].
    now rewrite (split_no_space header "" Hs).
  - intros scheme token Hs Ht. unfold authenticateToken.
    change (scheme ++ " " ++ token)%string
      with (scheme ++ String " " token)%string.
    rewrite (split_at_space scheme token "" Hs).
    rewrite (split_no_space token "" Ht). cbn [nth_error append].
    destruct (String.eqb_spec (scheme ++ String " " token) "") as [He | _];
      [destruct scheme; discriminate | reflexivity].
Qed.

(** The log route hands out the log, in the order of the file, only to a
    verified token whose role is admin; every other verified role gets 403
    "Access denied", whether or not the log file can be read. *)
Theorem logs_admin_only :
  forall (lib : Libraries) (authorization : option string) (srv : Server),
    (account_status (get_logs lib authorization srv) = 200 ->
     exists user logs,
       authenticateToken lib authorization = Next user /\
       user_role user = "admin" /\
       LOGS_FILE (files srv) = Some logs /\
       account_body (get_logs lib authorization srv) = LogList logs) /\
    (forall user,
       authenticateToken lib authorization = Next user ->
       user_role user <> "admin" ->
       get_logs lib authorization srv = account_error 403 "Access denied").
Proof.
  intros lib authorization srv. unfold get_logs. split.
  - destruct (authenticateToken lib authorization) as [| | user];
      try discriminate.
    destruct (String.eqb_spec (user_role user) "admin") as [Hadmin | Hno];
      cbn [negb]; [| discriminate].
    destruct (LOGS_FILE (files srv)) as [logs |]; [| discriminate].
    intros _. exists user, logs. repeat split. exact Hadmin.
  - intros user -> Hrole.
    destruct (String.eqb_spec (user_role user) "admin");
      [contradiction | reflexivity].
Qed.

(* ------------------------------------------------------------------ *)
(** ** Properties of the dashboard figures *)

Lemma round_tenths_percent (a : Z) :
  Qfloor (inject_Z a / inject_Z 10 * inject_Z 100 + (1 # 2)) = 10 * a.
Proof.
  unfold Qfloor, Qdiv, Qinv, Qmult, Qplus, inject_Z. cbn [Qnum Qden].
  change (Z.pos (1 * 10 * 1 * 2)) with 20.
  replace (a * 1 * 100 * 2 + 1 * Z.pos (1 * 10 * 1)) with (10 * a * 20 + 10)
    by (change (Z.pos (1 * 10 * 1)) with 10; lia).
  rewrite Z.div_add_l by lia. change (10 / 20) with 0. lia.
Qed.

(** The attendance rate is ten times the number of distinct usernames
    among today's records: each user counts for ten points, and nothing
    caps the rate at 100. *)
Theorem attendance_rate_ten_per_user :
  forall data : DashboardData,
    let users := distinct (map username (todayRecords data)) in
    calculateAttendanceRate data = num_of_Z (10 * users) /\
    0 <= users <= length_Z (todayRecords data).
Proof.
  intros data users. split.
  - unfold calculateAttendanceRate. fold users.
    unfold num_div, num_mul, Math_round, num_of_Z.
    change (Qzerob (inject_Z 10)) with false. cbv iota.
    now rewrite round_tenths_percent.
  - unfold users, distinct, length_Z. split; [lia |].
    apply Nat2Z.inj_le.
    replace (List.length (todayRecords data))
      with (List.length (map username (todayRecords data)))
      by apply length_map.
    apply NoDup_incl_length; [apply NoDup_nodup |].
    intros x Hx. now apply nodup_In in Hx.
Qed.

Lemma sum_Z_map_add {A} (f g : A -> Z) (l : list A) :
  sum_Z (map (fun x => f x + g x) l) = sum_Z (map f l) + sum_Z (map g l).
Proof.
  unfold sum_Z. induction l as [| x l IH]; simpl; [reflexivity |].
  rewrite IH. lia.
Qed.

Lemma one_hour_matches (x : Z) :
  0 <= x < 24 ->
  sum_Z (map (fun h => if x =? h then 1 else 0) hours24) = 1.
Proof.
  intros Hx. rewrite <- (Z2Nat.id x) by lia.
  assert (Hk : (Z.to_nat x < 24)%nat) by lia.
  revert Hk. generalize (Z.to_nat x). intros k Hk.
  do 24 (destruct k as [| k]; [reflexivity |]). lia.
Qed.

Lemma no_hour_matches_invalid (tz : Z -> Z) (r : AttendanceRecord) :
  timestamp r = None ->
  sum_Z (map (fun h => if at_hour tz h r then 1 else 0) hours24) = 0.
Proof.
  intros Ht. unfold at_hour, getHours. rewrite Ht. reflexivity.
Qed.

(** Summing, over the 24 hours, the records of that hour that satisfy [p]
    counts every record with a parseable timestamp that satisfies [p]
    exactly once. *)
Lemma hourly_series_total (tz : Z -> Z) (p : AttendanceRecord -> bool)
    (records : list AttendanceRecord) :
  sum_Z (map (fun hour =>
                length_Z (filter (fun r => at_hour tz hour r && p r) records))
           hours24) =
  length_Z (filter (fun r => valid_timestamp r && p r) records).
Proof.
  induction records as [| r records IH].
  - unfold length_Z. simpl. reflexivity.
  - assert (Hstep : forall hour,
      length_Z (filter (fun r => at_hour tz hour r && p r) (r :: records)) =
      (if at_hour tz hour r && p r then 1 else 0) +
      length_Z (filter (fun r => at_hour tz hour r && p r) records)).
    { intros hour. unfold length_Z. cbn [filter].
      destruct (at_hour tz hour r && p r); cbn [List.length]; lia. }
    rewrite (map_ext _ _ Hstep), sum_Z_map_add, IH.
    unfold length_Z at 2. cbn [filter].
    assert (Hone : sum_Z (map (fun hour =>
                      if at_hour tz hour r && p r then 1 else 0) hours24) =
                   if valid_timestamp r && p r then 1 else 0).
    { unfold valid_timestamp. destruct (p r).
      - rewrite (map_ext _ (fun h => if at_hour tz h r then 1 else 0))
          by (intros h; now rewrite andb_true_r).
        destruct (timestamp r) as [t |] eqn:Ht.
        + unfold at_hour, getHours. rewrite Ht. cbn [option_map andb].
          apply one_hour_matches, HourFromTime_range.
        + now apply no_hour_matches_invalid.
      - rewrite (map_ext _ (fun _ => 0))
          by (intros h; now rewrite andb_false_r).
        rewrite andb_false_r. reflexivity. }
    rewrite Hone. unfold length_Z.
    destruct (valid_timestamp r && p r); cbn [List.length]; lia.
Qed.

(** Each series of the daily activity chart has 24 entries, one per hour
    with zero where nothing happened, and its entries add up to the number
    of today's records with that action and a parseable timestamp. *)
Theorem daily_activity_series_total :
  forall (tz : Z -> Z) (data : DashboardData),
    List.length (dailyActivity_signIns tz data) = 24%nat /\
    List.length (dailyActivity_signOuts tz data) = 24%nat /\
    sum_Z (dailyActivity_signIns tz data) =
      length_Z (filter (fun r => valid_timestamp r && is_sign_in r)
                  (todayRecords data)) /\
    sum_Z (dailyActivity_signOuts tz data) =
      length_Z (filter (fun r => valid_timestamp r && is_sign_out r)
                  (todayRecords data)).
Proof.
  intros tz data. unfold dailyActivity_signIns, dailyActivity_signOuts.
  split; [now rewrite length_map |]. split; [now rewrite length_map |].
  split; apply hourly_series_total.
Qed.

(** The user activity chart shows at most ten users in descending order
    of their total of sign-ins and sign-outs; no user left out has a
    larger total than a user shown, and shown and left-out users together
    are the buckets of the breakdown. *)
Theorem user_activity_chart_top_ten :
  forall data : DashboardData,
    let activity := fun e : string * Counters =>
                      signIns (snd e) + signOuts (snd e) in
    let ranking :=
      Array_sort by_activity_desc (Object_entries (userBreakdown data)) in
    (List.length (userStats data) <= 10)%nat /\
    StronglySorted (fun x y => activity y <= activity x) (userStats data) /\
    (forall x y, In x (userStats data) -> In y (skipn 10 ranking) ->
                 activity y <= activity x) /\
    Permutation (userStats data ++ skipn 10 ranking)
      (Object_entries (userBreakdown data)).
Proof.
  intros data activity ranking.
  assert (Hany : forall l : list (string * Counters),
            StronglySorted (fun _ _ => True) l).
  { induction l as [| x l IH]; constructor; [exact IH |].
    apply Forall_forall. auto. }
  assert (Hranked : StronglySorted (fun x y => activity y <= activity x)
                      ranking).
  { pose proof (Array_sort_ranked activity (fun _ _ => True)
                  (Object_entries (userBreakdown data)) (Hany _)) as Hs.
    fold by_activity_desc in Hs.
    change (Array_sort (fun x y => activity y - activity x)
              (Object_entries (userBreakdown data))) with ranking in Hs.
    clear Hany. induction Hs as [| x l Hs IH Hx]; constructor; [exact IH |].
    apply Forall_forall. intros y Hy. rewrite Forall_forall in Hx.
    destruct (Hx y Hy) as [H | [H _]]; lia. }
  assert (Hsplit : ranking = (userStats data ++ skipn 10 ranking)%list).
  { unfold userStats, slice0. fold ranking. symmetry. apply firstn_skipn. }
  rewrite Hsplit in Hranked. apply StronglySorted_app_cross in Hranked.
  destruct Hranked as [Hshown Hcross].
  split; [unfold userStats, slice0; apply firstn_le_length |].
  split; [exact Hshown |]. split; [exact Hcross |].
  rewrite <- Hsplit. apply Permutation_sym.
  apply (Array_sort_perm activity).
Qed.

(* ------------------------------------------------------------------ *)
(** ** Properties of AttendanceAnalytics.generateInsights *)

Lemma hour_name_key (n : N) :
  (n < 24)%N -> key_of_string (N_to_string n) = Idx n.
Proof.
  intros Hn. rewrite <- (N2Nat.id n).
  assert (Hk : (N.to_nat n < 24)%nat) by lia.
  revert Hk. generalize (N.to_nat n). intros k Hk.
  do 24 (destruct k as [| k]; [reflexivity |]). lia.
Qed.

Lemma get_index_sorted_In {V} (n : N) (v : V) (l : list (N * V)) :
  StronglySorted N.lt (map fst l) -> In (n, v) l -> get_index n l = Some v.
Proof.
  induction l as [| [m w] l IH]; intros Hs Hin; [contradiction |].
  cbn [map fst] in Hs. apply StronglySorted_inv in Hs. destruct Hs as [Hs Hm].
  cbn [get_index]. destruct Hin as [Heq | Hin].
  - inversion Heq; subst. now rewrite N.eqb_refl.
  - rewrite Forall_forall in Hm.
    assert (Hlt : (m < n)%N) by (apply Hm; apply (in_map fst _ _ Hin)).
    destruct (N.eqb_spec n m) as [-> | _]; [lia |]. now apply IH.
Qed.

(** Every own key of an hourly breakdown reads back its own count. *)
Lemma hourly_entries_lookup (o : JsObject Z) (k : string) (v : Z) :
  hourly_shape o -> In (k, v) (Object_entries o) -> lookup o k = Some v.
Proof.
  intros (Hsorted & Hsmall & Hnames) Hin. unfold Object_entries in Hin.
  apply in_app_or in Hin. destruct Hin as [Hin | Hin].
  - apply in_map_iff in Hin. destruct Hin as ([n w] & Heq & Hin).
    cbn [fst snd] in Heq. inversion Heq; subst.
    rewrite Forall_forall in Hsmall.
    unfold lookup. rewrite hour_name_key
      by (apply Hsmall; apply (in_map fst _ _ Hin)).
    cbn [obj_get]. now apply get_index_sorted_In.
  - destruct Hnames as [Hn | (c & Hn)]; rewrite Hn in Hin; [contradiction |].
    destruct Hin as [Heq | []]. inversion Heq; subst.
    unfold lookup. change (key_of_string "NaN") with (Str "NaN").
    cbn [obj_get]. rewrite Hn. reflexivity.
Qed.

(** The reduction keeps the later of two keys unless the earlier one has
    the strictly larger count, so it ends on the last key whose count is
    maximal. *)
Lemma reduce_peak_last_maximum (counts : JsObject Z)
    (rest : list (string * Z)) :
  forall (before after : list (string * Z)) (a : string) (c : Z),
    (forall k v, In (k, v) ((before ++ (a, c) :: after) ++ rest) ->
                 lookup counts k = Some v) ->
    Forall (fun e => snd e <= c) before ->
    Forall (fun e => snd e < c) after ->
    exists before' peak c' after',
      ((before ++ (a, c) :: after) ++ rest)%list =
        (before' ++ (peak, c') :: after')%list /\
      fold_left
        (fun a b => if gt_counts (lookup counts a) (lookup counts b)
                    then a else b)
        (map fst rest) a = peak /\
      Forall (fun e => snd e <= c') before' /\
      Forall (fun e => snd e < c') after'.
Proof.
  induction rest as [| [kb vb] rest IH]; intros before after a c Hall Hb Ha.
  - exists before, a, c, after. rewrite app_nil_r. repeat split; assumption.
  - cbn [map fst fold_left].
    assert (Hla : lookup counts a = Some c).
    { apply Hall. apply in_or_app. left. apply in_or_app. right. now left. }
    assert (Hlb : lookup counts kb = Some vb).
    { apply Hall. apply in_or_app. right. now left. }
    rewrite Hla, Hlb. cbn [gt_counts].
    destruct (Z.ltb_spec vb c) as [Hlt | Hge].
    + assert (Hre : ((before ++ (a, c) :: after) ++ (kb, vb) :: rest)%list =
                    ((before ++ (a, c) :: after ++ [(kb, vb)]) ++ rest)%list).
      { rewrite <- !app_assoc. f_equal. simpl. f_equal.
        now rewrite <- app_assoc. }
      rewrite Hre in Hall |- *.
      destruct (IH before (after ++ [(kb, vb)])%list a c)
        as (b' & p & c' & a' & Heq & Hfold & Hb' & Ha').
      * exact Hall.
      * exact Hb.
      * apply Forall_app. split; [exact Ha |]. now repeat constructor.
      * exists b', p, c', a'. now repeat split.
    + assert (Hre : ((before ++ (a, c) :: after) ++ (kb, vb) :: rest)%list =
                    (((before ++ (a, c) :: after) ++ (kb, vb) :: []) ++
                     rest)%list).
      { rewrite <- (app_assoc _ [(kb, vb)] rest). reflexivity. }
      rewrite Hre in Hall |- *.
      destruct (IH (before ++ (a, c) :: after)%list [] kb vb)
        as (b' & p & c' & a' & Heq & Hfold & Hb' & Ha').
      * exact Hall.
      * apply Forall_app. split.
        -- eapply Forall_impl; [| exact Hb]. cbn beta. intros e He. lia.
        -- constructor; [cbn [snd]; lia |].
           eapply Forall_impl; [| exact Ha]. cbn beta. intros e He. lia.
      * constructor.
      * exists b', p, c', a'. now repeat split.
Qed.

Lemma hourly_entries_nonempty (tz : Z -> Z) (r : AttendanceRecord)
    (records : list AttendanceRecord) :
  Object_entries (getHourlyBreakdown tz (r :: records)) <> [].
Proof.
  pose proof (hourly_get tz (r :: records) (hour_key tz r)) as Hget.
  cbn [filter] in Hget. unfold key_eqb in Hget.
  destruct (PropertyKey_eq_dec (hour_key tz r) (hour_key tz r)) as [_ | Hne];
    [| contradiction].
  cbn [count_of] in Hget. intros Hnil.
  unfold Object_entries in Hnil. apply app_eq_nil in Hnil.
  destruct Hnil as [Hidx Hnm]. apply map_eq_nil in Hidx.
  destruct (hour_key tz r); cbn [obj_get] in Hget;
    rewrite ?Hidx, ?Hnm in Hget; discriminate.
Qed.

(** generateInsights throws on an empty list of records, where the
    reduction has nothing to start from. On any other list it returns one
    peak_activity insight naming an hour bucket with the largest count
    and that count; among buckets with the same count the one listed
    last wins (the highest hour, or the bucket NaN of records with an
    unparseable timestamp). *)
Theorem insights_report_last_peak_hour :
  forall tz : Z -> Z,
    generateInsights tz [] =
      Thrown "TypeError: Reduce of empty array with no initial value" /\
    forall (r : AttendanceRecord) (records : list AttendanceRecord),
      exists before peak count after,
        Object_entries (getHourlyBreakdown tz (r :: records)) =
          (before ++ (peak, count) :: after)%list /\
        generateInsights tz (r :: records) =
          Returned
            [ {| insight_type := "peak_activity";
                 insight_message :=
                   "Peak activity hour: " ++ peak ++ ":00 with " ++
                   Z_to_string count ++ " records" |} ] /\
        Forall (fun e => snd e <= count) before /\
        Forall (fun e => snd e < count) after.
Proof.
  intros tz. split; [reflexivity |]. intros r records.
  pose proof (getHourlyBreakdown_shape tz (r :: records)) as Hshape.
  pose proof (hourly_entries_nonempty tz r records) as Hne.
  unfold generateInsights. cbv zeta. unfold Object_keys.
  set (o := getHourlyBreakdown tz (r :: records)) in *.
  assert (Hall : forall k v, In (k, v) (Object_entries o) ->
                             lookup o k = Some v).
  { intros k v. now apply hourly_entries_lookup. }
  destruct (Object_entries o) as [| [k0 v0] rest] eqn:He; [contradiction |].
  destruct (reduce_peak_last_maximum o rest [] [] k0 v0)
    as (b' & p & c' & a' & Heq & Hfold & Hb' & Ha').
  - exact Hall.
  - constructor.
  - constructor.
  - exists b', p, c', a'. change (([] ++ [(k0, v0)]) ++ rest)%list
      with ((k0, v0) :: rest) in Heq.
    split; [exact Heq |]. split; [| now split].
    cbn [map fst reduce_peak]. rewrite Hfold.
    assert (Hp : lookup o p = Some c').
    { apply Hall. rewrite Heq. apply in_or_app. right. now left. }
    rewrite Hp. reflexivity.
Qed.

(* ------------------------------------------------------------------ *)
(** ** Properties of the operation log and the cached analytics *)

(** Whenever the log file can be read, logOperation writes back a log
    that ends with the new entry, holds at most 1000 entries (one more
    than before, or exactly 1000), and differs from the old log followed
    by the new entry only by entries dropped at the front, oldest
    first. *)
Theorem operation_log_keeps_last_thousand :
  forall (sha256 : string -> string) (now : Z) (operation type : string)
         (recordCount : Z) (file : FileState (list OperationLog))
         (logs : list OperationLog),
    readData file = Returned logs ->
    let logEntry :=
      {| op_timestamp := now; operation := operation; op_type := type;
         recordCount := recordCount;
         checksum :=
           sha256 (operation ++ "-" ++ type ++ "-" ++ Z_to_string recordCount)
      |} in
    exists dropped front,
      logOperation sha256 now operation type recordCount file =
        Returned (front ++ [logEntry])%list /\
      logs = (dropped ++ front)%list /\
      List.length (front ++ [logEntry]) =
        Nat.min (S (List.length logs)) 1000.
Proof.
  intros sha256 now operation type recordCount file logs Hread logEntry.
  unfold logOperation. rewrite Hread. fold logEntry. cbv zeta.
  rewrite length_app. cbn [List.length].
  destruct (Nat.ltb_spec 1000 (List.length logs + 1)) as [Hlong | Hshort].
  - exists (firstn (List.length logs + 1 - 1000) logs),
           (skipn (List.length logs + 1 - 1000) logs).
    split; [| split].
    + rewrite skipn_app.
      replace (List.length logs + 1 - 1000 - List.length logs)%nat
        with 0%nat by lia.
      reflexivity.
    + symmetry. apply firstn_skipn.
    + rewrite length_app, length_skipn. cbn [List.length]. lia.
  - exists [], logs. split; [reflexivity |]. split; [reflexivity |].
    rewrite length_app. cbn [List.length]. lia.
Qed.

Lemma operation_log_keeps_last_thousand_witness :
  exists dropped front,
    logOperation (fun s => s) 1700000000000 "write" "attendance" 3 Missing =
      Returned
        (front ++
         [ {| op_timestamp := 1700000000000; operation := "write";
              op_type := "attendance"; recordCount := 3;
              checksum := "write-attendance-3" |} ])%list /\
    [] = (dropped ++ front)%list /\
    List.length
      (front ++
       [ {| op_timestamp := 1700000000000; operation := "write";
            op_type := "attendance"; recordCount := 3;
            checksum := "write-attendance-3" |} ]) =
      Nat.min 1 1000.
Proof.
  exact (operation_log_keeps_last_thousand (fun s => s) 1700000000000
           "write" "attendance" 3 Missing [] eq_refl).
Defined.

Lemma sign_in_out_unknown (l : list AttendanceRecord) :
  length_Z l =
  length_Z (filter is_sign_in l) + length_Z (filter is_sign_out l) +
  length_Z (filter is_unknown_action l).
Proof.
  unfold length_Z. induction l as [| r l IH]; [reflexivity |].
  cbn [filter]. unfold is_unknown_action at 1.
  assert (Hex : is_sign_in r = true -> is_sign_out r = false).
  { unfold is_sign_in, is_sign_out. destruct (action r) as [| | b | z | s];
      cbn; try discriminate.
    destruct (String.eqb_spec s "sign-in") as [-> |]; [reflexivity |].
    discriminate. }
  destruct (is_sign_in r) eqn:Hin.
  - rewrite (Hex eq_refl). cbn [negb andb List.length]. lia.
  - destruct (is_sign_out r); cbn [negb andb List.length]; lia.
Qed.

Lemma firstn_le_n {A} (n : nat) (l : list A) :
  (List.length (firstn n l) <= n)%nat.
Proof. rewrite length_firstn. lia. Qed.

(** The attendance analytics of a readable ledger describe the records
    the date range keeps: their number, which is the sign-ins plus the
    sign-outs plus the records with any other action; a number of unique
    users between 0 and that total; at most five peak hours; and
    anomalies that each concern a sign-in among those records. *)
Theorem attendance_analytics_counts :
  forall (tz : Z -> Z) (attendance : FileState (list AttendanceRecord))
         (options : Options) (records : list AttendanceRecord),
    readData attendance = Returned records ->
    let filtered :=
      filterRecordsByDateRange records (opt_dateRange options) in
    exists a,
      getAttendanceAnalytics tz attendance options = Returned a /\
      aa_totalRecords a = length_Z filtered /\
      aa_totalRecords a =
        signInCount a + signOutCount a +
        length_Z (filter is_unknown_action filtered) /\
      0 <= aa_uniqueUsers a <= aa_totalRecords a /\
      (List.length (aa_peakHours a) <= 5)%nat /\
      Forall (fun an => In (an_record an) filtered /\
                        is_sign_in (an_record an) = true)
        (aa_anomalies a).
Proof.
  intros tz attendance options records Hread filtered.
  unfold getAttendanceAnalytics. rewrite Hread. fold filtered. cbv zeta.
  eexists. split; [reflexivity |]. cbn [aa_totalRecords aa_uniqueUsers
    signInCount signOutCount aa_peakHours aa_anomalies].
  split; [reflexivity |]. split; [apply sign_in_out_unknown |].
  split; [| split].
  - unfold distinct, length_Z. split; [lia |]. apply Nat2Z.inj_le.
    replace (List.length filtered)
      with (List.length (map username filtered)) by apply length_map.
    apply NoDup_incl_length; [apply NoDup_nodup |].
    intros x Hx. now apply nodup_In in Hx.
  - unfold calculatePeakHours, sortedHours, slice0.
    rewrite length_map. apply firstn_le_n.
  - unfold detectAnomalies. cbv zeta.
    apply Forall_forall. intros an Han. apply in_flat_map in Han.
    destruct Han as (r & Hr & Han).
    destruct (unusual_time tz (avgSignInHour tz filtered) r) eqn:Hu;
      [| contradiction].
    destruct Han as [<- | []]. cbn [an_record unusual_time_anomaly].
    split; [exact Hr |].
    unfold unusual_time in Hu. now apply andb_true_iff in Hu.
Qed.

Lemma attendance_analytics_counts_witness :
  exists a,
    getAttendanceAnalytics UTC (Content sample_ledger) sample_options =
      Returned a /\
    aa_totalRecords a = 8 /\
    aa_totalRecords a = signInCount a + signOutCount a + 1 /\
    0 <= aa_uniqueUsers a <= aa_totalRecords a /\
    (List.length (aa_peakHours a) <= 5)%nat /\
    Forall (fun an => In (an_record an) (firstn 8 sample_ledger) /\
                      is_sign_in (an_record an) = true)
      (aa_anomalies a).
Proof.
  exact (attendance_analytics_counts UTC (Content sample_ledger)
           sample_options sample_ledger eq_refl).
Defined.

(** The analytics of the sample day: eight of the nine records fall into
    the range; six sign-ins, one sign-out and the lunch record; six users;
    the four hours of the day ranked by count; one anomaly, the sign-in
    at twenty-three against a mean of 68/6. *)
Example attendance_analytics_of_a_day :
  match getAttendanceAnalytics UTC (Content sample_ledger) sample_options with
  | Returned a =>
      aa_totalRecords a = 8 /\ signInCount a = 6 /\ signOutCount a = 1 /\
      aa_uniqueUsers a = 6 /\
      dailyAverage a = num_of_Z 8 /\
      aa_peakHours a =
        [ {| hour := Some 9; count := 5 |}; {| hour := Some 12; count := 1 |};
          {| hour := Some 17; count := 1 |};
          {| hour := Some 23; count := 1 |} ] /\
      obj_get (Str "ann") (userActivity a) =
        Some {| signIns := 1; signOuts := 2 |} /\
      map an_record (aa_anomalies a) =
        [record_at 8 "fay" "sign-in" 19675 23] /\
      map an_message (aa_anomalies a) =
        ["Unusual sign-in time: 23:00 (average: 11:00)"]
  | Thrown _ => False
  end.
Proof. vm_compute. repeat split. Qed.

Lemma analytics_of_attendance (tz : Z -> Z)
    (attendance : FileState (list AttendanceRecord)) (options : Options) :
  analytics_of tz attendance "attendance" options =
  getAttendanceAnalytics tz attendance options.
Proof. reflexivity. Qed.

(** A result computed on a cache miss is stored under the key of the
    request and the time of the computation. For the next five minutes a
    request with the same type and the same options text is answered
    from the cache, whatever the ledger holds by then (new records, or a
    file that can no longer be read); from five minutes on the answer is
    computed again from the ledger as it is then, and a failure of that
    computation leaves the old entry in place. *)
Theorem analytics_cache_five_minutes :
  forall (tz : Z -> Z) (clock : nat -> Z)
         (attendance : FileState (list AttendanceRecord))
         (options : Options) (analyticsCache : list (string * CacheEntry))
         (a : AttendanceAnalytics),
    get_name ("attendance-" ++ options_json options) analyticsCache = None ->
    getAttendanceAnalytics tz attendance options = Returned a ->
    let cacheKey := "attendance-" ++ options_json options in
    let cache1 :=
      set_name cacheKey
        {| cached_data := a; cached_timestamp := clock 0%nat |}
        analyticsCache in
    getDataAnalytics tz clock attendance "attendance" options analyticsCache =
      (cache1, Returned a) /\
    forall (clock' : nat -> Z)
           (attendance' : FileState (list AttendanceRecord))
           (options' : Options),
      options_json options' = options_json options ->
      getDataAnalytics tz clock' attendance' "attendance" options' cache1 =
        if clock' 0%nat - clock 0%nat <? 300000
        then (cache1, Returned a)
        else
          match getAttendanceAnalytics tz attendance' options' with
          | Returned a' =>
              (set_name cacheKey
                 {| cached_data := a'; cached_timestamp := clock' 1%nat |}
                 cache1,
               Returned a')
          | Thrown error => (cache1, Thrown error)
          end.
Proof.
  intros tz clock attendance options analyticsCache a Hmiss Hcomp
         cacheKey cache1.
  split.
  - unfold getDataAnalytics. cbv zeta.
    change ("attendance" ++ "-" ++ options_json options)
      with ("attendance-" ++ options_json options).
    rewrite Hmiss, analytics_of_attendance, Hcomp. reflexivity.
  - intros clock' attendance' options' Hsame.
    unfold getDataAnalytics. cbv zeta. rewrite Hsame.
    change ("attendance" ++ "-" ++ options_json options) with cacheKey.
    unfold cache1 at 1. rewrite get_name_set_same.
    cbn [cached_timestamp cached_data]. unfold cacheExpiry.
    destruct (clock' 0%nat - clock 0%nat <? 300000); [reflexivity |].
    rewrite analytics_of_attendance.
    destruct (getAttendanceAnalytics tz attendance' options');
      reflexivity.
Qed.

Lemma analytics_cache_five_minutes_witness :
  getDataAnalytics UTC (fun _ => 1700000000000) Missing "attendance"
    {| options_json := "{}"; opt_dateRange := None |} [] =
    ([("attendance-{}",
       {| cached_data :=
            {| aa_totalRecords := 0; aa_uniqueUsers := 0; signInCount := 0;
               signOutCount := 0; dailyAverage := num_of_Z 0;
               aa_peakHours := []; userActivity := empty_object;
               aa_anomalies := [] |};
          cached_timestamp := 1700000000000 |})],
     Returned
       {| aa_totalRecords := 0; aa_uniqueUsers := 0; signInCount := 0;
          signOutCount := 0; dailyAverage := num_of_Z 0;
          aa_peakHours := []; userActivity := empty_object;
          aa_anomalies := [] |}).
Proof.
  exact (proj1 (analytics_cache_five_minutes UTC (fun _ => 1700000000000)
                  Missing {| options_json := "{}"; opt_dateRange := None |}
                  [] _ eq_refl eq_refl)).
Defined.

(** A request that throws never changes the cache: whatever the type,
    the options and the state of the ledger file, the cache after a
    failed call is the cache before it. A type other than attendance
    always fails unless an entry is cached under its key. *)
Theorem analytics_failures_are_not_cached :
  forall (tz : Z -> Z) (clock : nat -> Z)
         (attendance : FileState (list AttendanceRecord)) (type : string)
         (options : Options) (analyticsCache : list (string * CacheEntry)),
    (forall error,
       snd (getDataAnalytics tz clock attendance type options
              analyticsCache) = Thrown error ->
       fst (getDataAnalytics tz clock attendance type options
              analyticsCache) = analyticsCache) /\
    (type <> "attendance" ->
     get_name (type ++ "-" ++ options_json options) analyticsCache = None ->
     exists error,
       getDataAnalytics tz clock attendance type options analyticsCache =
         (analyticsCache, Thrown error)).
Proof.
  intros tz clock attendance type options analyticsCache. split.
  - intros error. unfold getDataAnalytics. cbv zeta.
    destruct (get_name _ analyticsCache) as [entry |].
    + destruct (clock 0%nat - cached_timestamp entry <? cacheExpiry);
        [discriminate |].
      destruct (analytics_of tz attendance type options);
        [discriminate | reflexivity].
    + destruct (analytics_of tz attendance type options);
        [discriminate | reflexivity].
  - intros Htype Hmiss. unfold getDataAnalytics. cbv zeta. rewrite Hmiss.
    unfold analytics_of.
    destruct (String.eqb_spec type "attendance") as [He | _];
      [contradiction |].
    destruct (String.eqb type "users"); [eexists; reflexivity |].
    destruct (String.eqb type "productivity"); [eexists; reflexivity |].
    destruct (String.eqb type "trends"); eexists; reflexivity.
Qed.

(* ------------------------------------------------------------------ *)
(** ** The list of accounts *)

(** Any verified token, whatever its role, gets the list of all accounts
    in the order of the file, each without its password; after a
    successful registration the list is the one before followed by the
    account the registration answered. *)
Theorem registered_account_is_listed :
  forall (lib : Libraries) (clock : nat -> Z)
         (username email password : string) (role : option string)
         (srv : Server) (authorization : option string) (user : AuthUser),
    authenticateToken lib authorization = Next user ->
    account_status
      (snd (post_register lib clock username email password role srv))
      = 201 ->
    exists users newUser,
      USERS_FILE srv = Some users /\
      account_body
        (snd (post_register lib clock username email password role srv)) =
        Registered newUser /\
      get_users lib authorization srv =
        {| account_status := 200;
           account_body := UserList (map without_password users) |} /\
      get_users lib authorization
        (fst (post_register lib clock username email password role srv)) =
        {| account_status := 200;
           account_body :=
             UserList (map without_password users ++ [newUser])%list |}.
Proof.
  intros lib clock username email password role srv authorization user
         Hauth Hok.
  unfold post_register in *.
  destruct (USERS_FILE srv) as [users |] eqn:Husers;
    [| cbn in Hok; discriminate].
  destruct (existsb (taken username email) users) eqn:Htaken;
    [cbn in Hok; discriminate |].
  cbn [fst snd account_body]. eexists. eexists.
  split; [reflexivity |]. split; [reflexivity |].
  unfold get_users. rewrite Hauth, Husers. cbn [USERS_FILE].
  split; [reflexivity |]. rewrite map_app. reflexivity.
Qed.

Lemma registered_account_is_listed_witness :
  exists users newUser,
    USERS_FILE empty_server = Some users /\
    account_body
      (snd (post_register sample_libraries sample_clock "carol"
              "carol@company.com" "s3cret" None empty_server)) =
      Registered newUser /\
    get_users sample_libraries (Some "Bearer admin") empty_server =
      {| account_status := 200;
         account_body := UserList (map without_password users) |} /\
    get_users sample_libraries (Some "Bearer admin")
      (fst (post_register sample_libraries sample_clock "carol"
              "carol@company.com" "s3cret" None empty_server)) =
      {| account_status := 200;
         account_body :=
           UserList (map without_password users ++ [newUser])%list |}.
Proof.
  exact (registered_account_is_listed sample_libraries sample_clock "carol"
           "carol@company.com" "s3cret" None empty_server
           (Some "Bearer admin") _ eq_refl eq_refl).
Defined.

(* ------------------------------------------------------------------ *)
(** ** Further worked scenarios *)

Example levenshtein_samples :
  levenshteinDistance "kitten" "sitting" = 3 /\
  levenshteinDistance "flaw" "lawn" = 2 /\
  levenshteinDistance "admin" "" = 5.
Proof. repeat split. Qed.

(** Two records at nine and two at seventeen: the reduction ends on the
    later of the two tied hours, while the ranking of the peak hours
    chart puts the earlier one first. *)
Example insights_tie :
  let records :=
    [ record_at 1 "ann" "sign-in" 19700 9;
      record_at 2 "bob" "sign-in" 19700 9;
      record_at 3 "ann" "sign-out" 19700 17;
      record_at 4 "bob" "sign-out" 19700 17 ] in
  generateInsights UTC records =
    Returned
      [ {| insight_type := "peak_activity";
           insight_message := "Peak activity hour: 17:00 with 2 records" |} ]
  /\
  sortedHours 1 (getHourlyBreakdown UTC records) = [("9", 2)].
Proof. split; reflexivity. Qed.

(** Twelve users in a day give an attendance rate of 120. *)
Example attendance_rate_above_hundred :
  calculateAttendanceRate
    (gatherDashboardData UTC
       (map (fun k => record_at (Z.of_nat k)
                        (N_to_string (N.of_nat k)) "sign-in" 19700 9)
          (seq 0 12))
       (19700 * msPerDay + 12 * msPerHour)) =
  num_of_Z 120.
Proof. vm_compute. reflexivity. Qed.

(** A full log of 1000 entries stays at 1000 after one more write. *)
Example operation_log_full :
  let entry := fun k =>
    {| op_timestamp := Z.of_nat k; operation := "write";
       op_type := "attendance"; recordCount := 1; checksum := "" |} in
  match logOperation (fun s => s) 5000 "write" "tasks" 2
          (Content (map entry (seq 0 1000))) with
  | Returned logs =>
      List.length logs = 1000%nat /\
      option_map op_timestamp (hd_error logs) = Some 1 /\
      option_map op_type (nth_error logs 999) = Some "tasks"
  | Thrown _ => False
  end.
Proof. vm_compute. repeat split. Qed.
